(** * History-outline analyzer: scanner and aggregator

    A shallow embedding of [analyze_history_outline.py]
    (class [HistoryOutlineAnalyzer]) and the properties of its
    knowledge-point scanner and of its distribution aggregator.

    Python strings are sequences of Unicode code points, so a string is a
    list of code points; string literals of the script are written as
    UTF-8 literals and decoded once.  The character classes of the [re]
    module ([\d], [\s]) and of [str.strip] belong to the interpreter, not
    to the script: the development is parametric in them and instantiated
    with the interpreter's tables for the concrete scenarios. *)

From Stdlib Require Import Strings.String Strings.Ascii.
From Stdlib Require Import List NArith ZArith QArith Bool Arith Lia.
From Stdlib Require Import Sorting.Sorted QArith.Qabs.
Import ListNotations.
Close Scope Q_scope.

Set Implicit Arguments.

(** ** Strings as code-point sequences *)

Definition char := N.
Definition str := list char.

Fixpoint utf8_decode (acc : N) (need : nat) (bs : list N) : str :=
  match bs with
  | [] => []
  | b :: rest =>
      match need with
      | S k =>
          let acc' := (acc * 64 + b mod 64)%N in
          match k with
          | O => acc' :: utf8_decode 0 0 rest
          | S _ => utf8_decode acc' k rest
          end
      | O =>
          if (b <? 128)%N then b :: utf8_decode 0 0 rest
          else if (b <? 224)%N then utf8_decode (b mod 32) 1 rest
          else if (b <? 240)%N then utf8_decode (b mod 16) 2 rest
          else utf8_decode (b mod 8) 3 rest
      end
  end.

Definition utf8 (s : string) : str :=
  utf8_decode 0 0 (map N_of_ascii (list_ascii_of_string s)).

Definition str_eqb (a b : str) : bool :=
  if list_eq_dec N.eq_dec a b then true else false.

Definition opt_str_eqb (a b : option str) : bool :=
  match a, b with
  | Some x, Some y => str_eqb x y
  | None, None => true
  | _, _ => false
  end.

(** [s.startswith(p)] *)
Fixpoint prefix (p s : str) : bool :=
  match p, s with
  | [], _ => true
  | _ :: _, [] => false
  | a :: p', b :: s' => (a =? b)%N && prefix p' s'
  end.

(** A regular expression is used through its head matcher: what the
    pattern matches at the very start of the remaining text.  [re.search]
    tries the head matcher at every position from left to right. *)
Fixpoint search_at (h : str -> bool) (s : str) : bool :=
  h s || match s with
         | [] => false
         | _ :: rest => search_at h rest
         end.

(** [p in s] for strings *)
Definition contains (p s : str) : bool := search_at (prefix p) s.

(** [s in keys] for a list of strings *)
Definition mem_str (s : str) (l : list str) : bool := existsb (str_eqb s) l.

Definition newline : char := 10%N.

Definition not_newline (c : char) : bool := negb (c =? newline)%N.

Fixpoint take_while (A : Type) (f : A -> bool) (l : list A) : list A :=
  match l with
  | [] => []
  | x :: rest => if f x then x :: take_while f rest else []
  end.

Fixpoint drop_while (A : Type) (f : A -> bool) (l : list A) : list A :=
  match l with
  | [] => []
  | x :: rest => if f x then drop_while f rest else l
  end.

(** [content.split('\n')]: never empty, [''.split('\n') == ['']]. *)
Fixpoint split_lines (s : str) : list str :=
  match s with
  | [] => [[]]
  | c :: rest =>
      if (c =? newline)%N then [] :: split_lines rest
      else match split_lines rest with
           | l :: ls => (c :: l) :: ls
           | [] => [[c]]
           end
  end.

(** ['\n'.join(lines)] *)
Fixpoint join_lines (ls : list str) : str :=
  match ls with
  | [] => []
  | [l] => l
  | l :: rest => l ++ newline :: join_lines rest
  end.

(** [' '.join(parts)] *)
Fixpoint join_space (ls : list str) : str :=
  match ls with
  | [] => []
  | [l] => l
  | l :: rest => l ++ 32%N :: join_space rest
  end.

(** Substitution by the empty string and counting of the successive
    non-overlapping matches ([re.sub(p, '', s)], [len(re.findall(p, s))]).
    The head matcher gives the length of the match at the start of the
    text; every pattern of the script matches at least one character.
    [skip] is the number of characters of the current match still to be
    consumed. *)
Fixpoint re_sub_from (m : str -> option nat) (skip : nat) (s : str) : str :=
  match s with
  | [] => []
  | c :: rest =>
      match skip with
      | S k => re_sub_from m k rest
      | O =>
          match m s with
          | Some (S n) => re_sub_from m n rest
          | _ => c :: re_sub_from m 0 rest
          end
      end
  end.

Definition re_sub (m : str -> option nat) (s : str) : str := re_sub_from m 0 s.

Fixpoint re_count_from (m : str -> option nat) (skip : nat) (s : str) : nat :=
  match s with
  | [] => 0
  | _ :: rest =>
      match skip with
      | S k => re_count_from m k rest
      | O =>
          match m s with
          | Some (S n) => S (re_count_from m n rest)
          | _ => re_count_from m 0 rest
          end
      end
  end.

Definition re_count (m : str -> option nat) (s : str) : nat := re_count_from m 0 s.

(** [re.search]: the text from the leftmost match on, and the length of
    that match. *)
Fixpoint re_search (m : str -> option nat) (s : str) : option (str * nat) :=
  match m s with
  | Some n => Some (s, n)
  | None =>
      match s with
      | [] => None
      | _ :: rest => re_search m rest
      end
  end.

Definition is_some (A : Type) (o : option A) : bool :=
  match o with Some _ => true | None => false end.

(** A literal pattern. *)
Definition m_lit (p : str) (s : str) : option nat :=
  if prefix p s then Some (length p) else None.

(** An alternation of literals, tried in order. *)
Definition m_alt (p q : str) (s : str) : option nat :=
  match m_lit p s with
  | Some n => Some n
  | None => m_lit q s
  end.

(** ** Constants of the script *)

Definition s_intro : str := Eval vm_compute in utf8 "导言".
Definition s_ch1 : str := Eval vm_compute in utf8 "第一章".
Definition s_ch2 : str := Eval vm_compute in utf8 "第二章".
Definition s_ch3 : str := Eval vm_compute in utf8 "第三章".
Definition s_ch4 : str := Eval vm_compute in utf8 "第四章".
Definition s_ch5 : str := Eval vm_compute in utf8 "第五章".
Definition s_ch6 : str := Eval vm_compute in utf8 "第六章".
Definition s_ch7 : str := Eval vm_compute in utf8 "第七章".
Definition s_ch8 : str := Eval vm_compute in utf8 "第八章".
Definition s_ch9 : str := Eval vm_compute in utf8 "第九章".
Definition s_ch10 : str := Eval vm_compute in utf8 "第十章".

Definition CHAPTERS : list str :=
  [s_intro; s_ch1; s_ch2; s_ch3; s_ch4; s_ch5;
   s_ch6; s_ch7; s_ch8; s_ch9; s_ch10].

Definition CHAPTER_NAMES : list (str * str) := Eval vm_compute in
  [(s_intro, utf8 "导言");
   (s_ch1, utf8 "进入近代后中华民族的磨难与抗争");
   (s_ch2, utf8 "不同社会力量对国家出路的早期探索");
   (s_ch3, utf8 "辛亥革命与君主专制制度的终结");
   (s_ch4, utf8 "中国共产党成立和中国革命新局面");
   (s_ch5, utf8 "中国革命的新道路");
   (s_ch6, utf8 "中华民族的抗日战争");
   (s_ch7, utf8 "为建立新中国而奋斗");
   (s_ch8, utf8 "中华人民共和国的成立与中国社会主义建设道路的探索");
   (s_ch9, utf8 "改革开放与中国特色社会主义的开创和发展");
   (s_ch10, utf8 "中国特色社会主义进入新时代")].

Definition s_kp : str := Eval vm_compute in utf8 "知识点".
Definition c_di : char := Eval vm_compute in hd 0%N (utf8 "第").
Definition c_ye : char := Eval vm_compute in hd 0%N (utf8 "页").
Definition c_jie : char := Eval vm_compute in hd 0%N (utf8 "节").
Definition c_star : char := Eval vm_compute in hd 0%N (utf8 "★").
Definition c_lsq : char := Eval vm_compute in hd 0%N (utf8 "[").
Definition c_rsq : char := Eval vm_compute in hd 0%N (utf8 "]").
Definition c_lfw : char := Eval vm_compute in hd 0%N (utf8 "【").
Definition c_rfw : char := Eval vm_compute in hd 0%N (utf8 "】").
Definition s_eq3 : str := Eval vm_compute in utf8 "===".
Definition s_star1 : str := [c_star].
Definition s_star2 : str := [c_star; c_star].
Definition s_star3 : str := [c_star; c_star; c_star].
Definition s_unmarked : str := Eval vm_compute in utf8 "未标注".
Definition s_single : str := Eval vm_compute in utf8 "单选".
Definition s_short : str := Eval vm_compute in utf8 "简答".
Definition s_essay : str := Eval vm_compute in utf8 "论述".
Definition s_combined : str := Eval vm_compute in utf8 "综合".
Definition s_tag_single : str := Eval vm_compute in utf8 "【单选】".
Definition s_tag_short : str := Eval vm_compute in utf8 "【简答】".
Definition s_tag_essay : str := Eval vm_compute in utf8 "【论述】".
Definition s_real : str := Eval vm_compute in utf8 "【真题·".
Definition s_mock : str := Eval vm_compute in utf8 "【模拟·".
Definition s_answer : str := Eval vm_compute in utf8 "【答案】".
Definition s_explain : str := Eval vm_compute in utf8 "【解析】".
Definition s_zero : str := Eval vm_compute in utf8 "0".

Definition is_nil (A : Type) (l : list A) : bool :=
  match l with [] => true | _ :: _ => false end.

(** Truth value of [None] or a string: only a non-empty string is true. *)
Definition truthy (o : option str) : bool :=
  match o with
  | Some (_ :: _) => true
  | _ => false
  end.

(** [enumerate(lines)] *)
Fixpoint enumerate_from (A : Type) (n : nat) (l : list A) : list (nat * A) :=
  match l with
  | [] => []
  | x :: rest => (n, x) :: enumerate_from (S n) rest
  end.

Definition enumerate (A : Type) (l : list A) : list (nat * A) := enumerate_from 0 l.

(** [d.get(key, default)] where the key may be [None] *)
Fixpoint dict_get (A : Type) (d : list (str * A)) (k : str) : option A :=
  match d with
  | [] => None
  | (k', v) :: rest => if str_eqb k k' then Some v else dict_get rest k
  end.

Definition dict_get_default (d : list (str * str)) (k : option str) (default : str) : str :=
  match k with
  | None => default
  | Some key => match dict_get d key with Some v => v | None => default end
  end.

(** ** The knowledge-point record

    The dictionary built at lines 251-261; [kp_content_lines] is [None]
    once the temporary key has been deleted (lines 287-289). *)
Record KnowledgePoint : Type := mkKnowledgePoint {
  kp_id : str;
  kp_title : str;
  kp_chapter : option str;
  kp_chapter_name : str;
  kp_importance : option str;
  kp_exam_requirements : list str;
  kp_content : list str;
  kp_start_line : nat;
  kp_content_lines : option (list str)
}.

Definition set_importance (k : KnowledgePoint) (imp : option str) : KnowledgePoint :=
  {| kp_id := kp_id k; kp_title := kp_title k; kp_chapter := kp_chapter k;
     kp_chapter_name := kp_chapter_name k; kp_importance := imp;
     kp_exam_requirements := kp_exam_requirements k; kp_content := kp_content k;
     kp_start_line := kp_start_line k; kp_content_lines := kp_content_lines k |}.

Definition del_content_lines (k : KnowledgePoint) : KnowledgePoint :=
  {| kp_id := kp_id k; kp_title := kp_title k; kp_chapter := kp_chapter k;
     kp_chapter_name := kp_chapter_name k; kp_importance := kp_importance k;
     kp_exam_requirements := kp_exam_requirements k; kp_content := kp_content k;
     kp_start_line := kp_start_line k; kp_content_lines := None |}.

(** State of the scan loop of [extract_knowledge_points]. *)
Record scan_state : Type := mkScan {
  knowledge_points : list KnowledgePoint;
  current_chapter : option str;
  current_knowledge : option KnowledgePoint
}.

(** ** Exceptions and dictionaries

    The aggregator indexes dictionaries and divides; both can raise.  A
    computation either returns or raises, and [d[k] += n] raises
    [KeyError] on a missing key.  A dictionary keeps its insertion order
    (the report iterates over [items()]), so it is an association list. *)

Inductive py_error : Type := KeyError | ZeroDivisionError | ValueError.

Inductive result (A : Type) : Type :=
| Ok (a : A)
| Raise (e : py_error).

Arguments Ok {A} a.
Arguments Raise {A} e.

Definition bind (A B : Type) (c : result A) (f : A -> result B) : result B :=
  match c with
  | Ok a => f a
  | Raise e => Raise e
  end.

Notation "x <- c1 ;; c2" := (bind c1 (fun x => c2))
  (at level 61, c1 at next level, right associativity).

(** A [for] loop whose body may raise. *)
Fixpoint for_each (S A : Type) (body : S -> A -> result S) (l : list A) (s : S)
  : result S :=
  match l with
  | [] => Ok s
  | x :: rest => s' <- body s x ;; for_each body rest s'
  end.

Definition dict (A : Type) : Type := list (str * A).

(** [k in d] *)
Definition dict_in (A : Type) (k : str) (d : dict A) : bool :=
  mem_str k (map fst d).

(** [k in d] for a key that may be [None]: the keys are strings *)
Definition dict_in_opt (A : Type) (k : option str) (d : dict A) : bool :=
  match k with
  | Some key => dict_in key d
  | None => false
  end.

(** [d[k] += n] *)
Fixpoint dict_add (d : dict nat) (k : str) (n : nat) : result (dict nat) :=
  match d with
  | [] => Raise KeyError
  | (k', v) :: rest =>
      if str_eqb k k' then Ok ((k', v + n) :: rest)
      else rest' <- dict_add rest k n ;; Ok ((k', v) :: rest')
  end.

(** [d[k] += n] for a key that may be [None] *)
Definition dict_add_opt (d : dict nat) (k : option str) (n : nat) : result (dict nat) :=
  match k with
  | Some key => dict_add d key n
  | None => Raise KeyError
  end.

(** [d[k] = v]: replaces the value of a present key, appends a new key *)
Fixpoint dict_set (A : Type) (d : dict A) (k : str) (v : A) : dict A :=
  match d with
  | [] => [(k, v)]
  | (k', v') :: rest =>
      if str_eqb k k' then (k', v) :: rest else (k', v') :: dict_set rest k v
  end.

(** [{k: 0 for k in keys}] *)
Definition dict_zero (keys : list str) : dict nat := map (fun k => (k, 0)) keys.

(** [sum(d.values())] *)
Definition dict_total (d : dict nat) : nat := list_sum (map snd d).

(** ** The scanner, parametric in the interpreter's character classes *)

(** [isdigit] is [\d] of [re] on [str] patterns; [isspace] is [\s] of
    [re] and the set of characters removed by [str.strip()];
    [str_isdigit] is [str.isdigit()] and [py_int] is [int()] on a
    string. *)
Class CharClasses : Type := {
  isdigit : char -> bool;
  isspace : char -> bool;
  str_isdigit : str -> bool;
  py_int : str -> result nat
}.

Section Scanner.

Context {cc : CharClasses}.

Definition lstrip (s : str) : str := drop_while isspace s.
Definition rstrip (s : str) : str := rev (drop_while isspace (rev s)).
Definition strip (s : str) : str := rstrip (lstrip s).

(** [re.search(r'^\s*$', line)]: [$] holds at the end of the text and
    before a final newline. *)
Fixpoint blank_re (s : str) : bool :=
  match s with
  | [] => true
  | c :: rest => ((c =? newline)%N && is_nil rest) || (isspace c && blank_re rest)
  end.

(** [\d+] followed by what [h] accepts, at the start of [s]: the number
    of digits taken, the longest run that lets the rest match *)
Fixpoint m_digits_then (h : str -> bool) (s : str) : option nat :=
  match s with
  | [] => None
  | d :: rest =>
      if isdigit d then
        match m_digits_then h rest with
        | Some k => Some (S k)
        | None => if h rest then Some 1 else None
        end
      else None
  end.

(** [第\d+页] at the start of [s] *)
Definition h_page (s : str) : bool :=
  match s with
  | [] => false
  | c :: rest => (c =? c_di)%N && is_some (m_digits_then (prefix [c_ye]) rest)
  end.

(** [===.*===] at the start of [s]; [.] is any character but a newline *)
Definition h_divider (s : str) : bool :=
  prefix s_eq3 s && contains s_eq3 (take_while not_newline (skipn 3 s)).

(** [re.search(r'第\d+页|===.*===', line)] as a truth value *)
Definition chapter_re (line : str) : bool :=
  search_at (fun s => h_page s || h_divider s) line.

(** [知识点\d+] at the start of [s]: the label and the longest run of digits *)
Definition m_kp (s : str) : option nat :=
  if prefix s_kp s then
    match length (take_while isdigit (skipn 3 s)) with
    | O => None
    | S k => Some (3 + S k)
    end
  else None.

(** Index of the first [close] in [s], no newline before it *)
Fixpoint find_close (close : char) (s : str) : option nat :=
  match s with
  | [] => None
  | c :: rest =>
      if (c =? close)%N then Some 0
      else if (c =? newline)%N then None
      else option_map S (find_close close rest)
  end.

(** [\[.*?\]] and [【.*?】] at the start of [s]: up to the nearest closing
    bracket *)
Definition m_bracket (open close : char) (s : str) : option nat :=
  match s with
  | [] => None
  | c :: rest =>
      if (c =? open)%N then
        match find_close close rest with
        | Some k => Some (S (S k))
        | None => None
        end
      else None
  end.

Definition is_star (c : char) : bool := (c =? c_star)%N.

(** [★+] at the start of [s] *)
Definition m_stars (s : str) : option nat :=
  match length (take_while is_star s) with
  | O => None
  | S k => Some (S k)
  end.

(** [(★★★|★★|★)] at the start of [s]: the alternatives in order *)
Definition m_importance (s : str) : option nat :=
  if prefix s_star3 s then Some 3
  else if prefix s_star2 s then Some 2
  else if prefix s_star1 s then Some 1
  else None.

(** [m.group(1) if m else None] for [re.search(r'(★★★|★★|★)', line)] *)
Definition importance_of (line : str) : option str :=
  match re_search m_importance line with
  | Some (s, n) => Some (firstn n s)
  | None => None
  end.

(** The chapter loop of lines 215-218 (and 383-386): the first chapter of
    [CHAPTERS] named on a line that also carries a page or divider mark. *)
Definition is_chapter_of (line : str) (chapter : str) : bool :=
  contains chapter line && chapter_re line.

Definition detect_chapter (line : str) (current : option str) : option str :=
  match find (is_chapter_of line) CHAPTERS with
  | Some chapter => Some chapter
  | None => current
  end.

(** The test of line 221 *)
Definition is_knowledge_title (line : str) : bool :=
  contains s_kp line && is_some (re_search m_kp line).

(** Lines 227-228 *)
Definition knowledge_id_of (line : str) : str :=
  match re_search m_kp line with
  | Some (s, n) => firstn (n - 3) (skipn 3 s)
  | None => s_zero
  end.

(** Lines 231-235 *)
Definition knowledge_title_of (line : str) : str :=
  let t1 := strip (re_sub m_kp line) in
  let t2 := strip (re_sub (m_bracket c_lsq c_rsq) t1) in
  let t3 := strip (re_sub (m_bracket c_lfw c_rfw) t2) in
  strip (re_sub m_stars t3).

(** Lines 242-248 *)
Definition exam_requirements_of (line : str) : list str :=
  (if contains s_tag_single line then [s_single] else [])
  ++ (if contains s_tag_short line then [s_short] else [])
  ++ (if contains s_tag_essay line then [s_essay] else []).

(** Lines 251-261 *)
Definition new_knowledge (i : nat) (line : str) (chapter : option str) : KnowledgePoint :=
  {| kp_id := knowledge_id_of line;
     kp_title := knowledge_title_of line;
     kp_chapter := chapter;
     kp_chapter_name := dict_get_default CHAPTER_NAMES chapter [];
     kp_importance := importance_of line;
     kp_exam_requirements := exam_requirements_of line;
     kp_content := [];
     kp_start_line := i;
     kp_content_lines := Some [] |}.

(** Lines 273-280 *)
Definition append_content (k : KnowledgePoint) (line : str) : KnowledgePoint :=
  {| kp_id := kp_id k; kp_title := kp_title k; kp_chapter := kp_chapter k;
     kp_chapter_name := kp_chapter_name k;
     kp_importance :=
       if negb (truthy (kp_importance k)) then
         match importance_of line with
         | Some imp => Some imp
         | None => kp_importance k
         end
       else kp_importance k;
     kp_exam_requirements := kp_exam_requirements k;
     kp_content := kp_content k ++ [strip line];
     kp_start_line := kp_start_line k;
     kp_content_lines := option_map (fun ls => ls ++ [line]) (kp_content_lines k) |}.

(** [knowledge_points.append(current_knowledge)] guarded by
    [if current_knowledge] *)
Definition flush (kps : list KnowledgePoint) (current : option KnowledgePoint)
  : list KnowledgePoint :=
  match current with
  | Some k => kps ++ [k]
  | None => kps
  end.

(** One iteration of the loop of lines 213-280. *)
Definition scan_step (st : scan_state) (il : nat * str) : scan_state :=
  let (i, line) := il in
  let chapter := detect_chapter line (current_chapter st) in
  if is_knowledge_title line then
    mkScan (flush (knowledge_points st) (current_knowledge st))
           chapter
           (Some (new_knowledge i line chapter))
  else
    match current_knowledge st with
    | Some k =>
        if kp_start_line k <? i then
          let next_knowledge := is_some (re_search m_kp line) in
          let next_chapter := existsb (is_chapter_of line) CHAPTERS in
          if next_knowledge || next_chapter then
            mkScan (knowledge_points st ++ [k]) chapter None
          else if negb (is_nil (strip line)) && negb (blank_re line) then
            mkScan (knowledge_points st) chapter (Some (append_content k line))
          else mkScan (knowledge_points st) chapter (Some k)
        else mkScan (knowledge_points st) chapter (Some k)
    | None => mkScan (knowledge_points st) chapter None
    end.

Definition scan_init : scan_state := mkScan [] None None.

Definition scan (lines : list str) : scan_state :=
  fold_left scan_step (enumerate lines) scan_init.

(** [extract_knowledge_points] on [self.lines] *)
Definition extract_knowledge_points (lines : list str) : list KnowledgePoint :=
  let st := scan lines in
  map del_content_lines (flush (knowledge_points st) (current_knowledge st)).

End Scanner.

(** ** The interpreter's character classes

    [\d] is the Unicode decimal-digit class (general category Nd) and
    [\s] / [str.strip()] the Unicode white-space class of CPython 3
    (Unicode 14 tables). *)

Definition in_ranges (rs : list (N * N)) (c : char) : bool :=
  existsb (fun r => (fst r <=? c)%N && (c <=? snd r)%N) rs.

Definition decimal_ranges : list (N * N) :=
  [(48, 57); (1632, 1641); (1776, 1785); (1984, 1993); (2406, 2415);
   (2534, 2543); (2662, 2671); (2790, 2799); (2918, 2927); (3046, 3055);
   (3174, 3183); (3302, 3311); (3430, 3439); (3558, 3567); (3664, 3673);
   (3792, 3801); (3872, 3881); (4160, 4169); (4240, 4249); (6112, 6121);
   (6160, 6169); (6470, 6479); (6608, 6617); (6784, 6793); (6800, 6809);
   (6992, 7001); (7088, 7097); (7232, 7241); (7248, 7257); (42528, 42537);
   (43216, 43225); (43264, 43273); (43472, 43481); (43504, 43513);
   (43600, 43609); (44016, 44025); (65296, 65305); (66720, 66729);
   (68912, 68921); (69734, 69743); (69872, 69881); (69942, 69951);
   (70096, 70105); (70384, 70393); (70736, 70745); (70864, 70873);
   (71248, 71257); (71360, 71369); (71472, 71481); (71904, 71913);
   (72016, 72025); (72784, 72793); (73040, 73049); (73120, 73129);
   (92768, 92777); (92864, 92873); (93008, 93017); (120782, 120831);
   (123200, 123209); (123632, 123641); (125264, 125273);
   (130032, 130041)]%N.

Definition space_ranges : list (N * N) :=
  [(9, 13); (28, 32); (133, 133); (160, 160); (5760, 5760); (8192, 8202);
   (8232, 8233); (8239, 8239); (8287, 8287); (12288, 12288)]%N.

Definition py_isdigit (c : char) : bool := in_ranges decimal_ranges c.
Definition py_isspace (c : char) : bool := in_ranges space_ranges c.

Definition digit_ranges : list (N * N) :=
  [(48, 57); (178, 179); (185, 185); (1632, 1641); (1776, 1785);
   (1984, 1993); (2406, 2415); (2534, 2543); (2662, 2671); (2790, 2799);
   (2918, 2927); (3046, 3055); (3174, 3183); (3302, 3311); (3430, 3439);
   (3558, 3567); (3664, 3673); (3792, 3801); (3872, 3881); (4160, 4169);
   (4240, 4249); (4969, 4977); (6112, 6121); (6160, 6169); (6470, 6479);
   (6608, 6618); (6784, 6793); (6800, 6809); (6992, 7001); (7088, 7097);
   (7232, 7241); (7248, 7257); (8304, 8304); (8308, 8313); (8320, 8329);
   (9312, 9320); (9332, 9340); (9352, 9360); (9450, 9450); (9461, 9469);
   (9471, 9471); (10102, 10110); (10112, 10120); (10122, 10130);
   (42528, 42537); (43216, 43225); (43264, 43273); (43472, 43481);
   (43504, 43513); (43600, 43609); (44016, 44025); (65296, 65305);
   (66720, 66729); (68160, 68163); (68912, 68921); (69216, 69224);
   (69714, 69722); (69734, 69743); (69872, 69881); (69942, 69951);
   (70096, 70105); (70384, 70393); (70736, 70745); (70864, 70873);
   (71248, 71257); (71360, 71369); (71472, 71481); (71904, 71913);
   (72016, 72025); (72784, 72793); (73040, 73049); (73120, 73129);
   (92768, 92777); (92864, 92873); (93008, 93017); (120782, 120831);
   (123200, 123209); (123632, 123641); (125264, 125273);
   (127232, 127242); (130032, 130041)]%N.

(** [str.isdigit()]: non-empty and made of digit characters *)
Definition py_str_isdigit (s : str) : bool :=
  negb (is_nil s) && forallb (in_ranges digit_ranges) s.

(** Value of a decimal digit: its offset in its block of ten *)
Definition decimal_value (c : char) : option nat :=
  match find (fun r => (fst r <=? c)%N && (c <=? snd r)%N) decimal_ranges with
  | Some r => Some (N.to_nat ((c - fst r) mod 10))
  | None => None
  end.

Fixpoint decimal_number (acc : nat) (s : str) : result nat :=
  match s with
  | [] => Ok acc
  | c :: rest =>
      match decimal_value c with
      | Some v => decimal_number (10 * acc + v) rest
      | None => Raise ValueError
      end
  end.

(** [int(s)] on a string without sign, spaces or underscores: the
    decimal value, [ValueError] on an empty string, on a character that
    is not a decimal digit, and beyond the interpreter's limit of 4300
    digits. *)
Definition py_int_decimal (s : str) : result nat :=
  if is_nil s then Raise ValueError
  else if 4300 <? length s then Raise ValueError
  else decimal_number 0 s.

Definition py_classes : CharClasses :=
  {| isdigit := py_isdigit; isspace := py_isspace;
     str_isdigit := py_str_isdigit; py_int := py_int_decimal |}.

(** ** The distribution aggregator *)

Record chapter_detail : Type := mkChapterDetail {
  cd_total : nat;
  cd_importance : dict nat;
  cd_exam_requirements : dict nat
}.

Record knowledge_stats : Type := mkKnowledgeStats {
  ks_total : nat;
  ks_by_chapter : dict nat;
  ks_by_importance : dict nat;
  ks_by_exam : dict nat;
  ks_chapter_details : dict chapter_detail
}.

(** Lines 298-305: the second scan for an importance mark, over the first
    five content lines. *)
Fixpoint first_importance (content : list str) : option str :=
  match content with
  | [] => None
  | content_line :: rest =>
      match importance_of content_line with
      | Some imp => Some imp
      | None => first_importance rest
      end
  end.

Definition second_scan (kp : KnowledgePoint) : KnowledgePoint :=
  if negb (truthy (kp_importance kp)) then
    match first_importance (firstn 5 (kp_content kp)) with
    | Some imp => set_importance kp (Some imp)
    | None => kp
    end
  else kp.

(** Lines 308-311 *)
Definition count_chapter (chapter_counts : dict nat) (kp : KnowledgePoint)
  : result (dict nat) :=
  if dict_in_opt (kp_chapter kp) chapter_counts
  then dict_add_opt chapter_counts (kp_chapter kp) 1
  else Ok chapter_counts.

(** Lines 314-320 *)
Definition importance_keys : list str := [s_star3; s_star2; s_star1; s_unmarked].

Definition count_importance (importance_counts : dict nat) (kp : KnowledgePoint)
  : result (dict nat) :=
  let imp := kp_importance kp in
  if dict_in_opt imp importance_counts
  then dict_add_opt importance_counts imp 1
  else dict_add importance_counts s_unmarked 1.

(** Lines 323-333 *)
Definition exam_keys : list str :=
  [s_single; s_short; s_essay; s_combined; s_unmarked].

Definition count_guarded (d : dict nat) (key : str) : result (dict nat) :=
  if dict_in key d then dict_add d key 1 else Ok d.

Definition count_exam (exam_counts : dict nat) (kp : KnowledgePoint)
  : result (dict nat) :=
  let reqs := kp_exam_requirements kp in
  if length reqs =? 0 then dict_add exam_counts s_unmarked 1
  else if 1 <? length reqs then dict_add exam_counts s_combined 1
  else for_each count_guarded reqs exam_counts.

(** Lines 341-344 *)
Definition chapter_importance_keys : list str := [s_star3; s_star2; s_star1].

Definition count_chapter_importance (imp_dist : dict nat) (kp : KnowledgePoint)
  : result (dict nat) :=
  if dict_in_opt (kp_importance kp) imp_dist
  then dict_add_opt imp_dist (kp_importance kp) 1
  else Ok imp_dist.

(** Lines 347-351 *)
Definition chapter_exam_keys : list str := [s_single; s_short; s_essay].

Definition count_chapter_exam (exam_dist : dict nat) (kp : KnowledgePoint)
  : result (dict nat) :=
  for_each count_guarded (kp_exam_requirements kp) exam_dist.

(** Lines 337-357: the body of the loop over [CHAPTERS] *)
Definition chapter_kps_of (kps : list KnowledgePoint) (chapter : str)
  : list KnowledgePoint :=
  filter (fun kp => opt_str_eqb (kp_chapter kp) (Some chapter)) kps.

Definition detail_chapter (kps : list KnowledgePoint)
           (chapter_details : dict chapter_detail) (chapter : str)
  : result (dict chapter_detail) :=
  let chapter_kps := chapter_kps_of kps chapter in
  imp_dist <- for_each count_chapter_importance chapter_kps
                       (dict_zero chapter_importance_keys) ;;
  exam_dist <- for_each count_chapter_exam chapter_kps
                        (dict_zero chapter_exam_keys) ;;
  Ok (dict_set chapter_details chapter
                (mkChapterDetail (length chapter_kps) imp_dist exam_dist)).

(** [analyze_knowledge_distribution]: the statistics, and
    [self.knowledge_points] as the second scan leaves it. *)
Definition analyze_knowledge_distribution (knowledge_points : list KnowledgePoint)
  : result (knowledge_stats * list KnowledgePoint) :=
  let kps := map second_scan knowledge_points in
  chapter_counts <- for_each count_chapter kps (dict_zero CHAPTERS) ;;
  importance_counts <- for_each count_importance kps (dict_zero importance_keys) ;;
  exam_counts <- for_each count_exam kps (dict_zero exam_keys) ;;
  chapter_details <- for_each (detail_chapter kps) CHAPTERS [] ;;
  Ok (mkKnowledgeStats (length kps) chapter_counts importance_counts
                       exam_counts chapter_details, kps).

(** ** Question statistics *)

Record question_stats : Type := mkQuestionStats {
  qs_total : nat;
  qs_real : nat;
  qs_mock : nat;
  qs_answers : nat;
  qs_explanations : nat;
  qs_by_chapter : dict nat
}.

Section Questions.

Context {cc : CharClasses}.

(** Lines 381-391: one line of the second walk over [self.lines]; the
    state is [current_chapter] and [chapter_questions]. *)
Definition question_step (st : option str * dict nat) (line : str)
  : result (option str * dict nat) :=
  let current_chapter := detect_chapter line (fst st) in
  if truthy current_chapter then
    let question_count := re_count (m_alt s_real s_mock) line in
    chapter_questions <- dict_add_opt (snd st) current_chapter question_count ;;
    Ok (current_chapter, chapter_questions)
  else Ok (current_chapter, snd st).

Definition walk_questions (lines : list str) : result (option str * dict nat) :=
  for_each question_step lines (None, dict_zero CHAPTERS).

(** [analyze_questions] on [self.content] and [self.lines] *)
Definition analyze_questions (content : str) (lines : list str)
  : result question_stats :=
  let real_questions := re_count (m_lit s_real) content in
  let mock_questions := re_count (m_lit s_mock) content in
  let answers := re_count (m_lit s_answer) content in
  let explanations := re_count (m_lit s_explain) content in
  st <- walk_questions lines ;;
  Ok (mkQuestionStats (real_questions + mock_questions) real_questions
                      mock_questions answers explanations (snd st)).

End Questions.

(** Number of positions of [s] at which [p] begins. *)
Fixpoint occurrences (p s : str) : nat :=
  match s with
  | [] => 0
  | _ :: rest => (if prefix p s then 1 else 0) + occurrences p rest
  end.

(** ** Content features *)

(** A float of the interpreter is a binary64 number: 53 significant
    bits, the last of weight at least [2^-1074].  Such a number is a
    rational and is kept as the fraction in lowest terms that
    [float.as_integer_ratio()] gives.  Division and multiplication
    return the float nearest to the exact result, halves going to the
    even one.  The operands of the script are counts and lengths of
    objects held in memory, far below [2^1024], where the interpreter
    leaves the range of finite floats. *)

(** The integer nearest to [num / den], a half going to the even one *)
Definition round_half_even (num den : Z) : Z :=
  let q := (num / den)%Z in
  let r := (num mod den)%Z in
  if (2 * r <? den)%Z then q
  else if (den <? 2 * r)%Z then (q + 1)%Z
  else if Z.even q then q else (q + 1)%Z.

(** [floor(log2(n / d))] for positive [n] and [d] *)
Definition floor_log2 (n d : Z) : Z :=
  let l := (Z.log2 n - Z.log2 d)%Z in
  if (n * 2 ^ Z.max 0 (- l) <? d * 2 ^ Z.max 0 l)%Z then (l - 1)%Z else l.

(** The exponent of the last bit of the float nearest to [n / d] *)
Definition last_bit (n d : Z) : Z := Z.max (floor_log2 n d - 52) (-1074).

(** The float nearest to [n / d] for positive [n] and [d] *)
Definition nearest_float_pos (n d : Z) : Q :=
  let e := last_bit n d in
  let m := round_half_even (n * 2 ^ Z.max 0 (- e)) (d * 2 ^ Z.max 0 e) in
  Qred (Qmake (m * 2 ^ Z.max 0 e) (Z.to_pos (2 ^ Z.max 0 (- e)))).

(** The float nearest to a rational *)
Definition nearest_float (q : Q) : Q :=
  match Qnum q with
  | Z0 => 0%Q
  | Zpos n => nearest_float_pos (Zpos n) (Zpos (Qden q))
  | Zneg n => Qopp (nearest_float_pos (Zpos n) (Zpos (Qden q)))
  end.

(** [a / b] on integers: the float nearest to the quotient,
    [ZeroDivisionError] when [b] is zero. *)
Definition py_truediv (a b : nat) : result Q :=
  match b with
  | O => Raise ZeroDivisionError
  | S _ => Ok (nearest_float (Qmake (Z.of_nat a) (Pos.of_nat b)))
  end.

(** [x * y] on floats, and on a float and an integer *)
Definition py_fmul (x y : Q) : Q := nearest_float (x * y)%Q.

Definition s_types_event : str := Eval vm_compute in utf8 "历史事件".
Definition s_types_figure : str := Eval vm_compute in utf8 "人物思想".
Definition s_types_policy : str := Eval vm_compute in utf8 "理论政策".
Definition s_types_meaning : str := Eval vm_compute in utf8 "历史意义".
Definition s_types_other : str := Eval vm_compute in utf8 "其他".

Definition content_type_keys : list str :=
  [s_types_event; s_types_figure; s_types_policy; s_types_meaning; s_types_other].

Definition meaning_words : list str := Eval vm_compute in
  [utf8 "意义"; utf8 "影响"; utf8 "作用"].
Definition policy_words : list str := Eval vm_compute in
  [utf8 "政策"; utf8 "方针"; utf8 "路线"].
Definition figure_names : list str := Eval vm_compute in
  [utf8 "毛泽东"; utf8 "孙中山"; utf8 "邓小平"; utf8 "江泽民"; utf8 "胡锦涛";
   utf8 "习近平"].
Definition event_words : list str := Eval vm_compute in
  [utf8 "战争"; utf8 "运动"; utf8 "革命"; utf8 "起义"; utf8 "事变"].

(** [w1 in content or w2 in content ...], and [re.search] of an
    alternation of literals as a truth value *)
Definition contains_any (words : list str) (content : str) : bool :=
  existsb (fun w => contains w content) words.

(** Lines 417-428 *)
Definition count_content_type (content_types : dict nat) (kp : KnowledgePoint)
  : result (dict nat) :=
  let content := join_space (kp_content kp) in
  if contains_any meaning_words content then dict_add content_types s_types_meaning 1
  else if contains_any policy_words content then dict_add content_types s_types_policy 1
  else if contains_any figure_names content then dict_add content_types s_types_figure 1
  else if contains_any event_words content then dict_add content_types s_types_event 1
  else dict_add content_types s_types_other 1.

Record content_stats : Type := mkContentStats {
  cs_avg_length : Q;
  cs_content_types : dict nat;
  cs_core_knowledge_count : nat;
  cs_core_knowledge_list : list (option str * str)
}.

(** Line 405 *)
Definition total_length (knowledge_points : list KnowledgePoint) : nat :=
  list_sum (map (fun kp => length (join_space (kp_content kp))) knowledge_points).

(** [analyze_content_features] *)
Definition analyze_content_features (knowledge_points : list KnowledgePoint)
  : result content_stats :=
  avg_length <- (if negb (is_nil knowledge_points)
                 then py_truediv (total_length knowledge_points)
                                 (length knowledge_points)
                 else Ok 0%Q) ;;
  content_types <- for_each count_content_type knowledge_points
                            (dict_zero content_type_keys) ;;
  let core_knowledge :=
    filter (fun kp => opt_str_eqb (kp_importance kp) (Some s_star3))
           knowledge_points in
  Ok (mkContentStats avg_length content_types (length core_knowledge)
        (map (fun kp => (kp_chapter kp, kp_title kp)) (firstn 100 core_knowledge))).

(** Lines 561-563, 574-576 and 626-628 of the report: the percentage of
    every positive count of a histogram, [count / total * 100]. *)
Definition percentage_row (total : nat) (rows : list (str * Q)) (item : str * nat)
  : result (list (str * Q)) :=
  if 0 <? snd item then
    q <- py_truediv (snd item) total ;; Ok (rows ++ [(fst item, py_fmul q 100)])
  else Ok rows.

Definition percentages (d : dict nat) (total : nat) : result (list (str * Q)) :=
  for_each (percentage_row total) d [].

(** Lines 611-612 of [_print_question_summary]: the two percentages put
    into the report, [real / total * 100] and [mock / total * 100]. *)
Definition question_percentages (questions : question_stats) : result (Q * Q) :=
  real <- py_truediv (qs_real questions) (qs_total questions) ;;
  mock <- py_truediv (qs_mock questions) (qs_total questions) ;;
  Ok (py_fmul real 100, py_fmul mock 100).

(** ** Basic information and structure *)

(** [re.finditer]: start and length of the successive non-overlapping
    matches; [pos] is the offset of [s] in the whole text. *)
Fixpoint re_finditer_from (m : str -> option nat) (pos skip : nat) (s : str)
  : list (nat * nat) :=
  match s with
  | [] => []
  | _ :: rest =>
      match skip with
      | S k => re_finditer_from m (S pos) k rest
      | O =>
          match m s with
          | Some (S n) => (pos, S n) :: re_finditer_from m (S pos) n rest
          | _ => re_finditer_from m (S pos) 0 rest
          end
      end
  end.

Definition re_finditer (m : str -> option nat) (s : str) : list (nat * nat) :=
  re_finditer_from m 0 0 s.

(** [content[start:stop]] *)
Definition slice (s : str) (start stop : nat) : str :=
  firstn (stop - start) (skipn start s).

(** Lines 179-183: the line of the text around offset [start] *)
Definition line_at (content : str) (start : nat) : str :=
  rev (take_while not_newline (rev (firstn start content)))
  ++ take_while not_newline (skipn start content).

(** [sorted(list(set(ns)))] *)
Fixpoint insert_uniq (n : nat) (sorted : list nat) : list nat :=
  match sorted with
  | [] => [n]
  | x :: rest =>
      if n <? x then n :: sorted
      else if n =? x then sorted
      else x :: insert_uniq n rest
  end.

Definition sorted_set (ns : list nat) : list nat := fold_right insert_uniq [] ns.

(** [l.sort(key=lambda x: x[1])]: stable, by insertion from the right, an
    element going before the later elements of the same key *)
Fixpoint insert_by_pos (x : str * nat) (sorted : list (str * nat)) : list (str * nat) :=
  match sorted with
  | [] => [x]
  | y :: rest =>
      if snd x <=? snd y then x :: sorted else y :: insert_by_pos x rest
  end.

Definition sort_by_pos (l : list (str * nat)) : list (str * nat) :=
  fold_right insert_by_pos [] l.

Definition s_page_open : str := Eval vm_compute in utf8 "=== 第 ".
Definition s_page_close : str := Eval vm_compute in utf8 " 页 ===".
Definition section_numerals : str := Eval vm_compute in utf8 "一二三四五".

Record basic_info : Type := mkBasicInfo {
  bi_total_chars : nat;
  bi_total_chars_no_space : nat;
  bi_pages : list nat;
  bi_page_count : nat
}.

Record structure_stats : Type := mkStructureStats {
  ss_total_sections : nat;
  ss_chapter_sections : dict nat
}.

Section Structure.

Context {cc : CharClasses}.

(** [\s+] at the start of [s] *)
Definition m_spaces (s : str) : option nat :=
  match length (take_while isspace s) with
  | O => None
  | S k => Some (S k)
  end.

(** [=== 第 (\d+) 页 ===] at the start of [s]: the length of the match and
    the number of digits of the group *)
Definition m_page_number (s : str) : option (nat * nat) :=
  if prefix s_page_open s then
    match m_digits_then (prefix s_page_close) (skipn (length s_page_open) s) with
    | Some k => Some (length s_page_open + k + length s_page_close, k)
    | None => None
    end
  else None.

(** [re.findall(r'=== 第 (\d+) 页 ===', content)] *)
Definition page_matches (content : str) : list str :=
  map (fun m => slice content (fst m + length s_page_open)
                      (fst m + snd m - length s_page_close))
      (re_finditer (fun s => option_map fst (m_page_number s)) content).

(** The generator of line 155, drained by [set(...)] *)
Definition page_number (pages : list nat) (p : str) : result (list nat) :=
  if str_isdigit p then n <- py_int p ;; Ok (pages ++ [n]) else Ok pages.

(** [analyze_basic_info] *)
Definition analyze_basic_info (content : str) : result basic_info :=
  let total_chars := length content in
  let total_chars_no_space := length (re_sub m_spaces content) in
  numbers <- for_each page_number (page_matches content) [] ;;
  let pages := sorted_set numbers in
  Ok (mkBasicInfo total_chars total_chars_no_space pages (length pages)).

(** What follows the digits in [第\d+页第[一二三四五]节] *)
Definition h_section_tail (t : str) : bool :=
  match t with
  | y :: d :: x :: j :: _ =>
      (y =? c_ye)%N && (d =? c_di)%N
      && existsb (N.eqb x) section_numerals && (j =? c_jie)%N
  | _ => false
  end.

(** [第\d+页第[一二三四五]节] at the start of [s] *)
Definition m_section (s : str) : option nat :=
  match s with
  | [] => None
  | c :: rest =>
      if (c =? c_di)%N then
        match m_digits_then h_section_tail rest with
        | Some k => Some (1 + k + 4)
        | None => None
        end
      else None
  end.

(** Lines 172-173: group 1 and start of every section mark *)
Definition section_matches (content : str) : list (str * nat) :=
  map (fun m => (slice content (fst m + snd m - 3) (fst m + snd m), fst m))
      (re_finditer m_section content).

(** Lines 178-185, for one chapter *)
Definition chapter_positions_of (content : str) (chapter : str) : list (str * nat) :=
  flat_map (fun m => if chapter_re (line_at content (fst m))
                     then [(chapter, fst m)] else [])
           (re_finditer (m_lit chapter) content).

(** Lines 176-187 *)
Definition chapter_positions (content : str) : list (str * nat) :=
  sort_by_pos (flat_map (chapter_positions_of content) CHAPTERS).

(** Lines 194-197; the distance [None] is [float('inf')] *)
Definition closer (section_pos : nat) (st : option str * option nat)
           (cp : str * nat) : option str * option nat :=
  let distance := section_pos - snd cp in
  if (snd cp <? section_pos)
     && match snd st with
        | None => true
        | Some closest_distance => distance <? closest_distance
        end
  then (Some (fst cp), Some distance)
  else st.

(** Lines 190-200 *)
Definition count_section (positions : list (str * nat)) (chapter_sections : dict nat)
           (section : str * nat) : result (dict nat) :=
  let closest_chapter := fst (fold_left (closer (snd section)) positions (None, None)) in
  if truthy closest_chapter
  then dict_add_opt chapter_sections closest_chapter 1
  else Ok chapter_sections.

(** [analyze_structure] *)
Definition analyze_structure (content : str) : result structure_stats :=
  let sections_count := re_count m_section content in
  chapter_sections <- for_each (count_section (chapter_positions content))
                               (section_matches content) (dict_zero CHAPTERS) ;;
  Ok (mkStructureStats sections_count chapter_sections).

End Structure.

(** ** The analyzer object, loading and the full run

    A method reads and updates the analyzer's attributes, prints, and
    returns or raises: a state monad over the attributes and the printed
    lines with [result] as its value. *)

Record stats_dict : Type := mkStats {
  st_basic_info : option basic_info;
  st_structure : option structure_stats;
  st_knowledge : option knowledge_stats;
  st_questions : option question_stats;
  st_content : option content_stats
}.

(** [self.stats = {}] *)
Definition empty_stats : stats_dict := mkStats None None None None None.

Record analyzer : Type := mkAnalyzer {
  self_file_path : str;
  self_content : str;
  self_lines : list str;
  self_knowledge_points : list KnowledgePoint;
  self_stats : stats_dict
}.

(** [HistoryOutlineAnalyzer(file_path)] *)
Definition new_analyzer (file_path : str) : analyzer :=
  mkAnalyzer file_path [] [] [] empty_stats.

Definition method (A : Type) : Type :=
  analyzer -> list str -> result A * analyzer * list str.

Definition ret (A : Type) (a : A) : method A := fun self out => (Ok a, self, out).

Definition mbind (A B : Type) (c : method A) (f : A -> method B) : method B :=
  fun self out =>
    match c self out with
    | (Ok a, self', out') => f a self' out'
    | (Raise e, self', out') => (Raise e, self', out')
    end.

Notation "x <~ c1 ;; c2" := (mbind c1 (fun x => c2))
  (at level 61, c1 at next level, right associativity).
Notation "c1 ;;; c2" := (mbind c1 (fun _ => c2))
  (at level 61, right associativity).

Definition print (line : str) : method unit :=
  fun self out => (Ok tt, self, out ++ [line]).

Definition get_self : method analyzer := fun self out => (Ok self, self, out).

Definition update (f : analyzer -> analyzer) : method unit :=
  fun self out => (Ok tt, f self, out).

(** A computation of the aggregator run inside a method *)
Definition lift (A : Type) (c : result A) : method A := fun self out => (c, self, out).

Definition set_content (content : str) (self : analyzer) : analyzer :=
  mkAnalyzer (self_file_path self) content (self_lines self)
             (self_knowledge_points self) (self_stats self).

Definition set_lines (lines : list str) (self : analyzer) : analyzer :=
  mkAnalyzer (self_file_path self) (self_content self) lines
             (self_knowledge_points self) (self_stats self).

Definition set_knowledge_points (kps : list KnowledgePoint) (self : analyzer)
  : analyzer :=
  mkAnalyzer (self_file_path self) (self_content self) (self_lines self)
             kps (self_stats self).

Definition set_stats (f : stats_dict -> stats_dict) (self : analyzer) : analyzer :=
  mkAnalyzer (self_file_path self) (self_content self) (self_lines self)
             (self_knowledge_points self) (f (self_stats self)).

(** What the run finds outside the program: the file, and the PDF
    libraries with what text extraction does on this file. *)
Inductive read_outcome : Type :=
| ReadText (text : str)
| ReadUnicodeDecodeError (e : str)
| ReadException (e : str).

Inductive extraction : Type :=
| Pages (texts : list (option str))
| ExtractionException (e : str).

Inductive pdf_library : Type :=
| NotInstalled
| Installed (run : extraction).

Record environment : Type := mkEnvironment {
  env_exists : bool;
  env_readable : bool;
  env_suffix : str;
  env_read : read_outcome;
  env_pdfplumber : pdf_library;
  env_pypdf : pdf_library;
  env_PyPDF2 : pdf_library
}.

(** Decimal digits of a number, as [f"{n}"] writes them *)
Fixpoint decimal_digits (fuel n : nat) (acc : str) : str :=
  match fuel with
  | O => acc
  | S fuel' =>
      let acc' := N.of_nat (48 + n mod 10) :: acc in
      if n / 10 =? 0 then acc' else decimal_digits fuel' (n / 10) acc'
  end.

Definition str_of_nat (n : nat) : str := decimal_digits (S n) n [].

(** Lines 104-110 and 133-141: the pages that gave text, each under its
    page header *)
Definition page_block (ip : nat * option str) : list str :=
  match snd ip with
  | Some (c :: text) =>
      [s_page_open ++ str_of_nat (fst ip + 1) ++ s_page_close
         ++ newline :: (c :: text) ++ [newline]]
  | _ => []
  end.

Definition pages_text (texts : list (option str)) : str :=
  join_lines (flat_map page_block (enumerate texts)).

Definition msg_pdfplumber : str := Eval vm_compute in utf8 "  使用 pdfplumber 提取文本...".
Definition msg_no_pdfplumber : str :=
  Eval vm_compute in utf8 "  pdfplumber 未安装，尝试使用 pypdf...".
Definition msg_pdfplumber_failed : str := Eval vm_compute in utf8 "  pdfplumber 提取失败: ".
Definition msg_try_pypdf : str := Eval vm_compute in utf8 "  尝试使用 pypdf...".
Definition msg_need_library : str :=
  Eval vm_compute in utf8 "错误: 需要安装 pdfplumber、pypdf 或 PyPDF2 库来处理PDF文件".
Definition msg_install_pdfplumber : str :=
  Eval vm_compute in utf8 "推荐安装: pip install pdfplumber --break-system-packages".
Definition msg_install_pypdf : str :=
  Eval vm_compute in utf8 "或者安装: pip install pypdf --break-system-packages".
Definition msg_pypdf : str := Eval vm_compute in utf8 "  使用 pypdf 提取文本...".
Definition msg_pdf_failed : str := Eval vm_compute in utf8 "错误: PDF解析失败 - ".
Definition msg_missing : str := Eval vm_compute in utf8 "错误: 文件不存在 - ".
Definition msg_unreadable : str := Eval vm_compute in utf8 "错误: 无法读取文件 - ".
Definition msg_empty : str := Eval vm_compute in utf8 "错误: 文件内容为空".
Definition msg_encoding : str := Eval vm_compute in utf8 "错误: 文件编码错误 - ".
Definition msg_read_failed : str := Eval vm_compute in utf8 "错误: 读取文件失败 - ".
Definition msg_loading : str := Eval vm_compute in utf8 "正在加载文件...".
Definition msg_structure : str := Eval vm_compute in utf8 "正在分析文档结构...".
Definition msg_extracting : str := Eval vm_compute in utf8 "正在提取知识点...".
Definition msg_distribution : str := Eval vm_compute in utf8 "正在分析知识点分布...".
Definition msg_questions : str := Eval vm_compute in utf8 "正在分析测试题...".
Definition msg_features : str := Eval vm_compute in utf8 "正在分析内容特征...".
Definition s_pdf : str := Eval vm_compute in utf8 ".pdf".

(** Lines 119-145: the fall-back on pypdf, then PyPDF2 *)
Definition extract_with_pypdf (env : environment) : method str :=
  let reader :=
    match env_pypdf env with
    | Installed run => Some run
    | NotInstalled =>
        match env_PyPDF2 env with
        | Installed run => Some run
        | NotInstalled => None
        end
    end in
  match reader with
  | None =>
      print msg_need_library ;;; print msg_install_pdfplumber ;;;
      print msg_install_pypdf ;;; ret []
  | Some run =>
      print msg_pypdf ;;;
      match run with
      | Pages texts => ret (pages_text texts)
      | ExtractionException e => print (msg_pdf_failed ++ e) ;;; ret []
      end
  end.

(** [_extract_pdf_text] *)
Definition _extract_pdf_text (env : environment) : method str :=
  match env_pdfplumber env with
  | Installed run =>
      print msg_pdfplumber ;;;
      match run with
      | Pages texts => ret (pages_text texts)
      | ExtractionException e =>
          print (msg_pdfplumber_failed ++ e) ;;; print msg_try_pypdf ;;;
          extract_with_pypdf env
      end
  | NotInstalled => print msg_no_pdfplumber ;;; extract_with_pypdf env
  end.

(** Lines 82-87, reached with [self.content] set *)
Definition finish_load : method bool :=
  self <~ get_self ;;
  if is_nil (self_content self) then print msg_empty ;;; ret false
  else update (set_lines (split_lines (self_content self))) ;;; ret true.

(** [load_file] *)
Definition load_file (env : environment) : method bool :=
  self <~ get_self ;;
  if negb (env_exists env) then
    print (msg_missing ++ self_file_path self) ;;; ret false
  else if negb (env_readable env) then
    print (msg_unreadable ++ self_file_path self) ;;; ret false
  else if str_eqb (env_suffix env) s_pdf then
    text <~ _extract_pdf_text env ;;
    update (set_content text) ;;;
    if is_nil text then ret false else finish_load
  else
    match env_read env with
    | ReadText text => update (set_content text) ;;; finish_load
    | ReadUnicodeDecodeError e => print (msg_encoding ++ e) ;;; ret false
    | ReadException e => print (msg_read_failed ++ e) ;;; ret false
    end.

Section Run.

Context {cc : CharClasses}.

(** [run_analysis] *)
Definition run_analysis (env : environment) : method bool :=
  print msg_loading ;;;
  loaded <~ load_file env ;;
  if negb loaded then ret false
  else
    print msg_structure ;;;
    self <~ get_self ;;
    basic <~ lift (analyze_basic_info (self_content self)) ;;
    update (set_stats (fun st =>
      mkStats (Some basic) (st_structure st) (st_knowledge st)
              (st_questions st) (st_content st))) ;;;
    structure <~ lift (analyze_structure (self_content self)) ;;
    update (set_stats (fun st =>
      mkStats (st_basic_info st) (Some structure) (st_knowledge st)
              (st_questions st) (st_content st))) ;;;
    print msg_extracting ;;;
    update (set_knowledge_points (extract_knowledge_points (self_lines self))) ;;;
    print msg_distribution ;;;
    self <~ get_self ;;
    knowledge <~ lift (analyze_knowledge_distribution (self_knowledge_points self)) ;;
    update (set_knowledge_points (snd knowledge)) ;;;
    update (set_stats (fun st =>
      mkStats (st_basic_info st) (st_structure st) (Some (fst knowledge))
              (st_questions st) (st_content st))) ;;;
    print msg_questions ;;;
    self <~ get_self ;;
    questions <~ lift (analyze_questions (self_content self) (self_lines self)) ;;
    update (set_stats (fun st =>
      mkStats (st_basic_info st) (st_structure st) (st_knowledge st)
              (Some questions) (st_content st))) ;;;
    print msg_features ;;;
    self <~ get_self ;;
    content <~ lift (analyze_content_features (self_knowledge_points self)) ;;
    update (set_stats (fun st =>
      mkStats (st_basic_info st) (st_structure st) (st_knowledge st)
              (st_questions st) (Some content))) ;;;
    ret true.

End Run.

(** ** The per-chapter part of the report *)

(** [d[k]] *)
Definition dict_index (A : Type) (d : dict A) (k : str) : result A :=
  match dict_get d k with
  | Some v => Ok v
  | None => Raise KeyError
  end.



(** [f"{n:2d}"] *)
Definition pad2 (n : nat) : str :=
  let digits := str_of_nat n in
  if length digits <? 2 then 32%N :: digits else digits.




(** ** The list of records of the report

    [_print_knowledge_list] groups the records by star mark and prints
    each group under chapter headings.  The three blocks of lines 657-721
    differ only in the star mark and the word naming the level. *)

Definition list_entry : Type := (option str * str)%type.

Definition txt_list_title : str := Eval vm_compute in utf8 "【七、知识点列表】".
Definition txt_level_open : str := Eval vm_compute in utf8 "  （".
Definition txt_level_mid : str := Eval vm_compute in utf8 " 级别）共 ".
Definition txt_level_unit : str := Eval vm_compute in utf8 " 个".
Definition txt_level_points : str := Eval vm_compute in utf8 "知识点".
Definition txt_core : str := Eval vm_compute in utf8 "核心".
Definition txt_important : str := Eval vm_compute in utf8 "重要".
Definition txt_general : str := Eval vm_compute in utf8 "一般".
Definition txt_heading : str := Eval vm_compute in utf8 "    ▸ ".
Definition txt_item : str := Eval vm_compute in utf8 "      ".
Definition txt_dot : str := Eval vm_compute in utf8 ". ".
Definition txt_more : str := Eval vm_compute in utf8 "      ... 还有 ".
Definition txt_level_rest : str := Eval vm_compute in utf8 "级别知识点".
Definition txt_not_found : str := Eval vm_compute in utf8 "    （未找到".
Definition txt_not_found_end : str := Eval vm_compute in utf8 "级别知识点）".
Definition txt_None : str := Eval vm_compute in utf8 "None".

(** Lines 643-647 *)
Definition empty_groups : dict (list list_entry) :=
  [(s_star3, []); (s_star2, []); (s_star1, [])].

(** Lines 649-652 *)
Definition group_step (groups : dict (list list_entry)) (kp : KnowledgePoint)
  : dict (list list_entry) :=
  match kp_importance kp with
  | Some importance =>
      match dict_get groups importance with
      | Some entries =>
          dict_set groups importance (entries ++ [(kp_chapter kp, kp_title kp)])
      | None => groups
      end
  | None => groups
  end.

(** [f"{chapter}"] for a chapter that may be [None] *)
Definition chapter_text (chapter : option str) : str :=
  match chapter with
  | Some c => c
  | None => txt_None
  end.

(** [f"    ▸ {chapter} {CHAPTER_NAMES.get(chapter, '')}"] *)
Definition heading_line (chapter : option str) : str :=
  txt_heading ++ chapter_text chapter
    ++ 32%N :: dict_get_default CHAPTER_NAMES chapter [].

(** [f"      {i:2d}. {title}"] *)
Definition item_line (ie : nat * list_entry) : str :=
  txt_item ++ pad2 (fst ie) ++ txt_dot ++ snd (snd ie).

(** A loop of a method that carries a local variable *)
Fixpoint method_fold (A S : Type) (body : S -> A -> method S) (l : list A) (s : S)
  : method S :=
  match l with
  | [] => ret s
  | x :: rest => s' <~ body s x ;; method_fold body rest s'
  end.

(** Lines 664-670: one entry of a level, [current_chapter] being the
    chapter of the last heading *)
Definition print_entry (current_chapter : option str) (ie : nat * list_entry)
  : method (option str) :=
  if fst ie <=? 50 then
    current <~ (if negb (opt_str_eqb (fst (snd ie)) current_chapter) then
                  (if is_some current_chapter then print [] else ret tt) ;;;
                  print (heading_line (fst (snd ie))) ;;;
                  ret (fst (snd ie))
                else ret current_chapter) ;;
    print (item_line ie) ;;;
    ret current
  else ret current_chapter.

(** [f"  （{star} 级别）共 {n} 个{kind}知识点"] *)
Definition count_line (star kind : str) (n : nat) : str :=
  txt_level_open ++ star ++ txt_level_mid ++ str_of_nat n ++ txt_level_unit
    ++ kind ++ txt_level_points.

(** Lines 657-677 (and 679-699, 701-721): the block of one level *)
Definition print_level (groups : dict (list list_entry)) (star kind : str)
  : method unit :=
  level_list <~ lift (dict_index groups star) ;;
  print (count_line star kind (length level_list)) ;;;
  (if negb (is_nil level_list) then
     method_fold print_entry (enumerate_from 1 level_list) None ;;;
     (if 50 <? length level_list then
        print (newline :: txt_more ++ str_of_nat (length level_list - 50)
                 ++ txt_level_unit ++ star ++ txt_level_rest)
      else ret tt)
   else print (txt_not_found ++ star ++ txt_not_found_end)) ;;;
  print [].

(** [_print_knowledge_list] *)
Definition _print_knowledge_list : method unit :=
  self <~ get_self ;;
  let knowledge_by_importance :=
    fold_left group_step (self_knowledge_points self) empty_groups in
  print txt_list_title ;;;
  print_level knowledge_by_importance s_star3 txt_core ;;;
  print_level knowledge_by_importance s_star2 txt_important ;;;
  print_level knowledge_by_importance s_star1 txt_general.

(** ** Closed forms of the counting loops

    Every counting loop of the aggregator adds one to the buckets a
    record falls in.  [tally keys buckets kps] is the dictionary such a
    loop builds from [{k: 0 for k in keys}]. *)

Definition dict_val (d : dict nat) (k : str) : nat :=
  match dict_get d k with
  | Some v => v
  | None => 0
  end.

Definition count_key (key : str) (ks : list str) : nat :=
  length (filter (str_eqb key) ks).

Definition tally (A : Type) (keys : list str) (buckets : A -> list str) (l : list A)
  : dict nat :=
  map (fun k => (k, list_sum (map (fun x => count_key k (buckets x)) l))) keys.

Fixpoint nodupb (l : list str) : bool :=
  match l with
  | [] => true
  | x :: rest => negb (mem_str x rest) && nodupb rest
  end.

Definition keep_keys (keys : list str) (ks : list str) : list str :=
  filter (fun k => mem_str k keys) ks.

Definition opt_key (keys : list str) (k : option str) : list str :=
  match k with
  | Some key => if mem_str key keys then [key] else []
  | None => []
  end.

Definition buckets_chapter (kp : KnowledgePoint) : list str :=
  opt_key CHAPTERS (kp_chapter kp).

Definition buckets_importance (kp : KnowledgePoint) : list str :=
  match opt_key importance_keys (kp_importance kp) with
  | [] => [s_unmarked]
  | ks => ks
  end.

Definition buckets_exam (kp : KnowledgePoint) : list str :=
  match kp_exam_requirements kp with
  | [] => [s_unmarked]
  | [req] => keep_keys exam_keys [req]
  | _ :: _ :: _ => [s_combined]
  end.

Definition buckets_chapter_importance (kp : KnowledgePoint) : list str :=
  opt_key chapter_importance_keys (kp_importance kp).

Definition buckets_chapter_exam (kp : KnowledgePoint) : list str :=
  keep_keys chapter_exam_keys (kp_exam_requirements kp).

Definition chapter_detail_of (kps : list KnowledgePoint) (chapter : str)
  : chapter_detail :=
  let chapter_kps := chapter_kps_of kps chapter in
  mkChapterDetail (length chapter_kps)
    (tally chapter_importance_keys buckets_chapter_importance chapter_kps)
    (tally chapter_exam_keys buckets_chapter_exam chapter_kps).

Definition knowledge_stats_of (kps : list KnowledgePoint) : knowledge_stats :=
  mkKnowledgeStats (length kps)
    (tally CHAPTERS buckets_chapter kps)
    (tally importance_keys buckets_importance kps)
    (tally exam_keys buckets_exam kps)
    (map (fun chapter => (chapter, chapter_detail_of kps chapter)) CHAPTERS).

(** ** Predicates on records used to state the counts *)

(** The record has no chapter ([kp["chapter"] is None]). *)
Definition no_chapter (kp : KnowledgePoint) : bool := negb (is_some (kp_chapter kp)).

(** The record's importance was never set. *)
Definition no_importance (kp : KnowledgePoint) : bool :=
  negb (is_some (kp_importance kp)).

Definition has_importance (imp : str) (kp : KnowledgePoint) : bool :=
  opt_str_eqb (kp_importance kp) (Some imp).

Definition has_tag (tag : str) (kp : KnowledgePoint) : bool :=
  mem_str tag (kp_exam_requirements kp).

(** The one bucket of the global exam-requirement count a record belongs
    to: no tag, a single tag, or several. *)
Definition exam_bucket_of (kp : KnowledgePoint) : str :=
  match kp_exam_requirements kp with
  | [] => s_unmarked
  | [req] => req
  | _ :: _ :: _ => s_combined
  end.

(** Counts of the records of each key. *)
Definition count_table (A : Type) (keys : list str) (p : str -> A -> bool)
           (l : list A) : dict nat :=
  map (fun k => (k, length (filter (p k) l))) keys.

Definition in_exam_bucket (k : str) (kp : KnowledgePoint) : bool :=
  str_eqb (exam_bucket_of kp) k.

(** The text analysed: [self.knowledge_points] after
    [extract_knowledge_points], handed to [analyze_knowledge_distribution]. *)
Definition knowledge_of_text {cc : CharClasses} (content : str)
  : result (knowledge_stats * list KnowledgePoint) :=
  analyze_knowledge_distribution (extract_knowledge_points (split_lines content)).

Definition in_chapter (chapter : str) (kp : KnowledgePoint) : bool :=
  opt_str_eqb (kp_chapter kp) (Some chapter).

(** The per-chapter exam-requirement and importance histograms of
    [chapter_details]. *)
Definition chapter_exam_view (st : knowledge_stats) : dict (dict nat) :=
  map (fun p => (fst p, cd_exam_requirements (snd p))) (ks_chapter_details st).

Definition chapter_importance_view (st : knowledge_stats) : dict (dict nat) :=
  map (fun p => (fst p, cd_importance (snd p))) (ks_chapter_details st).

(** A chapter's importance buckets together with its records of unset
    importance account for the chapter's total. *)
Definition importance_accounted (kps : list KnowledgePoint)
           (p : str * chapter_detail) : Prop :=
  dict_total (cd_importance (snd p))
  + length (filter no_importance (chapter_kps_of kps (fst p)))
  = cd_total (snd p).

Definition importance_short (p : str * chapter_detail) : Prop :=
  dict_total (cd_importance (snd p)) < cd_total (snd p).

(** The content type lines 419-428 count a record under. *)
Definition content_type_of (kp : KnowledgePoint) : str :=
  let content := join_space (kp_content kp) in
  if contains_any meaning_words content then s_types_meaning
  else if contains_any policy_words content then s_types_policy
  else if contains_any figure_names content then s_types_figure
  else if contains_any event_words content then s_types_event
  else s_types_other.

(** The chapter lines 190-200 count a section mark under, if any. *)
Definition section_chapter (positions : list (str * nat)) (section : str * nat)
  : list str :=
  match fst (fold_left (closer (snd section)) positions (None, None)) with
  | Some (c :: chapter) => [c :: chapter]
  | _ => []
  end.

(** The value of line 406 *)
Definition mean_length (kps : list KnowledgePoint) : Q :=
  match kps with
  | [] => 0%Q
  | _ :: _ =>
      nearest_float (Qmake (Z.of_nat (total_length kps)) (Pos.of_nat (length kps)))
  end.

(** The characters of lines joined by single spaces: those of the lines,
    and one space between two consecutive lines *)
Definition joined_chars (lines : list str) : nat :=
  list_sum (map (fun l : str => length l) lines) + (length lines - 1).

(** The average as the specification states it: the summed length of the
    space-joined content of the records over their number, and zero
    without record; the exact quotient *)
Definition spec_avg_length (kps : list KnowledgePoint) : Q :=
  match kps with
  | [] => 0%Q
  | _ :: _ =>
      Qmake (Z.of_nat (list_sum (map (fun kp => joined_chars (kp_content kp)) kps)))
            (Pos.of_nat (length kps))
  end.

(** ** Definitions used to state the properties *)

(** The records closed so far together with the one in progress. *)
Definition pending (st : scan_state) : list KnowledgePoint :=
  flush (knowledge_points st) (current_knowledge st).

(** A four-character marker opening with the full-width bracket *)
Definition marker4 (a b c : char) : str := [c_lfw; a; b; c].

(** The text up to its first newline *)
Definition first_line (s : str) : str := hd [] (split_lines s).

(** [s[i]] *)
Definition at_ (i : nat) (s : str) : char := nth i s 0%N.

(** Adding one to each key of a list, all present. *)
Definition add_keys (d : dict nat) (ks : list str) : result (dict nat) :=
  for_each (fun d k => dict_add d k 1) ks d.

(** *** Well-formed records

    What the scanner guarantees about the fields the aggregator counts
    by: the chapter is absent or one of [CHAPTERS], the importance is
    absent or a star mark, the exam requirements are distinct tags. *)

Definition wf_kp (kp : KnowledgePoint) : Prop :=
  (forall c, kp_chapter kp = Some c -> In c CHAPTERS)
  /\ (forall i, kp_importance kp = Some i -> In i chapter_importance_keys)
  /\ incl (kp_exam_requirements kp) chapter_exam_keys
  /\ NoDup (kp_exam_requirements kp).

Definition chapter_known (chapter : option str) : Prop :=
  forall c, chapter = Some c -> In c CHAPTERS.

Definition wf_state (st : scan_state) : Prop :=
  Forall wf_kp (pending st) /\ chapter_known (current_chapter st).

Definition positions_known (positions : list (str * nat)) : Prop :=
  Forall (fun cp => In (fst cp) CHAPTERS) positions.


Section ContentSpec.

Context {cc : CharClasses}.

(** *** Content lines

    The specification's reading of a record's content, written from its
    words: the trimmed non-blank lines strictly between the opening title
    line and the next title line, chapter line or end of input. *)

Definition spec_is_boundary (line : str) : bool :=
  is_knowledge_title line || existsb (is_chapter_of line) CHAPTERS.

Definition spec_nonblank (line : str) : bool := negb (is_nil (strip line)).

Definition spec_content_between (rest : list str) : list str :=
  map strip
      (filter spec_nonblank
              (take_while (fun l => negb (spec_is_boundary l)) rest)).

(** Index of each title line paired with the content that follows it. *)
Fixpoint spec_records (i : nat) (lines : list str) : list (nat * list str) :=
  match lines with
  | [] => []
  | l :: rest =>
      if is_knowledge_title l
      then (i, spec_content_between rest) :: spec_records (S i) rest
      else spec_records (S i) rest
  end.

Definition kp_span (k : KnowledgePoint) : nat * list str :=
  (kp_start_line k, kp_content k).

Definition open_span (current : option KnowledgePoint) (rest : list str)
  : list (nat * list str) :=
  match current with
  | Some k => [(kp_start_line k, kp_content k ++ spec_content_between rest)]
  | None => []
  end.

(** The record in progress was opened on an earlier line. *)
Definition started_before (i : nat) (st : scan_state) : Prop :=
  match current_knowledge st with
  | Some k => kp_start_line k < i
  | None => True
  end.

End ContentSpec.

(** ** The scanner as a function of the text

    A description of [extract_knowledge_points] without the loop state of
    its record in progress: each title line gives one record, whose
    fields are read from the title line, from the chapter current at that
    line, and from the lines that follow up to the next boundary. *)

Section ScannerSpec.

Context {cc : CharClasses}.

(** The lines a record collects, before trimming *)
Definition spec_raw_between (rest : list str) : list str :=
  filter spec_nonblank (take_while (fun l => negb (spec_is_boundary l)) rest).

(** Lines 277-280 on one collected line *)
Definition importance_step (imp : option str) (line : str) : option str :=
  if negb (truthy imp) then
    match importance_of line with
    | Some found => Some found
    | None => imp
    end
  else imp.

(** The first star mark of the title line, else of the collected lines *)
Definition spec_importance (title : str) (raw : list str) : option str :=
  match importance_of title with
  | Some imp => Some imp
  | None => first_importance raw
  end.

Definition spec_record (i : nat) (chapter : option str) (line : str)
           (rest : list str) : KnowledgePoint :=
  {| kp_id := knowledge_id_of line;
     kp_title := knowledge_title_of line;
     kp_chapter := chapter;
     kp_chapter_name := dict_get_default CHAPTER_NAMES chapter [];
     kp_importance := spec_importance line (spec_raw_between rest);
     kp_exam_requirements := exam_requirements_of line;
     kp_content := spec_content_between rest;
     kp_start_line := i;
     kp_content_lines := None |}.

Fixpoint spec_extract (i : nat) (chapter : option str) (lines : list str)
  : list KnowledgePoint :=
  match lines with
  | [] => []
  | l :: rest =>
      let chapter' := detect_chapter l chapter in
      if is_knowledge_title l
      then spec_record i chapter' l rest :: spec_extract (S i) chapter' rest
      else spec_extract (S i) chapter' rest
  end.

(** The record in progress as the remaining lines will complete it *)
Definition complete (k : KnowledgePoint) (rest : list str) : KnowledgePoint :=
  {| kp_id := kp_id k; kp_title := kp_title k; kp_chapter := kp_chapter k;
     kp_chapter_name := kp_chapter_name k;
     kp_importance := fold_left importance_step (spec_raw_between rest)
                                (kp_importance k);
     kp_exam_requirements := kp_exam_requirements k;
     kp_content := kp_content k ++ spec_content_between rest;
     kp_start_line := kp_start_line k;
     kp_content_lines := None |}.

Definition open_record (current : option KnowledgePoint) (rest : list str)
  : list KnowledgePoint :=
  match current with
  | Some k => [complete k rest]
  | None => []
  end.

(** The chapter current at line [i]: the first chapter of [CHAPTERS]
    named on the nearest chapter line at or above it *)
Definition is_chapter_line (line : str) : bool :=
  existsb (is_chapter_of line) CHAPTERS.

Definition chapter_at (lines : list str) (i : nat) : option str :=
  match find is_chapter_line (rev (firstn (S i) lines)) with
  | Some line => find (is_chapter_of line) CHAPTERS
  | None => None
  end.

End ScannerSpec.

(** The chapter after the chapter tests of a sequence of lines *)
Definition walk_chapter {cc : CharClasses} (lines : list str) (chapter : option str)
  : option str :=
  fold_left (fun current line => detect_chapter line current) lines chapter.

(** A record made from a title line: the fields read from that line *)
Definition titled_by {cc : CharClasses} (line : str) (k : KnowledgePoint) : Prop :=
  is_knowledge_title line = true
  /\ kp_id k = knowledge_id_of line
  /\ kp_title k = knowledge_title_of line
  /\ kp_exam_requirements k = exam_requirements_of line
  /\ kp_chapter_name k = dict_get_default CHAPTER_NAMES (kp_chapter k) [].

(** The record sits on line [kp_start_line] of the text, which is a
    title line giving its fields. *)
Definition on_title_line {cc : CharClasses} (lines : list str) (k : KnowledgePoint)
  : Prop :=
  exists line, nth_error lines (kp_start_line k) = Some line /\ titled_by line k.

Definition is_decimal_id {cc : CharClasses} (k : KnowledgePoint) : Prop :=
  kp_id k <> [] /\ forallb isdigit (kp_id k) = true.

Definition clean_title {cc : CharClasses} (k : KnowledgePoint) : Prop :=
  existsb is_star (kp_title k) = false /\ strip (kp_title k) = kp_title k.

Definition chapter_from_above {cc : CharClasses} (lines : list str)
           (k : KnowledgePoint) : Prop :=
  kp_chapter k = chapter_at lines (kp_start_line k).

(** The bucket of the global importance count a record belongs to *)
Definition importance_bucket_of (kp : KnowledgePoint) : str :=
  match kp_importance kp with
  | Some imp => imp
  | None => s_unmarked
  end.

Definition in_importance_bucket (k : str) (kp : KnowledgePoint) : bool :=
  str_eqb (importance_bucket_of kp) k.

(** The totals of [chapter_details], chapter by chapter *)
Definition chapter_total_view (st : knowledge_stats) : dict nat :=
  map (fun p => (fst p, cd_total (snd p))) (ks_chapter_details st).

Definition in_content_type (k : str) (kp : KnowledgePoint) : bool :=
  str_eqb (content_type_of kp) k.

(** The questions on the lines before the first chapter line, which the
    walk of [analyze_questions] gives to no chapter *)
Definition unattributed_questions {cc : CharClasses} (lines : list str) : nat :=
  list_sum (map (re_count (m_alt s_real s_mock))
                (take_while (fun l => negb (is_chapter_line l)) lines)).

(** The questions the walk gives to a chapter, from a current chapter on *)
Fixpoint attributed_questions {cc : CharClasses} (current : option str)
         (lines : list str) : nat :=
  match lines with
  | [] => 0
  | l :: rest =>
      let current' := detect_chapter l current in
      (if is_some current' then re_count (m_alt s_real s_mock) l else 0)
      + attributed_questions current' rest
  end.

(** What the loop of lines 191-197 has found: the chapter mark nearest
    before the section mark with its distance, or nothing when no chapter
    mark lies before it. *)
Definition nearest_before (section_pos : nat) (positions : list (str * nat))
           (st : option str * option nat) : Prop :=
  match st with
  | (Some chapter, Some distance) =>
      exists pos,
        In (chapter, pos) positions
        /\ pos < section_pos
        /\ distance = section_pos - pos
        /\ Forall (fun cp => section_pos <= snd cp \/ snd cp <= pos) positions
  | (None, None) => Forall (fun cp => section_pos <= snd cp) positions
  | _ => False
  end.

(** Some chapter mark lies before the section mark. *)
Definition has_chapter_before (positions : list (str * nat)) (section : str * nat)
  : bool :=
  existsb (fun cp => snd cp <? snd section) positions.

Definition non_space {cc : CharClasses} (c : char) : bool := negb (isspace c).

(** What [analyze_basic_info] returns, or why it raised: the conversion
    of one of the page numbers found. *)
Definition basic_info_outcome {cc : CharClasses} (content : str)
           (r : result basic_info) : Prop :=
  match r with
  | Ok info =>
      bi_total_chars info = length content
      /\ bi_total_chars_no_space info = length (filter non_space content)
      /\ bi_total_chars_no_space info <= bi_total_chars info
      /\ StronglySorted lt (bi_pages info)
      /\ bi_page_count info = length (bi_pages info)
  | Raise e =>
      exists p, In p (page_matches content)
                /\ str_isdigit p = true /\ py_int p = Raise e
  end.

(** The attributes [load_file] never touches *)
Definition same_analysis (self self' : analyzer) : Prop :=
  self_file_path self' = self_file_path self
  /\ self_knowledge_points self' = self_knowledge_points self
  /\ self_stats self' = self_stats self.

(** What [load_file] leaves behind, by its return value *)
Definition loaded (self self' : analyzer) (ok : bool) : Prop :=
  if ok then
    self_content self' <> []
    /\ self_lines self' = split_lines (self_content self')
    /\ join_lines (self_lines self') = self_content self'
  else self_lines self' = self_lines self.

(** A page gave text. *)
Definition has_text (text : option str) : bool := truthy text.

(** The five statistics are stored. *)
Definition stats_complete (st : stats_dict) : Prop :=
  st_basic_info st <> None /\ st_structure st <> None
  /\ st_knowledge st <> None /\ st_questions st <> None
  /\ st_content st <> None.

(** What [run_analysis] leaves behind, by its outcome *)
Definition run_outcome {cc : CharClasses} (env : environment) (self : analyzer)
           (out : list str) (r : result bool * analyzer * list str) : Prop :=
  match r with
  | (Ok true, self', out') =>
      stats_complete (self_stats self')
      /\ self_content self' <> []
      /\ self_lines self' = split_lines (self_content self')
      /\ self_knowledge_points self'
         = extract_knowledge_points (self_lines self')
  | (Ok false, self', out') =>
      load_file env self (out ++ [msg_loading]) = (Ok false, self', out')
      /\ self_stats self' = self_stats self
      /\ self_knowledge_points self' = self_knowledge_points self
  | (Raise e, self', out') =>
      analyze_basic_info (self_content self') = Raise e
      /\ self_stats self' = self_stats self
  end.

(** The star mark of a line read off its first run of stars: the run
    itself up to three stars. *)
Definition first_star_run (line : str) : option str :=
  match drop_while (fun c => negb (is_star c)) line with
  | [] => None
  | run => Some (firstn 3 (take_while is_star run))
  end.

(** The entries of one level of the list, in the order of the records *)
Definition level_entries (star : str) (kps : list KnowledgePoint) : list list_entry :=
  map (fun kp => (kp_chapter kp, kp_title kp)) (filter (has_importance star) kps).

(** The numbered lines the list shows for one level *)
Definition listed (star : str) (kps : list KnowledgePoint) : list str :=
  map item_line (enumerate_from 1 (firstn 50 (level_entries star kps))).

Definition is_item_line (line : str) : bool := prefix txt_item line.

Definition is_heading_line (line : str) : bool := prefix txt_heading line.

(** A heading that names one of the fixed chapters *)
Definition chapter_heading (line : str) : Prop :=
  exists chapter, In chapter CHAPTERS /\ line = heading_line (Some chapter).

(** The entry carries one of the fixed chapters *)
Definition known_chapter (chapter : option str) : Prop :=
  exists ch, chapter = Some ch /\ In ch CHAPTERS.

(** Once a chapter occurs, every later entry carries one of the fixed
    chapters: the entries without chapter come first. *)
Fixpoint null_chapters_first (chapters : list (option str)) : Prop :=
  match chapters with
  | [] => True
  | None :: rest => null_chapters_first rest
  | Some _ :: rest => Forall known_chapter chapters
  end.

(** What the loop of a level relies on for the entries still to come,
    [current] being the chapter of the last heading *)
Definition headings_inv (current : option str) (chapters : list (option str)) : Prop :=
  match current with
  | None => null_chapters_first chapters
  | Some _ => Forall known_chapter chapters
  end.

(** A heading line, if the line is one, names one of the fixed chapters *)
Definition heading_ok (line : str) : Prop :=
  is_heading_line line = true -> chapter_heading line.

(** The numbers of the pages that gave text, as the page headers of
    the extracted text carry them *)
Definition text_pages (texts : list (option str)) : list nat :=
  map (fun ip : nat * option str => fst ip + 1)
      (filter (fun ip : nat * option str => has_text (snd ip)) (enumerate texts)).

(** The text of the page does not contain the opening of a page header *)
Definition plain_page (text : option str) : bool :=
  match text with
  | Some t => negb (contains s_page_open t)
  | None => true
  end.

(** One of the characters 0-9 *)
Definition ascii_digit (c : char) : Prop :=
  exists d, d < 10 /\ c = N.of_nat (48 + d).

(** The head matcher of the page-header pattern of line 154 *)
Definition page_head {cc : CharClasses} (s : str) : option nat :=
  option_map fst (m_page_number s).

(** An opening bracket followed, anywhere later, by its closing bracket *)
Fixpoint has_group (open close : char) (s : str) : bool :=
  match s with
  | [] => false
  | c :: rest =>
      ((c =? open)%N && existsb (N.eqb close) rest) || has_group open close rest
  end.

(** The title holds no bracket group of either kind *)
Definition no_bracket_group (k : KnowledgePoint) : Prop :=
  has_group c_lsq c_rsq (kp_title k) = false
  /\ has_group c_lfw c_rfw (kp_title k) = false.

(** * Properties *)

Unset Implicit Arguments.

(** ** Strings *)

Lemma str_eqb_eq (a b : str) : str_eqb a b = true <-> a = b.
Proof.
  unfold str_eqb. destruct (list_eq_dec N.eq_dec a b); split; congruence.
Qed.

Lemma str_eqb_refl (a : str) : str_eqb a a = true.
Proof. apply str_eqb_eq. reflexivity. Qed.

Lemma split_lines_no_newline (s : str) :
  Forall (fun l : str => forallb not_newline l = true) (split_lines s).
Proof.
  induction s as [|c s IH]; simpl.
  - repeat constructor.
  - destruct (c =? newline)%N eqn:E.
    + constructor; [reflexivity | exact IH].
    + destruct (split_lines s) as [|l ls].
      * repeat constructor. simpl. unfold not_newline. now rewrite E.
      * inversion IH; subst. constructor; [|assumption].
        simpl. unfold not_newline at 1. now rewrite E.
Qed.

Section ScannerFacts.

Context {cc : CharClasses}.

(** A match of [知识点\d+] begins with the label, so the substring test
    of line 221 adds nothing to the regular-expression test. *)
Lemma m_kp_prefix (s : str) (n : nat) : m_kp s = Some n -> prefix s_kp s = true.
Proof.
  unfold m_kp. destruct (prefix s_kp s); [reflexivity | discriminate].
Qed.

Lemma re_search_kp_contains (line : str) :
  is_some (re_search m_kp line) = true -> contains s_kp line = true.
Proof.
  unfold contains. induction line as [|c rest IH].
  - cbn [re_search search_at]. destruct (m_kp []) eqn:E; [|discriminate].
    intros _. apply m_kp_prefix in E. discriminate.
  - cbn [re_search search_at]. destruct (m_kp (c :: rest)) eqn:E.
    + intros _. apply m_kp_prefix in E. now rewrite E.
    + intros H. rewrite (IH H). apply orb_true_r.
Qed.

Lemma is_knowledge_title_search (line : str) :
  is_knowledge_title line = is_some (re_search m_kp line).
Proof.
  unfold is_knowledge_title.
  destruct (is_some (re_search m_kp line)) eqn:E.
  - now rewrite re_search_kp_contains.
  - apply andb_false_r.
Qed.

(** Blank lines: on a line without newline the two tests of line 272
    agree. *)
Lemma drop_while_all (A : Type) (f : A -> bool) (l : list A) :
  forallb f l = true -> drop_while f l = [].
Proof.
  induction l as [|x l IH]; simpl; [reflexivity|].
  intros H. apply andb_true_iff in H. destruct H as [Hx Hl]. now rewrite Hx, IH.
Qed.

Lemma blank_re_all_space (l : str) :
  forallb not_newline l = true -> blank_re l = forallb isspace l.
Proof.
  induction l as [|c l IH]; simpl; [reflexivity|].
  intros H. apply andb_true_iff in H. destruct H as [Hc Hl].
  unfold not_newline in Hc. apply negb_true_iff in Hc. rewrite Hc. simpl.
  now rewrite IH.
Qed.

Lemma strip_all_space (l : str) : forallb isspace l = true -> strip l = [].
Proof.
  intros H. unfold strip, rstrip, lstrip.
  now rewrite (drop_while_all _ _ _ H).
Qed.

Lemma blank_line_strip (l : str) :
  forallb not_newline l = true ->
  negb (is_nil (strip l)) && negb (blank_re l) = negb (is_nil (strip l)).
Proof.
  intros Hnl. rewrite (blank_re_all_space _ Hnl).
  destruct (forallb isspace l) eqn:E.
  - now rewrite (strip_all_space _ E).
  - apply andb_true_r.
Qed.

Lemma scan_step_count (st : scan_state) (i : nat) (line : str) :
  length (pending (scan_step st (i, line)))
  = length (pending st) + (if is_knowledge_title line then 1 else 0).
Proof.
  unfold pending, scan_step.
  destruct (is_knowledge_title line).
  - cbn. rewrite length_app. simpl. lia.
  - destruct (current_knowledge st) as [k|]; [|simpl; lia].
    destruct (kp_start_line k <? i); [|simpl; lia].
    destruct (is_some (re_search m_kp line) || existsb (is_chapter_of line) CHAPTERS).
    + simpl. lia.
    + destruct (negb (is_nil (strip line)) && negb (blank_re line));
        simpl; rewrite !length_app; simpl; lia.
Qed.

Lemma scan_count_from (lines : list str) :
  forall (i : nat) (st : scan_state),
    length (pending (fold_left scan_step (enumerate_from i lines) st))
    = length (pending st) + length (filter is_knowledge_title lines).
Proof.
  induction lines as [|l rest IH]; intros i st;
    cbn [fold_left enumerate_from filter].
  - simpl. lia.
  - rewrite IH, scan_step_count.
    destruct (is_knowledge_title l); simpl; lia.
Qed.

Lemma spec_content_between_boundary (l : str) (rest : list str) :
  spec_is_boundary l = true -> spec_content_between (l :: rest) = [].
Proof. intros H. unfold spec_content_between. simpl. now rewrite H. Qed.

Lemma spec_content_between_line (l : str) (rest : list str) :
  spec_is_boundary l = false ->
  spec_content_between (l :: rest)
  = (if spec_nonblank l then [strip l] else []) ++ spec_content_between rest.
Proof.
  intros H. unfold spec_content_between. simpl. rewrite H. simpl.
  now destruct (spec_nonblank l).
Qed.

Lemma scan_spans_from (lines : list str) :
  Forall (fun l : str => forallb not_newline l = true) lines ->
  forall (i : nat) (st : scan_state),
    started_before i st ->
    map kp_span (pending (fold_left scan_step (enumerate_from i lines) st))
    = map kp_span (knowledge_points st)
      ++ open_span (current_knowledge st) lines
      ++ spec_records i lines.
Proof.
  induction 1 as [|l rest Hl Hrest IH]; intros i st Hst;
    cbn [fold_left enumerate_from spec_records].
  - unfold pending, flush, open_span, spec_content_between. simpl.
    destruct (current_knowledge st) as [k|]; rewrite ?map_app, ?app_nil_r;
      reflexivity.
  - rewrite IH; clear IH.
    + unfold scan_step, started_before in *.
      destruct (is_knowledge_title l) eqn:Ht.
      * cbn [knowledge_points current_knowledge open_span new_knowledge
             kp_start_line kp_content app].
        assert (Hb : spec_is_boundary l = true)
          by (unfold spec_is_boundary; now rewrite Ht).
        destruct (current_knowledge st) as [k|]; cbn [flush open_span].
        -- rewrite (spec_content_between_boundary _ rest Hb), app_nil_r, map_app.
           rewrite <- app_assoc. reflexivity.
        -- reflexivity.
      * destruct (current_knowledge st) as [k|]; [|reflexivity].
        apply Nat.ltb_lt in Hst. rewrite Hst.
        rewrite <- is_knowledge_title_search, Ht. cbn [orb].
        destruct (existsb (is_chapter_of l) CHAPTERS) eqn:Hc.
        -- assert (Hb : spec_is_boundary l = true)
             by (unfold spec_is_boundary; now rewrite Ht, Hc).
           cbn [knowledge_points current_knowledge open_span].
           rewrite (spec_content_between_boundary _ rest Hb), app_nil_r, map_app.
           rewrite <- app_assoc. reflexivity.
        -- assert (Hb : spec_is_boundary l = false)
             by (unfold spec_is_boundary; now rewrite Ht, Hc).
           rewrite (blank_line_strip _ Hl). unfold open_span at 2.
           rewrite (spec_content_between_line _ rest Hb). unfold spec_nonblank.
           destruct (negb (is_nil (strip l)));
             cbn [knowledge_points current_knowledge open_span append_content
                  kp_start_line kp_content app];
             rewrite <- ?app_assoc; reflexivity.
    + unfold scan_step, started_before in *.
      destruct (is_knowledge_title l).
      * simpl. lia.
      * destruct (current_knowledge st) as [k|]; [|exact I].
        destruct (kp_start_line k <? i); [|simpl; lia].
        destruct (is_some (re_search m_kp l) || existsb (is_chapter_of l) CHAPTERS);
          [exact I|].
        destruct (negb (is_nil (strip l)) && negb (blank_re l)); simpl; lia.
Qed.

End ScannerFacts.

(** C2. The scanner emits exactly one record per knowledge-point title
    line (a line on which the test of line 221 succeeds): a record is
    opened by each such line and closed exactly once, by the next title
    line, by a chapter line, or at the end of the input. *)
Theorem extract_count_markers (cc : CharClasses) (lines : list str) :
  length (extract_knowledge_points lines)
  = length (filter is_knowledge_title lines).
Proof.
  unfold extract_knowledge_points, scan, enumerate.
  rewrite length_map.
  exact (scan_count_from lines 0 scan_init).
Qed.

(** C3. For every text, the emitted records are, in document order, the
    title lines of the text (by line index), and the content of each is
    exactly the trimmed non-blank lines strictly between its title line
    and the next title line, chapter line or end of input. *)
Theorem extract_content_between_markers (cc : CharClasses) (content : str) :
  map kp_span (extract_knowledge_points (split_lines content))
  = spec_records 0 (split_lines content).
Proof.
  unfold extract_knowledge_points, scan, enumerate.
  rewrite map_map.
  change (fun x => kp_span (del_content_lines x)) with kp_span.
  exact (scan_spans_from _ (split_lines_no_newline content) 0 scan_init I).
Qed.

(** ** Dictionaries and counting loops *)

Lemma mem_str_In (k : str) (l : list str) : mem_str k l = true <-> In k l.
Proof.
  unfold mem_str. rewrite existsb_exists. split.
  - intros [x [Hx E]]. apply str_eqb_eq in E. now subst.
  - intros H. exists k. split; [assumption | apply str_eqb_refl].
Qed.

Lemma str_eqb_neq (a b : str) : a <> b -> str_eqb a b = false.
Proof.
  intros H. destruct (str_eqb a b) eqn:E; [|reflexivity].
  apply str_eqb_eq in E. contradiction.
Qed.

Lemma dict_add_ok (d : dict nat) (k : str) (n : nat) :
  dict_in k d = true ->
  exists d', dict_add d k n = Ok d'
             /\ map fst d' = map fst d
             /\ dict_total d' = dict_total d + n
             /\ forall key, dict_val d' key
                            = dict_val d key + (if str_eqb key k then n else 0).
Proof.
  unfold dict_in, dict_total, dict_val.
  induction d as [|[k' v] rest IH]; simpl; [discriminate|].
  destruct (str_eqb k k') eqn:E.
  - intros _. apply str_eqb_eq in E. subst k'.
    exists ((k, v + n) :: rest). simpl. repeat split; [lia|].
    intros key. destruct (str_eqb key k); lia.
  - simpl. intros Hin. destruct (IH Hin) as [r [Hr [Hk [Ht Hv]]]].
    rewrite Hr. simpl. exists ((k', v) :: r). simpl.
    repeat split; [now rewrite Hk | lia|].
    intros key. destruct (str_eqb key k') eqn:E'.
    + apply str_eqb_eq in E'. subst key.
      destruct (str_eqb k' k) eqn:E''; [|lia].
      apply str_eqb_eq in E''. subst k'. now rewrite str_eqb_refl in E.
    + apply Hv.
Qed.

Lemma add_keys_ok (ks : list str) :
  forall d : dict nat,
    (forall k, In k ks -> dict_in k d = true) ->
    exists d', add_keys d ks = Ok d'
               /\ map fst d' = map fst d
               /\ dict_total d' = dict_total d + length ks
               /\ forall key, dict_val d' key = dict_val d key + count_key key ks.
Proof.
  unfold add_keys, count_key.
  induction ks as [|k ks IH]; intros d Hin; simpl.
  - exists d. repeat split; lia.
  - destruct (dict_add_ok d k 1 (Hin k (or_introl eq_refl)))
      as [d1 [H1 [K1 [T1 V1]]]].
    rewrite H1. simpl.
    destruct (IH d1) as [d2 [H2 [K2 [T2 V2]]]].
    { intros k0 Hk0. unfold dict_in. rewrite K1. apply Hin. now right. }
    exists d2. repeat split.
    + exact H2.
    + congruence.
    + lia.
    + intros key. rewrite V2, V1. destruct (str_eqb key k); simpl; lia.
Qed.

Lemma count_guarded_loop (reqs : list str) :
  forall d : dict nat,
    for_each count_guarded reqs d = add_keys d (keep_keys (map fst d) reqs).
Proof.
  unfold add_keys, keep_keys.
  induction reqs as [|r reqs IH]; intros d; simpl; [reflexivity|].
  unfold count_guarded at 1. unfold dict_in.
  destruct (mem_str r (map fst d)) eqn:E; simpl.
  - destruct (dict_add_ok d r 1 E) as [d1 [H1 [K1 _]]].
    rewrite H1. simpl. rewrite IH, K1. reflexivity.
  - apply IH.
Qed.

Section BucketLoop.

Variable A : Type.
Variable keys : list str.
Variable body : dict nat -> A -> result (dict nat).
Variable buckets : A -> list str.

Hypothesis buckets_in_keys : forall x k, In k (buckets x) -> In k keys.
Hypothesis body_adds :
  forall d x, map fst d = keys -> body d x = add_keys d (buckets x).

Lemma bucket_loop (l : list A) :
  forall d : dict nat,
    map fst d = keys ->
    exists d', for_each body l d = Ok d'
               /\ map fst d' = keys
               /\ dict_total d'
                  = dict_total d + list_sum (map (fun x => length (buckets x)) l)
               /\ forall key,
                   dict_val d' key
                   = dict_val d key
                     + list_sum (map (fun x => count_key key (buckets x)) l).
Proof.
  induction l as [|x l IH]; intros d Hd; simpl.
  - exists d. repeat split; [assumption | lia | intros; lia].
  - rewrite (body_adds d x Hd).
    destruct (add_keys_ok (buckets x) d) as [d1 [H1 [K1 [T1 V1]]]].
    { intros k Hk. unfold dict_in. rewrite Hd. apply mem_str_In.
      now apply (buckets_in_keys x). }
    rewrite H1. simpl.
    destruct (IH d1) as [d2 [H2 [K2 [T2 V2]]]]; [congruence|].
    exists d2. repeat split; [assumption | assumption | lia |].
    intros key. rewrite V2, V1. lia.
Qed.

End BucketLoop.

Lemma dict_by_keys (keys : list str) :
  NoDup keys ->
  forall d : dict nat,
    map fst d = keys -> d = map (fun k => (k, dict_val d k)) keys.
Proof.
  induction 1 as [|k keys Hk Hnd IH]; intros d Hd.
  - destruct d; [reflexivity | discriminate].
  - destruct d as [|[k' v] rest]; [discriminate|].
    simpl in Hd. injection Hd as -> Hrest. simpl. f_equal.
    + unfold dict_val. simpl. now rewrite str_eqb_refl.
    + rewrite (IH rest Hrest) at 1. apply map_ext_in.
      intros key Hkey. f_equal. unfold dict_val. simpl.
      rewrite str_eqb_neq; [reflexivity|]. intros ->. contradiction.
Qed.

Lemma dict_val_zero (keys : list str) (key : str) :
  dict_val (dict_zero keys) key = 0.
Proof.
  unfold dict_val, dict_zero. induction keys as [|k keys IH]; simpl.
  - reflexivity.
  - destruct (str_eqb key k); [reflexivity | exact IH].
Qed.

Lemma dict_total_zero (keys : list str) : dict_total (dict_zero keys) = 0.
Proof.
  unfold dict_total, dict_zero. induction keys; simpl; [reflexivity | assumption].
Qed.

Lemma dict_zero_keys (keys : list str) : map fst (dict_zero keys) = keys.
Proof. unfold dict_zero. rewrite map_map. simpl. apply map_id. Qed.

(** A counting loop started from the zero dictionary returns its tally,
    and the tally sums to the number of buckets hit. *)
Lemma tally_loop (A : Type) (keys : list str)
      (body : dict nat -> A -> result (dict nat)) (buckets : A -> list str) :
  NoDup keys ->
  (forall x k, In k (buckets x) -> In k keys) ->
  (forall d x, map fst d = keys -> body d x = add_keys d (buckets x)) ->
  forall l : list A,
    for_each body l (dict_zero keys) = Ok (tally keys buckets l)
    /\ dict_total (tally keys buckets l)
       = list_sum (map (fun x => length (buckets x)) l).
Proof.
  intros Hnd Hin Hbody l.
  destruct (bucket_loop A keys body buckets Hin Hbody l (dict_zero keys)
                        (dict_zero_keys keys)) as [d [Hd [Hk [Ht Hv]]]].
  assert (E : d = tally keys buckets l).
  { rewrite (dict_by_keys keys Hnd d Hk). unfold tally. apply map_ext.
    intros k. now rewrite Hv, dict_val_zero. }
  subst d. rewrite dict_total_zero in Ht. split; assumption.
Qed.

Lemma nodupb_NoDup (l : list str) : nodupb l = true -> NoDup l.
Proof.
  induction l as [|x l IH]; simpl; intros H; constructor.
  - apply andb_true_iff in H. destruct H as [H _].
    apply negb_true_iff in H. intros Hin. apply mem_str_In in Hin. congruence.
  - apply IH. apply andb_true_iff in H. tauto.
Qed.

Lemma NoDup_CHAPTERS : NoDup CHAPTERS.
Proof. apply nodupb_NoDup. vm_compute. reflexivity. Qed.

Lemma NoDup_importance_keys : NoDup importance_keys.
Proof. apply nodupb_NoDup. vm_compute. reflexivity. Qed.

Lemma NoDup_exam_keys : NoDup exam_keys.
Proof. apply nodupb_NoDup. vm_compute. reflexivity. Qed.

Lemma NoDup_chapter_importance_keys : NoDup chapter_importance_keys.
Proof. apply nodupb_NoDup. vm_compute. reflexivity. Qed.

Lemma NoDup_chapter_exam_keys : NoDup chapter_exam_keys.
Proof. apply nodupb_NoDup. vm_compute. reflexivity. Qed.

Lemma add_keys_single (d : dict nat) (k : str) : add_keys d [k] = dict_add d k 1.
Proof. unfold add_keys. simpl. now destruct (dict_add d k 1). Qed.

Lemma keep_keys_in (keys ks : list str) (k : str) :
  In k (keep_keys keys ks) -> In k keys.
Proof.
  unfold keep_keys. intros H. apply filter_In in H. now apply mem_str_In.
Qed.

Lemma opt_key_in (keys : list str) (o : option str) (k : str) :
  In k (opt_key keys o) -> In k keys.
Proof.
  unfold opt_key. destruct o as [key|]; [|contradiction].
  destruct (mem_str key keys) eqn:E; [|contradiction].
  intros [<-|[]]. now apply mem_str_In.
Qed.

Lemma guarded_opt_add (d : dict nat) (o : option str) :
  (if dict_in_opt o d then dict_add_opt d o 1 else Ok d)
  = add_keys d (opt_key (map fst d) o).
Proof.
  destruct o as [key|]; simpl; [|reflexivity].
  unfold dict_in. destruct (mem_str key (map fst d)).
  - now rewrite add_keys_single.
  - reflexivity.
Qed.

(** *** The five counting loops of [analyze_knowledge_distribution] *)

Lemma count_chapter_adds (d : dict nat) (kp : KnowledgePoint) :
  map fst d = CHAPTERS -> count_chapter d kp = add_keys d (buckets_chapter kp).
Proof.
  intros Hd. unfold count_chapter, buckets_chapter.
  now rewrite guarded_opt_add, Hd.
Qed.

Lemma count_importance_adds (d : dict nat) (kp : KnowledgePoint) :
  map fst d = importance_keys ->
  count_importance d kp = add_keys d (buckets_importance kp).
Proof.
  intros Hd. unfold count_importance, buckets_importance, opt_key.
  destruct (kp_importance kp) as [imp|]; cbn [dict_in_opt dict_add_opt].
  - unfold dict_in. rewrite Hd.
    destruct (mem_str imp importance_keys); now rewrite add_keys_single.
  - now rewrite add_keys_single.
Qed.

Lemma count_exam_adds (d : dict nat) (kp : KnowledgePoint) :
  map fst d = exam_keys -> count_exam d kp = add_keys d (buckets_exam kp).
Proof.
  intros Hd. unfold count_exam, buckets_exam.
  destruct (kp_exam_requirements kp) as [|r [|r' reqs]].
  - cbn [length Nat.eqb]. now rewrite add_keys_single.
  - cbn [length Nat.eqb Nat.ltb Nat.leb]. now rewrite count_guarded_loop, Hd.
  - cbn [length Nat.eqb Nat.ltb Nat.leb]. now rewrite add_keys_single.
Qed.

Lemma count_chapter_importance_adds (d : dict nat) (kp : KnowledgePoint) :
  map fst d = chapter_importance_keys ->
  count_chapter_importance d kp = add_keys d (buckets_chapter_importance kp).
Proof.
  intros Hd. unfold count_chapter_importance, buckets_chapter_importance.
  now rewrite guarded_opt_add, Hd.
Qed.

Lemma count_chapter_exam_adds (d : dict nat) (kp : KnowledgePoint) :
  map fst d = chapter_exam_keys ->
  count_chapter_exam d kp = add_keys d (buckets_chapter_exam kp).
Proof.
  intros Hd. unfold count_chapter_exam, buckets_chapter_exam.
  now rewrite count_guarded_loop, Hd.
Qed.

Lemma buckets_chapter_in (kp : KnowledgePoint) (k : str) :
  In k (buckets_chapter kp) -> In k CHAPTERS.
Proof. apply opt_key_in. Qed.

Lemma buckets_importance_in (kp : KnowledgePoint) (k : str) :
  In k (buckets_importance kp) -> In k importance_keys.
Proof.
  unfold buckets_importance.
  destruct (opt_key importance_keys (kp_importance kp)) as [|k0 ks] eqn:E.
  - intros [<-|[]]. apply mem_str_In. vm_compute. reflexivity.
  - rewrite <- E. apply opt_key_in.
Qed.

Lemma buckets_exam_in (kp : KnowledgePoint) (k : str) :
  In k (buckets_exam kp) -> In k exam_keys.
Proof.
  unfold buckets_exam. destruct (kp_exam_requirements kp) as [|r [|r' reqs]].
  - intros [<-|[]]. apply mem_str_In. vm_compute. reflexivity.
  - apply keep_keys_in.
  - intros [<-|[]]. apply mem_str_In. vm_compute. reflexivity.
Qed.

Lemma buckets_chapter_importance_in (kp : KnowledgePoint) (k : str) :
  In k (buckets_chapter_importance kp) -> In k chapter_importance_keys.
Proof. apply opt_key_in. Qed.

Lemma buckets_chapter_exam_in (kp : KnowledgePoint) (k : str) :
  In k (buckets_chapter_exam kp) -> In k chapter_exam_keys.
Proof. apply keep_keys_in. Qed.

Lemma dict_set_new (A : Type) (d : dict A) (k : str) (v : A) :
  ~ In k (map fst d) -> dict_set d k v = d ++ [(k, v)].
Proof.
  induction d as [|[k' v'] rest IH]; simpl; intros H; [reflexivity|].
  rewrite str_eqb_neq by (intros ->; apply H; now left).
  rewrite IH; [reflexivity|]. intros Hin. apply H. now right.
Qed.

Lemma detail_chapter_loop (kps : list KnowledgePoint) (chapters : list str) :
  forall acc : dict chapter_detail,
    NoDup (map fst acc ++ chapters) ->
    for_each (detail_chapter kps) chapters acc
    = Ok (acc ++ map (fun chapter => (chapter, chapter_detail_of kps chapter))
                     chapters).
Proof.
  induction chapters as [|ch chapters IH]; intros acc Hnd; simpl.
  - now rewrite app_nil_r.
  - unfold detail_chapter at 1.
    destruct (tally_loop _ _ _ _ NoDup_chapter_importance_keys
                buckets_chapter_importance_in count_chapter_importance_adds
                (chapter_kps_of kps ch)) as [-> _].
    destruct (tally_loop _ _ _ _ NoDup_chapter_exam_keys
                buckets_chapter_exam_in count_chapter_exam_adds
                (chapter_kps_of kps ch)) as [-> _].
    simpl. rewrite dict_set_new.
    + rewrite IH.
      * rewrite <- app_assoc. reflexivity.
      * rewrite map_app. simpl. rewrite <- app_assoc. exact Hnd.
    + apply NoDup_remove_2 in Hnd. intros Hin. apply Hnd.
      apply in_or_app. now left.
Qed.

(** [analyze_knowledge_distribution] never raises and returns the
    closed-form statistics of the records after the second scan. *)
Lemma analyze_knowledge_distribution_ok (knowledge_points : list KnowledgePoint) :
  analyze_knowledge_distribution knowledge_points
  = Ok (knowledge_stats_of (map second_scan knowledge_points),
        map second_scan knowledge_points).
Proof.
  unfold analyze_knowledge_distribution.
  set (kps := map second_scan knowledge_points).
  destruct (tally_loop _ _ _ _ NoDup_CHAPTERS buckets_chapter_in
              count_chapter_adds kps) as [-> _].
  destruct (tally_loop _ _ _ _ NoDup_importance_keys buckets_importance_in
              count_importance_adds kps) as [-> _].
  destruct (tally_loop _ _ _ _ NoDup_exam_keys buckets_exam_in
              count_exam_adds kps) as [-> _].
  cbn [bind]. rewrite (detail_chapter_loop kps CHAPTERS []).
  - reflexivity.
  - exact NoDup_CHAPTERS.
Qed.

(** ** Tallies as tables of counts *)

Lemma str_eqb_sym (a b : str) : str_eqb a b = str_eqb b a.
Proof.
  destruct (str_eqb b a) eqn:E.
  - apply str_eqb_eq in E. subst. apply str_eqb_refl.
  - apply str_eqb_neq. intros ->. now rewrite str_eqb_refl in E.
Qed.

Lemma tally_ext (A : Type) (keys : list str) (f g : A -> list str) (l : list A) :
  (forall x, In x l -> f x = g x) -> tally keys f l = tally keys g l.
Proof.
  intros H. unfold tally. apply map_ext. intros k. f_equal. f_equal.
  apply map_ext_in. intros x Hx. now rewrite (H x Hx).
Qed.

Lemma sum_indicator (A : Type) (p : A -> bool) (l : list A) :
  list_sum (map (fun x => if p x then 1 else 0) l) = length (filter p l).
Proof.
  induction l as [|x l IH]; simpl; [reflexivity|].
  destruct (p x); simpl; now rewrite IH.
Qed.

(** One bucket per record: the tally counts the records of each bucket. *)
Lemma tally_single (A : Type) (keys : list str) (b : A -> str) (l : list A) :
  tally keys (fun x => [b x]) l
  = map (fun k => (k, length (filter (fun x => str_eqb (b x) k) l))) keys.
Proof.
  unfold tally. apply map_ext. intros k. f_equal.
  rewrite <- sum_indicator. f_equal. apply map_ext. intros x.
  unfold count_key. simpl. rewrite (str_eqb_sym k (b x)).
  now destruct (str_eqb (b x) k).
Qed.

(** At most one bucket per record, given by an optional key. *)
Lemma tally_opt_key (A : Type) (keys : list str) (proj : A -> option str)
      (l : list A) :
  tally keys (fun x => opt_key keys (proj x)) l
  = map (fun k => (k, length (filter (fun x => opt_str_eqb (proj x) (Some k)) l)))
        keys.
Proof.
  unfold tally. apply map_ext_in. intros k Hk. f_equal.
  rewrite <- sum_indicator. f_equal. apply map_ext. intros x.
  unfold count_key, opt_key. destruct (proj x) as [key|]; simpl; [|reflexivity].
  destruct (mem_str key keys) eqn:E; simpl.
  - rewrite (str_eqb_sym k key). now destruct (str_eqb key k).
  - rewrite str_eqb_neq; [reflexivity|].
    intros ->. apply mem_str_In in Hk. congruence.
Qed.

Lemma count_key_NoDup (k : str) (ks : list str) :
  NoDup ks -> count_key k ks = if mem_str k ks then 1 else 0.
Proof.
  unfold count_key, mem_str. induction 1 as [|x ks Hx Hnd IH]; simpl.
  - reflexivity.
  - destruct (str_eqb k x) eqn:E; simpl.
    + apply str_eqb_eq in E. subst x. rewrite IH.
      destruct (existsb (str_eqb k) ks) eqn:E'; [|reflexivity].
      apply mem_str_In in E'. contradiction.
    + exact IH.
Qed.

Lemma count_key_keep (keys ks : list str) (k : str) :
  In k keys -> count_key k (keep_keys keys ks) = count_key k ks.
Proof.
  intros Hk. unfold count_key, keep_keys.
  induction ks as [|x ks IH]; simpl; [reflexivity|].
  destruct (mem_str x keys) eqn:E; simpl.
  - destruct (str_eqb k x); simpl; now rewrite IH.
  - rewrite str_eqb_neq; [exact IH|].
    intros ->. apply mem_str_In in Hk. congruence.
Qed.

(** Several buckets per record, each key at most once. *)
Lemma tally_keep_keys (A : Type) (keys : list str) (proj : A -> list str)
      (l : list A) :
  (forall x, In x l -> NoDup (proj x)) ->
  tally keys (fun x => keep_keys keys (proj x)) l
  = map (fun k => (k, length (filter (fun x => mem_str k (proj x)) l))) keys.
Proof.
  intros Hnd. unfold tally. apply map_ext_in. intros k Hk. f_equal.
  rewrite <- sum_indicator. f_equal. apply map_ext_in. intros x Hx.
  rewrite (count_key_keep keys (proj x) k Hk).
  apply count_key_NoDup. now apply Hnd.
Qed.

Lemma sum_complement (A : Type) (f : A -> nat) (p : A -> bool) (l : list A) :
  (forall x, In x l -> f x + (if p x then 1 else 0) = 1) ->
  list_sum (map f l) + length (filter p l) = length l.
Proof.
  induction l as [|x l IH]; intros H; simpl; [reflexivity|].
  assert (Hx := H x (or_introl eq_refl)).
  assert (Hl := IH (fun y Hy => H y (or_intror Hy))).
  destruct (p x); simpl; lia.
Qed.

Lemma sum_ones (A : Type) (f : A -> nat) (l : list A) :
  (forall x, In x l -> f x = 1) -> list_sum (map f l) = length l.
Proof.
  induction l as [|x l IH]; intros H; simpl; [reflexivity|].
  rewrite (H x (or_introl eq_refl)), IH; [reflexivity|].
  intros y Hy. apply H. now right.
Qed.

Lemma re_search_head (m : str -> option nat) (s t : str) (n : nat) :
  re_search m s = Some (t, n) -> m t = Some n.
Proof.
  induction s as [|c s IH]; cbn [re_search].
  - destruct (m []) eqn:E; [|discriminate]. intros H. injection H as <- <-. exact E.
  - destruct (m (c :: s)) eqn:E.
    + intros H. injection H as <- <-. exact E.
    + exact IH.
Qed.

Lemma prefix_firstn (p s : str) : prefix p s = true -> firstn (length p) s = p.
Proof.
  revert s. induction p as [|a p IH]; intros s; simpl; [reflexivity|].
  destruct s as [|b s]; [discriminate|].
  intros H. apply andb_true_iff in H. destruct H as [E H].
  apply N.eqb_eq in E. subst b. simpl. now rewrite IH.
Qed.

Lemma importance_of_in (line imp : str) :
  importance_of line = Some imp -> In imp chapter_importance_keys.
Proof.
  unfold importance_of.
  destruct (re_search m_importance line) as [[t n]|] eqn:E; [|discriminate].
  intros H. injection H as <-. apply re_search_head in E.
  unfold m_importance in E.
  destruct (prefix s_star3 t) eqn:E3.
  { injection E as <-. change 3 with (length s_star3).
    rewrite (prefix_firstn s_star3 t E3). simpl. tauto. }
  destruct (prefix s_star2 t) eqn:E2.
  { injection E as <-. change 2 with (length s_star2).
    rewrite (prefix_firstn s_star2 t E2). simpl. tauto. }
  destruct (prefix s_star1 t) eqn:E1; [|discriminate].
  injection E as <-. change 1 with (length s_star1).
  rewrite (prefix_firstn s_star1 t E1). simpl. tauto.
Qed.

Lemma first_importance_in (content : list str) (imp : str) :
  first_importance content = Some imp -> In imp chapter_importance_keys.
Proof.
  induction content as [|l content IH]; simpl; [discriminate|].
  destruct (importance_of l) as [i|] eqn:E; [|exact IH].
  intros H. injection H as <-. exact (importance_of_in l i E).
Qed.

Lemma exam_requirements_of_wf (line : str) :
  incl (exam_requirements_of line) chapter_exam_keys
  /\ NoDup (exam_requirements_of line).
Proof.
  unfold exam_requirements_of.
  destruct (contains s_tag_single line), (contains s_tag_short line),
    (contains s_tag_essay line);
    (split;
     [ intros x Hx; simpl in Hx; apply mem_str_In;
       repeat (destruct Hx as [<-|Hx]; [vm_compute; reflexivity|]);
       contradiction
     | apply nodupb_NoDup; vm_compute; reflexivity ]).
Qed.

Lemma second_scan_wf (kp : KnowledgePoint) : wf_kp kp -> wf_kp (second_scan kp).
Proof.
  intros [Hc [Hi [He Hn]]]. unfold second_scan.
  destruct (negb (truthy (kp_importance kp))); [|repeat split; assumption].
  destruct (first_importance (firstn 5 (kp_content kp))) as [imp|] eqn:E;
    [|repeat split; assumption].
  repeat split; try assumption. simpl. intros i H. injection H as <-.
  exact (first_importance_in _ _ E).
Qed.

Lemma del_content_lines_wf (kp : KnowledgePoint) :
  wf_kp kp -> wf_kp (del_content_lines kp).
Proof. intros H. exact H. Qed.

Section ScannerInvariant.

Context {cc : CharClasses}.

Lemma detect_chapter_known (line : str) (current : option str) :
  chapter_known current -> chapter_known (detect_chapter line current).
Proof.
  unfold chapter_known, detect_chapter. intros H c.
  destruct (find (is_chapter_of line) CHAPTERS) as [ch|] eqn:E; [|apply H].
  intros Hc. injection Hc as <-. apply find_some in E. tauto.
Qed.

Lemma new_knowledge_wf (i : nat) (line : str) (chapter : option str) :
  chapter_known chapter -> wf_kp (new_knowledge i line chapter).
Proof.
  intros H. unfold wf_kp, new_knowledge. cbn.
  destruct (exam_requirements_of_wf line) as [He Hn].
  repeat split; try assumption. apply importance_of_in.
Qed.

Lemma append_content_wf (k : KnowledgePoint) (line : str) :
  wf_kp k -> wf_kp (append_content k line).
Proof.
  intros [Hc [Hi [He Hn]]]. unfold wf_kp, append_content. cbn.
  repeat split; try assumption.
  destruct (negb (truthy (kp_importance k))); [|assumption].
  destruct (importance_of line) as [imp|] eqn:E; [|assumption].
  intros i H. injection H as <-. exact (importance_of_in line imp E).
Qed.

Lemma scan_step_wf (st : scan_state) (il : nat * str) :
  wf_state st -> wf_state (scan_step st il).
Proof.
  destruct il as [i line]. unfold wf_state, pending, scan_step.
  intros [Hkps Hch].
  assert (Hch' := detect_chapter_known line _ Hch).
  destruct (is_knowledge_title line).
  - cbn. split; [|assumption]. apply Forall_app. split; [assumption|].
    constructor; [|constructor]. now apply new_knowledge_wf.
  - destruct (current_knowledge st) as [k|]; [|split; assumption].
    destruct (kp_start_line k <? i); [|split; assumption].
    destruct (is_some (re_search m_kp line) || existsb (is_chapter_of line) CHAPTERS);
      [split; assumption|].
    destruct (negb (is_nil (strip line)) && negb (blank_re line));
      [|split; assumption].
    cbn in *. split; [|assumption].
    apply Forall_app in Hkps. destruct Hkps as [H1 H2].
    apply Forall_app. split; [assumption|].
    inversion H2; subst. constructor; [|constructor]. now apply append_content_wf.
Qed.

Lemma scan_wf (ils : list (nat * str)) :
  forall st, wf_state st -> wf_state (fold_left scan_step ils st).
Proof.
  induction ils as [|il ils IH]; intros st H; simpl; [assumption|].
  apply IH. now apply scan_step_wf.
Qed.

Lemma extract_knowledge_points_wf (lines : list str) :
  Forall wf_kp (extract_knowledge_points lines).
Proof.
  unfold extract_knowledge_points. apply Forall_map.
  assert (H : wf_state (scan lines)).
  { apply scan_wf. split; [constructor | intros c; discriminate]. }
  destruct H as [H _]. exact H.
Qed.

End ScannerInvariant.

(** ** Distribution of the records of a text *)

Lemma tally_total (A : Type) (keys : list str) (buckets : A -> list str)
      (l : list A) :
  NoDup keys ->
  (forall x k, In k (buckets x) -> In k keys) ->
  dict_total (tally keys buckets l)
  = list_sum (map (fun x => length (buckets x)) l).
Proof.
  intros Hnd Hin.
  now destruct (tally_loop A keys (fun d x => add_keys d (buckets x)) buckets
                           Hnd Hin (fun d x _ => eq_refl) l).
Qed.

Lemma filter_wf (kps : list KnowledgePoint) (p : KnowledgePoint -> bool) :
  Forall wf_kp kps -> Forall wf_kp (filter p kps).
Proof.
  intros H. apply Forall_forall. intros x Hx. apply filter_In in Hx.
  rewrite Forall_forall in H. now apply H.
Qed.

Lemma second_scan_fields (kp : KnowledgePoint) :
  kp_chapter (second_scan kp) = kp_chapter kp
  /\ kp_exam_requirements (second_scan kp) = kp_exam_requirements kp.
Proof.
  unfold second_scan. destruct (negb (truthy (kp_importance kp))); [|now split].
  now destruct (first_importance (firstn 5 (kp_content kp))).
Qed.

(** The analysis of a text returns the closed-form statistics of
    well-formed records, which have the chapters and exam requirements
    of the records the scanner emitted. *)
Lemma knowledge_of_text_ok {cc : CharClasses} (content : str) :
  exists kps,
    Forall wf_kp kps
    /\ knowledge_of_text content = Ok (knowledge_stats_of kps, kps)
    /\ map kp_chapter kps
       = map kp_chapter (extract_knowledge_points (split_lines content))
    /\ map kp_exam_requirements kps
       = map kp_exam_requirements (extract_knowledge_points (split_lines content)).
Proof.
  unfold knowledge_of_text.
  exists (map second_scan (extract_knowledge_points (split_lines content))).
  repeat split.
  - apply Forall_map. eapply Forall_impl; [|apply extract_knowledge_points_wf].
    intros k. apply second_scan_wf.
  - apply analyze_knowledge_distribution_ok.
  - rewrite map_map. apply map_ext. intros kp. apply second_scan_fields.
  - rewrite map_map. apply map_ext. intros kp. apply second_scan_fields.
Qed.

Lemma by_chapter_table (kps : list KnowledgePoint) :
  tally CHAPTERS buckets_chapter kps
  = count_table CHAPTERS (fun ch kp => opt_str_eqb (kp_chapter kp) (Some ch)) kps.
Proof. exact (tally_opt_key _ CHAPTERS kp_chapter kps). Qed.

Lemma by_chapter_total (kps : list KnowledgePoint) :
  Forall wf_kp kps ->
  dict_total (tally CHAPTERS buckets_chapter kps) + length (filter no_chapter kps)
  = length kps.
Proof.
  intros Hwf. rewrite (tally_total _ _ _ _ NoDup_CHAPTERS buckets_chapter_in).
  apply sum_complement. intros kp Hkp.
  rewrite Forall_forall in Hwf. destruct (Hwf kp Hkp) as [Hc _].
  unfold buckets_chapter, no_chapter, opt_key.
  destruct (kp_chapter kp) as [c|]; [|reflexivity].
  assert (E : mem_str c CHAPTERS = true) by (apply mem_str_In; now apply Hc).
  now rewrite E.
Qed.

Lemma buckets_exam_single (kp : KnowledgePoint) :
  wf_kp kp -> buckets_exam kp = [exam_bucket_of kp].
Proof.
  intros [_ [_ [He _]]]. unfold buckets_exam, exam_bucket_of.
  destruct (kp_exam_requirements kp) as [|r [|r' reqs]]; try reflexivity.
  assert (E : mem_str r exam_keys = true).
  { apply mem_str_In. assert (H := He r (or_introl eq_refl)).
    simpl in H. simpl. tauto. }
  unfold keep_keys. cbn [filter]. now rewrite E.
Qed.

Lemma by_exam_table (kps : list KnowledgePoint) :
  Forall wf_kp kps ->
  tally exam_keys buckets_exam kps = count_table exam_keys in_exam_bucket kps.
Proof.
  intros Hwf. rewrite Forall_forall in Hwf.
  rewrite (tally_ext _ exam_keys buckets_exam (fun kp => [exam_bucket_of kp])).
  - unfold count_table, in_exam_bucket. now rewrite tally_single.
  - intros kp Hkp. apply buckets_exam_single. now apply Hwf.
Qed.

Lemma by_exam_total (kps : list KnowledgePoint) :
  Forall wf_kp kps ->
  dict_total (tally exam_keys buckets_exam kps) = length kps.
Proof.
  intros Hwf. rewrite (tally_total _ _ _ _ NoDup_exam_keys buckets_exam_in).
  apply sum_ones. intros kp Hkp. rewrite Forall_forall in Hwf.
  now rewrite (buckets_exam_single kp (Hwf kp Hkp)).
Qed.

Lemma by_importance_total (kps : list KnowledgePoint) :
  dict_total (tally importance_keys buckets_importance kps) = length kps.
Proof.
  rewrite (tally_total _ _ _ _ NoDup_importance_keys buckets_importance_in).
  apply sum_ones. intros kp _. unfold buckets_importance, opt_key.
  destruct (kp_importance kp) as [imp|]; [|reflexivity].
  now destruct (mem_str imp importance_keys).
Qed.

Lemma chapter_exam_table (kps : list KnowledgePoint) :
  Forall wf_kp kps ->
  tally chapter_exam_keys buckets_chapter_exam kps
  = count_table chapter_exam_keys has_tag kps.
Proof.
  intros Hwf. rewrite Forall_forall in Hwf.
  apply (tally_keep_keys _ chapter_exam_keys kp_exam_requirements kps).
  intros kp Hkp. now destruct (Hwf kp Hkp) as [_ [_ [_ Hn]]].
Qed.

Lemma chapter_importance_table (kps : list KnowledgePoint) :
  tally chapter_importance_keys buckets_chapter_importance kps
  = count_table chapter_importance_keys has_importance kps.
Proof. exact (tally_opt_key _ chapter_importance_keys kp_importance kps). Qed.

Lemma chapter_importance_total (kps : list KnowledgePoint) :
  Forall wf_kp kps ->
  dict_total (tally chapter_importance_keys buckets_chapter_importance kps)
  + length (filter no_importance kps)
  = length kps.
Proof.
  intros Hwf.
  rewrite (tally_total _ _ _ _ NoDup_chapter_importance_keys
                       buckets_chapter_importance_in).
  apply sum_complement. intros kp Hkp.
  rewrite Forall_forall in Hwf. destruct (Hwf kp Hkp) as [_ [Hi _]].
  unfold buckets_chapter_importance, no_importance, opt_key.
  destruct (kp_importance kp) as [imp|]; [|reflexivity].
  assert (E : mem_str imp chapter_importance_keys = true)
    by (apply mem_str_In; now apply Hi).
  now rewrite E.
Qed.

(** C1, as amended.  For every text the analysis returns, on records
    with the chapters the scanner gave them; the total is the number of
    records; the bucket of each fixed chapter counts the records of that
    chapter, so a record without chapter is in no bucket; and the buckets
    sum to the total less the records without chapter. *)
Theorem by_chapter_sum_with_null (cc : CharClasses) (content : str) :
  exists st kps,
    knowledge_of_text content = Ok (st, kps)
    /\ map kp_chapter kps
       = map kp_chapter (extract_knowledge_points (split_lines content))
    /\ ks_total st = length kps
    /\ ks_by_chapter st = count_table CHAPTERS in_chapter kps
    /\ dict_total (ks_by_chapter st) + length (filter no_chapter kps)
       = ks_total st.
Proof.
  destruct (knowledge_of_text_ok content) as [kps [Hwf [Hok [Hch _]]]].
  exists (knowledge_stats_of kps), kps.
  split; [exact Hok|]. split; [exact Hch|]. split; [reflexivity|].
  split; [apply by_chapter_table|]. apply by_chapter_total. exact Hwf.
Qed.

(** C1 as stated fails: a title line before any chapter line gives a
    record counted in the total and in no chapter. *)
Lemma by_chapter_sum_below_total :
  exists st kps,
    @knowledge_of_text py_classes (utf8 "知识点1 鸦片战争") = Ok (st, kps)
    /\ ks_total st = 1
    /\ dict_total (ks_by_chapter st) = 0
    /\ dict_total (ks_by_chapter st) <> ks_total st.
Proof.
  eexists. eexists. split; [vm_compute; reflexivity|].
  repeat split. discriminate.
Qed.

(** C4. For every text, each record belongs to exactly one bucket of the
    global exam-requirement count (no tag: unmarked; one tag: that tag;
    several tags: combined), each bucket counts the records that belong
    to it, and the buckets sum to the total. *)
Theorem by_exam_one_bucket (cc : CharClasses) (content : str) :
  exists st kps,
    knowledge_of_text content = Ok (st, kps)
    /\ map kp_exam_requirements kps
       = map kp_exam_requirements
             (extract_knowledge_points (split_lines content))
    /\ ks_total st = length kps
    /\ Forall (fun kp => In (exam_bucket_of kp) exam_keys) kps
    /\ ks_by_exam st = count_table exam_keys in_exam_bucket kps
    /\ dict_total (ks_by_exam st) = ks_total st.
Proof.
  destruct (knowledge_of_text_ok content) as [kps [Hwf [Hok [_ Hreq]]]].
  exists (knowledge_stats_of kps), kps.
  split; [exact Hok|]. split; [exact Hreq|]. split; [reflexivity|].
  split; [|split].
  - eapply Forall_impl; [|exact Hwf]. intros kp Hkp.
    apply (buckets_exam_in kp). rewrite (buckets_exam_single kp Hkp). now left.
  - apply by_exam_table. exact Hwf.
  - apply by_exam_total. exact Hwf.
Qed.

Lemma chapter_details_of (kps : list KnowledgePoint) :
  ks_chapter_details (knowledge_stats_of kps)
  = map (fun chapter => (chapter, chapter_detail_of kps chapter)) CHAPTERS.
Proof. reflexivity. Qed.

(** C5. For every text, in each chapter's histogram the bucket of a tag
    counts the chapter's records that carry the tag, so a record with
    several tags is counted once in each of them, while the global count
    puts every record in its single bucket; on a record tagged both
    single-choice and short-answer the chapter counts one of each and the
    global count one combined. *)
Theorem chapter_exam_counts_every_tag :
  (forall (cc : CharClasses) (content : str),
      exists st kps,
        knowledge_of_text content = Ok (st, kps)
        /\ chapter_exam_view st
           = map (fun ch => (ch, count_table chapter_exam_keys has_tag
                                             (chapter_kps_of kps ch)))
                 CHAPTERS
        /\ ks_by_exam st = count_table exam_keys in_exam_bucket kps)
  /\ (exists st kps,
         @knowledge_of_text py_classes
           (utf8 "第一章 进入近代后中华民族的磨难与抗争 第1页
知识点1 鸦片战争【单选】【简答】")
         = Ok (st, kps)
         /\ dict_get (chapter_exam_view st) s_ch1
            = Some [(s_single, 1); (s_short, 1); (s_essay, 0)]
         /\ ks_by_exam st
            = [(s_single, 0); (s_short, 0); (s_essay, 0);
               (s_combined, 1); (s_unmarked, 0)]).
Proof.
  split.
  - intros cc content.
    destruct (knowledge_of_text_ok content) as [kps [Hwf [Hok _]]].
    exists (knowledge_stats_of kps), kps. repeat split.
    + exact Hok.
    + unfold chapter_exam_view. rewrite chapter_details_of, map_map.
      apply map_ext. intros ch. cbn [fst snd chapter_detail_of cd_exam_requirements].
      f_equal. apply chapter_exam_table. now apply filter_wf.
    + apply by_exam_table. exact Hwf.
  - eexists. eexists. split; [vm_compute; reflexivity|].
    split; reflexivity.
Qed.

(** C10. For every text, each chapter's importance histogram has exactly
    the three star buckets, each counting the chapter's records of that
    mark; with the chapter's records of unset importance they account for
    the chapter's total; the global histogram has the unmarked bucket as
    well and sums to the overall total.  Some text has a chapter whose
    importance buckets sum to strictly less than its total. *)
Theorem chapter_importance_without_unmarked :
  (forall (cc : CharClasses) (content : str),
      exists st kps,
        knowledge_of_text content = Ok (st, kps)
        /\ chapter_importance_view st
           = map (fun ch => (ch, count_table chapter_importance_keys has_importance
                                             (chapter_kps_of kps ch)))
                 CHAPTERS
        /\ Forall (importance_accounted kps) (ks_chapter_details st)
        /\ map fst (ks_by_importance st) = importance_keys
        /\ dict_total (ks_by_importance st) = ks_total st)
  /\ (exists st kps,
         @knowledge_of_text py_classes
           (utf8 "第一章 进入近代后中华民族的磨难与抗争 第1页
知识点1 鸦片战争【单选】")
         = Ok (st, kps)
         /\ Exists importance_short (ks_chapter_details st)).
Proof.
  split.
  - intros cc content.
    destruct (knowledge_of_text_ok content) as [kps [Hwf [Hok _]]].
    exists (knowledge_stats_of kps), kps. repeat split.
    + exact Hok.
    + unfold chapter_importance_view. rewrite chapter_details_of, map_map.
      apply map_ext. intros ch. cbn [fst snd chapter_detail_of cd_importance].
      f_equal. apply chapter_importance_table.
    + rewrite chapter_details_of. apply Forall_map. apply Forall_forall.
      intros ch _. unfold importance_accounted.
      cbn [fst snd chapter_detail_of cd_importance cd_total].
      apply chapter_importance_total. now apply filter_wf.
    + apply by_importance_total.
  - eexists. eexists. split; [vm_compute; reflexivity|].
    apply Exists_cons_tl. apply Exists_cons_hd.
    unfold importance_short. vm_compute. apply le_n.
Qed.

(** ** Question markers *)

Lemma for_each_app (S A : Type) (body : S -> A -> result S) (l1 l2 : list A) :
  forall s : S,
    for_each body (l1 ++ l2) s = (s' <- for_each body l1 s ;; for_each body l2 s').
Proof.
  induction l1 as [|x l1 IH]; intros s; simpl; [reflexivity|].
  destruct (body s x) as [s'|e]; simpl; [apply IH | reflexivity].
Qed.

Lemma split_lines_cons (s : str) : exists l ls, split_lines s = l :: ls.
Proof.
  destruct s as [|c s]; simpl; [now eexists; eexists|].
  destruct (c =? newline)%N; [now eexists; eexists|].
  destruct (split_lines s); now eexists; eexists.
Qed.

Lemma prefix_first_line (p : str) :
  forallb not_newline p = true ->
  forall s, prefix p s = prefix p (first_line s).
Proof.
  unfold first_line.
  induction p as [|a p IH]; intros Hp s.
  - reflexivity.
  - simpl in Hp. apply andb_true_iff in Hp. destruct Hp as [Ha Hp].
    unfold not_newline in Ha. apply negb_true_iff in Ha.
    destruct s as [|c s]; [reflexivity|]. cbn [split_lines].
    destruct (c =? newline)%N eqn:E.
    + apply N.eqb_eq in E. subst c. simpl. now rewrite Ha.
    + destruct (split_lines_cons s) as [l [ls Hs]].
      specialize (IH Hp s). rewrite Hs in *. simpl in *. now rewrite IH.
Qed.

(** A pattern without newline occurs in a text as often as in its lines
    together. *)
Lemma list_sum_cons (x : nat) (l : list nat) : list_sum (x :: l) = x + list_sum l.
Proof. reflexivity. Qed.

Lemma occurrences_split (p : str) (a : char) (p' : str) :
  p = a :: p' ->
  forallb not_newline p = true ->
  forall s, occurrences p s = list_sum (map (occurrences p) (split_lines s)).
Proof.
  intros Hp Hnl. induction s as [|c s IH]; [reflexivity|].
  cbn [occurrences split_lines]. rewrite IH.
  destruct (c =? newline)%N eqn:E.
  - apply N.eqb_eq in E. subst c. rewrite map_cons, list_sum_cons.
    subst p. simpl in Hnl. apply andb_true_iff in Hnl.
    destruct Hnl as [Ha _]. unfold not_newline in Ha.
    apply negb_true_iff in Ha. simpl prefix. simpl occurrences.
    now rewrite Ha.
  - rewrite (prefix_first_line p Hnl (c :: s)). unfold first_line.
    cbn [split_lines]. rewrite E.
    destruct (split_lines_cons s) as [l [ls Hs]]. rewrite Hs.
    rewrite !map_cons, !list_sum_cons. cbn [hd occurrences].
    apply Nat.add_assoc.
Qed.

Section Markers.

(** Two four-character markers opening with the full-width bracket, which
    occurs nowhere else in them, and differing in their second
    character. *)
Variables a b c a' b' c' : char.
Hypothesis a_not_open : (c_lfw =? a)%N = false.
Hypothesis b_not_open : (c_lfw =? b)%N = false.
Hypothesis c_not_open : (c_lfw =? c)%N = false.
Hypothesis a'_not_open : (c_lfw =? a')%N = false.
Hypothesis b'_not_open : (c_lfw =? b')%N = false.
Hypothesis c'_not_open : (c_lfw =? c')%N = false.
Hypothesis a_not_a' : (a' =? a)%N = false.

Lemma marker_shape (x y z w : char) (s : str) :
  prefix (marker4 x y z) (w :: s) = true ->
  exists t, w = c_lfw /\ s = x :: y :: z :: t.
Proof.
  unfold marker4.
  destruct s as [|s0 [|s1 [|s2 t]]]; cbn [prefix];
    rewrite ?andb_false_r; try discriminate.
  intros H. repeat (apply andb_true_iff in H; destruct H as [? H]).
  repeat match goal with E : (_ =? _)%N = true |- _ => apply N.eqb_eq in E end.
  subst. now exists t.
Qed.

Lemma occurrences_skip (x y z : char) (u v w : char) (t : str) :
  (c_lfw =? u)%N = false -> (c_lfw =? v)%N = false -> (c_lfw =? w)%N = false ->
  occurrences (marker4 x y z) (u :: v :: w :: t)
  = occurrences (marker4 x y z) t.
Proof.
  intros Hu Hv Hw. unfold marker4. cbn [occurrences prefix].
  now rewrite Hu, Hv, Hw.
Qed.

Lemma re_count_lit_occurrences (x y z : char) :
  (c_lfw =? x)%N = false -> (c_lfw =? y)%N = false -> (c_lfw =? z)%N = false ->
  forall (s : str) (k : nat),
    re_count_from (m_lit (marker4 x y z)) k s
    = occurrences (marker4 x y z) (skipn k s).
Proof.
  intros Hx Hy Hz. induction s as [|w s IH]; intros k.
  - now destruct k.
  - destruct k as [|k]; [|apply IH].
    cbn [re_count_from skipn]. unfold m_lit.
    destruct (prefix (marker4 x y z) (w :: s)) eqn:E.
    + cbn [length marker4]. rewrite IH. cbn [occurrences]. rewrite E.
      destruct (marker_shape _ _ _ _ _ E) as [t [-> ->]].
      now rewrite occurrences_skip.
    + rewrite IH. cbn [occurrences skipn]. now rewrite E.
Qed.

Lemma prefix_exclusive (s : str) :
  prefix (marker4 a b c) s = true -> prefix (marker4 a' b' c') s = false.
Proof.
  destruct s as [|w s]; [discriminate|]. intros H.
  destruct (marker_shape _ _ _ _ _ H) as [t [-> ->]].
  unfold marker4. cbn [prefix]. rewrite a_not_a'. now rewrite andb_false_r.
Qed.

Lemma re_count_alt_occurrences :
  forall (s : str) (k : nat),
    re_count_from (m_alt (marker4 a b c) (marker4 a' b' c')) k s
    = occurrences (marker4 a b c) (skipn k s)
      + occurrences (marker4 a' b' c') (skipn k s).
Proof.
  induction s as [|w s IH]; intros k.
  - now destruct k.
  - destruct k as [|k]; [|apply IH].
    cbn [re_count_from skipn]. unfold m_alt, m_lit.
    destruct (prefix (marker4 a b c) (w :: s)) eqn:Ep.
    + cbn [length marker4]. rewrite IH. cbn [occurrences]. rewrite Ep.
      rewrite (prefix_exclusive _ Ep).
      destruct (marker_shape _ _ _ _ _ Ep) as [t [-> ->]].
      rewrite !occurrences_skip by assumption.
      cbn [skipn]. lia.
    + destruct (prefix (marker4 a' b' c') (w :: s)) eqn:Eq.
      * cbn [length marker4]. rewrite IH. cbn [occurrences]. rewrite Ep, Eq.
        destruct (marker_shape _ _ _ _ _ Eq) as [t [-> ->]].
        rewrite !occurrences_skip by assumption.
        cbn [skipn]. lia.
      * rewrite IH. cbn [occurrences skipn]. rewrite Ep, Eq. lia.
Qed.

End Markers.

Lemma re_count_real (s : str) : re_count (m_lit s_real) s = occurrences s_real s.
Proof.
  exact (re_count_lit_occurrences (at_ 1 s_real) (at_ 2 s_real) (at_ 3 s_real)
           eq_refl eq_refl eq_refl s 0).
Qed.

Lemma re_count_mock (s : str) : re_count (m_lit s_mock) s = occurrences s_mock s.
Proof.
  exact (re_count_lit_occurrences (at_ 1 s_mock) (at_ 2 s_mock) (at_ 3 s_mock)
           eq_refl eq_refl eq_refl s 0).
Qed.

(** [len(re.findall(r'【真题·|【模拟·', line))] is the number of real
    markers plus the number of mock markers of the line. *)
Lemma re_count_real_or_mock (s : str) :
  re_count (m_alt s_real s_mock) s
  = re_count (m_lit s_real) s + re_count (m_lit s_mock) s.
Proof.
  rewrite re_count_real, re_count_mock.
  exact (re_count_alt_occurrences
           (at_ 1 s_real) (at_ 2 s_real) (at_ 3 s_real)
           (at_ 1 s_mock) (at_ 2 s_mock) (at_ 3 s_mock)
           eq_refl eq_refl eq_refl eq_refl eq_refl eq_refl eq_refl s 0).
Qed.

Lemma re_count_real_lines (content : str) :
  re_count (m_lit s_real) content
  = list_sum (map (re_count (m_lit s_real)) (split_lines content)).
Proof.
  rewrite re_count_real.
  rewrite (occurrences_split s_real c_lfw (tl s_real) eq_refl eq_refl).
  f_equal. apply map_ext. intros l. symmetry. apply re_count_real.
Qed.

Lemma re_count_mock_lines (content : str) :
  re_count (m_lit s_mock) content
  = list_sum (map (re_count (m_lit s_mock)) (split_lines content)).
Proof.
  rewrite re_count_mock.
  rewrite (occurrences_split s_mock c_lfw (tl s_mock) eq_refl eq_refl).
  f_equal. apply map_ext. intros l. symmetry. apply re_count_mock.
Qed.

Section QuestionWalk.

Context {cc : CharClasses}.

Lemma chapter_known_truthy (chapter : option str) :
  chapter_known chapter -> truthy chapter = is_some chapter.
Proof.
  intros H. destruct chapter as [[|c0 ch]|]; try reflexivity.
  assert (Hin := H [] eq_refl). apply mem_str_In in Hin. discriminate.
Qed.

Lemma question_step_ok (current : option str) (d : dict nat) (line : str) :
  map fst d = CHAPTERS ->
  chapter_known current ->
  exists d',
    question_step (current, d) line = Ok (detect_chapter line current, d')
    /\ map fst d' = CHAPTERS
    /\ forall k,
        dict_val d' k
        = dict_val d k
          + (if opt_str_eqb (detect_chapter line current) (Some k)
             then re_count (m_alt s_real s_mock) line else 0).
Proof.
  intros Hd Hcur. unfold question_step. cbn [fst snd].
  assert (Hch := detect_chapter_known line current Hcur).
  rewrite (chapter_known_truthy _ Hch).
  destruct (detect_chapter line current) as [ch|]; cbn [is_some dict_add_opt].
  - destruct (dict_add_ok d ch (re_count (m_alt s_real s_mock) line))
      as [d' [Hadd [Hk [_ Hv]]]].
    { unfold dict_in. rewrite Hd. apply mem_str_In. now apply Hch. }
    rewrite Hadd. exists d'. cbn [bind]. repeat split; [congruence|].
    intros k. rewrite Hv. cbn [opt_str_eqb]. now rewrite (str_eqb_sym ch k).
  - exists d. repeat split; [assumption|]. intros k. cbn [opt_str_eqb]. lia.
Qed.

Lemma walk_from_ok (lines : list str) :
  forall (current : option str) (d : dict nat),
    map fst d = CHAPTERS ->
    chapter_known current ->
    exists current' d',
      for_each question_step lines (current, d) = Ok (current', d')
      /\ map fst d' = CHAPTERS
      /\ chapter_known current'.
Proof.
  induction lines as [|l lines IH]; intros current d Hd Hcur; cbn [for_each].
  - now exists current, d.
  - destruct (question_step_ok current d l Hd Hcur) as [d1 [H1 [K1 _]]].
    rewrite H1. cbn [bind]. apply IH; [assumption|].
    now apply detect_chapter_known.
Qed.

Lemma walk_questions_ok (lines : list str) :
  exists current d,
    walk_questions lines = Ok (current, d)
    /\ map fst d = CHAPTERS
    /\ chapter_known current.
Proof.
  apply walk_from_ok; [apply dict_zero_keys | intros c; discriminate].
Qed.

(** [analyze_questions] never raises. *)
Lemma analyze_questions_ok (content : str) (lines : list str) :
  exists qs, analyze_questions content lines = Ok qs
             /\ qs_real qs = re_count (m_lit s_real) content
             /\ qs_mock qs = re_count (m_lit s_mock) content
             /\ qs_total qs = qs_real qs + qs_mock qs
             /\ exists current,
                 walk_questions lines = Ok (current, qs_by_chapter qs).
Proof.
  unfold analyze_questions.
  destruct (walk_questions_ok lines) as [current [d [Hw _]]].
  rewrite Hw. cbn [bind snd]. eexists. repeat split. now exists current.
Qed.

End QuestionWalk.

(** C7. Take a text and one of its lines that carries one real-exam and
    one mock-exam marker and is reached with the walk's current chapter
    (after the chapter test on the line itself) being [ch].  The walk
    leaves that line with 2 added to the question count of [ch] and
    nothing added to any other chapter, and the final per-chapter counts
    are those of the walk continued from there; in the global counts, each
    a sum over the lines of the text, the line stands for exactly 1 real
    and 1 mock question. *)
Theorem question_line_contribution (cc : CharClasses) (content : str)
        (before after : list str) (line : str)
        (current : option str) (d : dict nat) (ch : str) :
  split_lines content = before ++ line :: after ->
  re_count (m_lit s_real) line = 1 ->
  re_count (m_lit s_mock) line = 1 ->
  walk_questions before = Ok (current, d) ->
  detect_chapter line current = Some ch ->
  exists d' qs last,
    walk_questions (before ++ [line]) = Ok (Some ch, d')
    /\ (forall k, dict_val d' k = dict_val d k + (if str_eqb ch k then 2 else 0))
    /\ analyze_questions content (split_lines content) = Ok qs
    /\ for_each question_step after (Some ch, d') = Ok (last, qs_by_chapter qs)
    /\ qs_real qs
       = list_sum (map (re_count (m_lit s_real)) before) + 1
         + list_sum (map (re_count (m_lit s_real)) after)
    /\ qs_mock qs
       = list_sum (map (re_count (m_lit s_mock)) before) + 1
         + list_sum (map (re_count (m_lit s_mock)) after).
Proof.
  intros Hsplit Hreal Hmock Hwalk Hch.
  destruct (walk_questions_ok before) as [cur0 [d0 [Hw0 [Hk0 Hc0]]]].
  rewrite Hwalk in Hw0. injection Hw0 as <- <-.
  destruct (question_step_ok current d line Hk0 Hc0) as [d' [Hstep [Hk' Hv']]].
  rewrite Hch in Hstep, Hv'.
  assert (Hmid : walk_questions (before ++ [line]) = Ok (Some ch, d')).
  { unfold walk_questions in *. rewrite for_each_app, Hwalk. cbn [bind for_each].
    rewrite Hstep. reflexivity. }
  destruct (analyze_questions_ok content (split_lines content))
    as [qs [Hqs [Hr [Hm [_ [last Hlast]]]]]].
  exists d', qs, last. repeat split.
  - exact Hmid.
  - intros k. rewrite Hv'. cbn [opt_str_eqb].
    rewrite re_count_real_or_mock, Hreal, Hmock. reflexivity.
  - exact Hqs.
  - rewrite Hsplit in Hlast. unfold walk_questions in *.
    change (before ++ line :: after) with (before ++ [line] ++ after) in Hlast.
    rewrite app_assoc, for_each_app, Hmid in Hlast. exact Hlast.
  - rewrite Hr, re_count_real_lines, Hsplit, map_app, list_sum_app.
    rewrite map_cons, list_sum_cons, Hreal. lia.
  - rewrite Hm, re_count_mock_lines, Hsplit, map_app, list_sum_app.
    rewrite map_cons, list_sum_cons, Hmock. lia.
Qed.

Lemma question_line_contribution_witness :
  exists d' qs last,
    @walk_questions py_classes
      ([utf8 "第一章 进入近代后中华民族的磨难与抗争 第1页"]
         ++ [utf8 "1.【真题·2020】甲 2.【模拟·一】乙"])
    = Ok (Some s_ch1, d')
    /\ (forall k, dict_val d' k
                  = dict_val (dict_zero CHAPTERS) k
                    + (if str_eqb s_ch1 k then 2 else 0))
    /\ @analyze_questions py_classes
         (utf8 "第一章 进入近代后中华民族的磨难与抗争 第1页
1.【真题·2020】甲 2.【模拟·一】乙
【答案】A")
         (split_lines (utf8 "第一章 进入近代后中华民族的磨难与抗争 第1页
1.【真题·2020】甲 2.【模拟·一】乙
【答案】A"))
       = Ok qs
    /\ @for_each _ _ (@question_step py_classes) [utf8 "【答案】A"] (Some s_ch1, d')
       = Ok (last, qs_by_chapter qs)
    /\ qs_real qs
       = list_sum (map (re_count (m_lit s_real))
                       [utf8 "第一章 进入近代后中华民族的磨难与抗争 第1页"])
         + 1 + list_sum (map (re_count (m_lit s_real)) [utf8 "【答案】A"])
    /\ qs_mock qs
       = list_sum (map (re_count (m_lit s_mock))
                       [utf8 "第一章 进入近代后中华民族的磨难与抗争 第1页"])
         + 1 + list_sum (map (re_count (m_lit s_mock)) [utf8 "【答案】A"]).
Proof.
  apply (question_line_contribution py_classes
           (utf8 "第一章 进入近代后中华民族的磨难与抗争 第1页
1.【真题·2020】甲 2.【模拟·一】乙
【答案】A")
           [utf8 "第一章 进入近代后中华民族的磨难与抗争 第1页"]
           [utf8 "【答案】A"]
           (utf8 "1.【真题·2020】甲 2.【模拟·一】乙")
           (Some s_ch1) (dict_zero CHAPTERS) s_ch1);
    vm_compute; reflexivity.
Defined.

(** ** The aggregator does not raise *)

Lemma NoDup_content_type_keys : NoDup content_type_keys.
Proof. apply nodupb_NoDup. vm_compute. reflexivity. Qed.

Lemma content_type_of_in (kp : KnowledgePoint) (k : str) :
  In k [content_type_of kp] -> In k content_type_keys.
Proof.
  intros [<-|[]]. unfold content_type_of.
  repeat match goal with
         | |- context [if ?b then _ else _] => destruct b
         end; simpl; tauto.
Qed.

Lemma count_content_type_adds (d : dict nat) (kp : KnowledgePoint) :
  map fst d = content_type_keys ->
  count_content_type d kp = add_keys d [content_type_of kp].
Proof.
  intros _. rewrite add_keys_single. unfold count_content_type, content_type_of.
  repeat match goal with
         | |- context [if ?b then _ else _] => destruct b
         end; reflexivity.
Qed.

(** ** The float nearest to a quotient *)

Section FloatRounding.

Local Open Scope Z_scope.

Lemma round_half_even_near (num den : Z) :
  0 < den -> 2 * Z.abs (round_half_even num den * den - num) <= den.
Proof.
  intro Hden. unfold round_half_even.
  assert (Hdiv := Z.div_mod num den ltac:(lia)).
  assert (Hmod := Z.mod_pos_bound num den Hden).
  set (q := num / den) in *. set (r := num mod den) in *.
  destruct (2 * r <? den) eqn:E1; [apply Z.ltb_lt in E1; lia|].
  apply Z.ltb_ge in E1.
  destruct (den <? 2 * r) eqn:E2; [apply Z.ltb_lt in E2; lia|].
  apply Z.ltb_ge in E2.
  destruct (Z.even q); lia.
Qed.

Lemma floor_log2_le (n d : Z) :
  0 < n -> 0 < d ->
  d * 2 ^ Z.max 0 (floor_log2 n d) <= n * 2 ^ Z.max 0 (- floor_log2 n d).
Proof.
  intros Hn Hd. unfold floor_log2.
  set (l := Z.log2 n - Z.log2 d).
  destruct (n * 2 ^ Z.max 0 (- l) <? d * 2 ^ Z.max 0 l) eqn:E;
    [|now apply Z.ltb_ge in E].
  clear E.
  destruct (Z.log2_spec n Hn) as [Hlow _].
  destruct (Z.log2_spec d Hd) as [_ Hhigh].
  assert (Ha := Z.log2_nonneg n). assert (Hb := Z.log2_nonneg d).
  set (a := Z.log2 n) in *. set (b := Z.log2 d) in *.
  rewrite <- Z.add_1_r in Hhigh.
  destruct (Z.le_gt_cases 1 l) as [Hl|Hl].
  - rewrite (Z.max_r 0 (l - 1)), (Z.max_l 0 (- (l - 1))) by lia.
    rewrite Z.pow_0_r, Z.mul_1_r.
    assert (Hp : 0 < 2 ^ (l - 1)) by (apply Z.pow_pos_nonneg; lia).
    assert (H : d * 2 ^ (l - 1) < 2 ^ (b + 1) * 2 ^ (l - 1))
      by (apply Z.mul_lt_mono_pos_r; assumption).
    rewrite <- Z.pow_add_r in H by lia.
    replace (b + 1 + (l - 1)) with a in H by (unfold l; lia). lia.
  - rewrite (Z.max_l 0 (l - 1)), (Z.max_r 0 (- (l - 1))) by lia.
    rewrite Z.pow_0_r, Z.mul_1_r.
    assert (Hp : 0 < 2 ^ (- (l - 1))) by (apply Z.pow_pos_nonneg; lia).
    assert (H : 2 ^ a * 2 ^ (- (l - 1)) <= n * 2 ^ (- (l - 1)))
      by (apply Z.mul_le_mono_nonneg_r; lia).
    rewrite <- Z.pow_add_r in H by lia.
    replace (a + - (l - 1)) with (b + 1) in H by (unfold l; lia). lia.
Qed.

Lemma last_bit_scale (n d : Z) :
  0 < n -> 0 < d ->
  let e := last_bit n d in
  let A := 2 ^ Z.max 0 (- e) in
  let B := 2 ^ Z.max 0 e in
  (B = 1 /\ A = 2 ^ 52 * 2 ^ 1022) \/ d * B * 2 ^ 52 <= n * A.
Proof.
  intros Hn Hd. cbv zeta. unfold last_bit.
  assert (Hfloor := floor_log2_le n d Hn Hd).
  set (lo := floor_log2 n d) in *.
  destruct (Z.le_gt_cases (lo - 52) (-1074)) as [Hlo|Hlo].
  - left. rewrite (Z.max_r (lo - 52) (-1074)) by lia. split; reflexivity.
  - right. rewrite (Z.max_l (lo - 52) (-1074)) by lia.
    destruct (Z.le_gt_cases 52 lo) as [H1|H1].
    + rewrite (Z.max_r 0 (lo - 52)), (Z.max_l 0 (- (lo - 52))) by lia.
      rewrite (Z.max_r 0 lo), (Z.max_l 0 (- lo)) in Hfloor by lia.
      rewrite Z.pow_0_r in *. rewrite <- Z.mul_assoc.
      rewrite <- Z.pow_add_r by lia.
      replace (lo - 52 + 52) with lo by lia. lia.
    + rewrite (Z.max_l 0 (lo - 52)), (Z.max_r 0 (- (lo - 52))) by lia.
      rewrite Z.pow_0_r, Z.mul_1_r.
      destruct (Z.le_gt_cases 0 lo) as [H2|H2].
      * rewrite (Z.max_r 0 lo), (Z.max_l 0 (- lo)) in Hfloor by lia.
        rewrite Z.pow_0_r, Z.mul_1_r in Hfloor.
        assert (Hq : 0 < 2 ^ (- (lo - 52))) by (apply Z.pow_pos_nonneg; lia).
        assert (Hs : 2 ^ 52 = 2 ^ lo * 2 ^ (- (lo - 52))).
        { rewrite <- Z.pow_add_r by lia. f_equal. lia. }
        rewrite Hs. rewrite Z.mul_assoc.
        apply Z.mul_le_mono_nonneg_r; lia.
      * rewrite (Z.max_l 0 lo), (Z.max_r 0 (- lo)) in Hfloor by lia.
        rewrite Z.pow_0_r, Z.mul_1_r in Hfloor.
        assert (Hs : 2 ^ (- (lo - 52)) = 2 ^ (- lo) * 2 ^ 52).
        { rewrite <- Z.pow_add_r by lia. f_equal. lia. }
        rewrite Hs. rewrite Z.mul_assoc.
        apply Z.mul_le_mono_nonneg_r; [apply Z.pow_nonneg; lia|exact Hfloor].
Qed.

Lemma nearest_float_error_Z (n d : Z) :
  0 < n -> 0 < d ->
  let e := last_bit n d in
  let A := 2 ^ Z.max 0 (- e) in
  let B := 2 ^ Z.max 0 e in
  Z.abs (round_half_even (n * A) (d * B) * (d * B) - n * A)
  * (2 * (2 ^ 52 * 2 ^ 1022))
  <= n * A * 2 ^ 1022 + A * d.
Proof.
  intros Hn Hd e A B.
  assert (HA : 0 < A) by (apply Z.pow_pos_nonneg; lia).
  assert (HB : 0 < B) by (apply Z.pow_pos_nonneg; lia).
  assert (Hnear := round_half_even_near (n * A) (d * B) ltac:(lia)).
  assert (Hscale := last_bit_scale n d Hn Hd). cbv zeta in Hscale.
  fold e in Hscale. fold A B in Hscale.
  set (err := Z.abs (round_half_even (n * A) (d * B) * (d * B) - n * A)) in *.
  assert (Herr : 0 <= err) by apply Z.abs_nonneg.
  assert (HP : 0 < 2 ^ 1022) by (apply Z.pow_pos_nonneg; lia).
  assert (HT : 0 < 2 ^ 52) by (apply Z.pow_pos_nonneg; lia).
  set (P := 2 ^ 1022) in *. set (T := 2 ^ 52) in *.
  clearbody err A B P T. clear e.
  assert (HTP : 0 < T * P) by (apply Z.mul_pos_pos; assumption).
  replace (err * (2 * (T * P))) with (2 * err * (T * P)) by ring.
  destruct Hscale as [[-> ->]|Hscale].
  - rewrite Z.mul_1_r in Hnear.
    assert (H1 : 2 * err * (T * P) <= d * (T * P))
      by (apply Z.mul_le_mono_nonneg_r; lia).
    assert (H2 : 0 <= n * (T * P) * P)
      by (repeat apply Z.mul_nonneg_nonneg; lia).
    lia.
  - assert (H1 : 2 * err * (T * P) <= d * B * (T * P))
      by (apply Z.mul_le_mono_nonneg_r; lia).
    assert (H2 : d * B * T * P <= n * A * P)
      by (apply Z.mul_le_mono_nonneg_r; lia).
    assert (H3 : 0 <= A * d) by (apply Z.mul_nonneg_nonneg; lia).
    replace (d * B * (T * P)) with (d * B * T * P) in H1 by ring.
    lia.
Qed.

End FloatRounding.

Lemma nearest_float_pos_error (n d : positive) :
  (Qabs (nearest_float_pos (Zpos n) (Zpos d) - (Zpos n # d))
   <= ((Zpos n # d) + (1 # 2 ^ 1022)) * (1 # 2 ^ 53))%Q.
Proof.
  unfold nearest_float_pos. rewrite Qred_correct.
  assert (Herr := nearest_float_error_Z (Zpos n) (Zpos d) eq_refl eq_refl).
  cbv zeta in Herr.
  set (e := last_bit (Zpos n) (Zpos d)) in *.
  assert (HA : (0 < 2 ^ Z.max 0 (- e))%Z) by (apply Z.pow_pos_nonneg; lia).
  set (A := (2 ^ Z.max 0 (- e))%Z) in *.
  set (B := (2 ^ Z.max 0 e)%Z) in *.
  set (m := round_half_even (Zpos n * A) (Zpos d * B)) in *.
  unfold Qminus, Qplus, Qopp, Qmult, Qle, Qabs. cbn [Qnum Qden].
  rewrite !Pos2Z.inj_mul, !Pos2Z.inj_pow, (Z2Pos.id A HA).
  replace (m * B * Zpos d + - Zpos n * A)%Z
    with (m * (Zpos d * B) - Zpos n * A)%Z by ring.
  set (err := Z.abs (m * (Zpos d * B) - Zpos n * A)) in *.
  change (2 ^ 53)%Z with (2 * 2 ^ 52)%Z.
  set (P := (2 ^ 1022)%Z) in *. set (T := (2 ^ 52)%Z) in *.
  replace (err * (Zpos d * P * (2 * T)))%Z
    with (err * (2 * (T * P)) * Zpos d)%Z by ring.
  replace ((Zpos n * P + 1 * Zpos d) * 1 * (A * Zpos d))%Z
    with ((Zpos n * A * P + A * Zpos d) * Zpos d)%Z by ring.
  apply Z.mul_le_mono_nonneg_r; [lia|exact Herr].
Qed.

Lemma nearest_float_error (q : Q) :
  (0 <= Qnum q)%Z ->
  (Qabs (nearest_float q - q) <= (q + (1 # 2 ^ 1022)) * (1 # 2 ^ 53))%Q.
Proof.
  destruct q as [[|n|n] d]; cbn [Qnum]; intro H; [|apply nearest_float_pos_error|lia].
  unfold nearest_float. cbn [Qnum].
  unfold Qminus, Qplus, Qopp, Qmult, Qle, Qabs. cbn [Qnum Qden].
  rewrite !Z.mul_0_l, !Z.add_0_l, Z.mul_1_l. cbn [Z.opp Z.abs]. lia.
Qed.

Lemma join_space_length (lines : list str) :
  length (join_space lines) = joined_chars lines.
Proof.
  unfold joined_chars. induction lines as [|l lines IH]; [reflexivity|].
  destruct lines as [|l' lines].
  - cbn [join_space map length]. rewrite list_sum_cons. cbn [list_sum fold_right].
    lia.
  - change (join_space (l :: l' :: lines))
      with (l ++ 32%N :: join_space (l' :: lines)).
    rewrite length_app. cbn [length]. rewrite IH.
    cbn [map length]. rewrite !list_sum_cons. lia.
Qed.

Lemma total_length_joined (kps : list KnowledgePoint) :
  total_length kps = list_sum (map (fun kp => joined_chars (kp_content kp)) kps).
Proof.
  unfold total_length. f_equal. apply map_ext. intro kp.
  apply join_space_length.
Qed.

Lemma mean_length_spec (kps : list KnowledgePoint) :
  mean_length kps = nearest_float (spec_avg_length kps).
Proof.
  destruct kps as [|kp kps]; [reflexivity|].
  unfold mean_length, spec_avg_length. now rewrite total_length_joined.
Qed.

Lemma spec_avg_length_nonneg (kps : list KnowledgePoint) :
  (0 <= Qnum (spec_avg_length kps))%Z.
Proof.
  destruct kps as [|kp kps]; [reflexivity|].
  unfold spec_avg_length. cbn [Qnum]. apply Nat2Z.is_nonneg.
Qed.

Lemma analyze_content_features_ok (kps : list KnowledgePoint) :
  exists features,
    analyze_content_features kps = Ok features
    /\ cs_avg_length features = mean_length kps.
Proof.
  unfold analyze_content_features.
  destruct (tally_loop _ _ _ _ NoDup_content_type_keys content_type_of_in
              count_content_type_adds kps) as [Hloop _].
  destruct kps as [|kp kps]; cbn [is_nil negb py_truediv length bind].
  - rewrite Hloop. cbn [bind]. eexists. split; reflexivity.
  - rewrite Hloop. cbn [bind]. eexists. split; reflexivity.
Qed.

Section StructureFacts.

Context {cc : CharClasses}.

Lemma insert_by_pos_known (x : str * nat) (sorted : list (str * nat)) :
  In (fst x) CHAPTERS -> positions_known sorted ->
  positions_known (insert_by_pos x sorted).
Proof.
  intros Hx. unfold positions_known.
  induction sorted as [|y rest IH]; intros H; simpl.
  - now constructor.
  - inversion H; subst. destruct (snd x <=? snd y).
    + now constructor.
    + constructor; [assumption | now apply IH].
Qed.

Lemma sort_by_pos_known (l : list (str * nat)) :
  positions_known l -> positions_known (sort_by_pos l).
Proof.
  unfold sort_by_pos. induction 1 as [|x l Hx Hl IH]; simpl.
  - constructor.
  - now apply insert_by_pos_known.
Qed.

Lemma chapter_positions_known (content : str) :
  positions_known (chapter_positions content).
Proof.
  apply sort_by_pos_known. unfold positions_known.
  apply Forall_forall. intros cp Hcp.
  apply in_flat_map in Hcp. destruct Hcp as [chapter [Hch Hcp]].
  unfold chapter_positions_of in Hcp. apply in_flat_map in Hcp.
  destruct Hcp as [m [_ Hm]].
  destruct (chapter_re (line_at content (fst m))); [|contradiction].
  destruct Hm as [<-|[]]. exact Hch.
Qed.

Lemma closest_known (section_pos : nat) (positions : list (str * nat)) :
  positions_known positions ->
  forall st, chapter_known (fst st) ->
             chapter_known (fst (fold_left (closer section_pos) positions st)).
Proof.
  induction 1 as [|cp positions Hcp Hpos IH]; intros st Hst; simpl.
  - exact Hst.
  - apply IH. unfold closer.
    destruct ((snd cp <? section_pos)
              && match snd st with
                 | Some closest_distance => section_pos - snd cp <? closest_distance
                 | None => true
                 end); [|exact Hst].
    intros c Hc. simpl in Hc. injection Hc as <-. exact Hcp.
Qed.

Lemma section_chapter_in (positions : list (str * nat)) :
  positions_known positions ->
  forall section k, In k (section_chapter positions section) -> In k CHAPTERS.
Proof.
  intros Hpos section k. unfold section_chapter.
  assert (H := closest_known (snd section) positions Hpos (None, None)
                             (fun c Hc => ltac:(discriminate))).
  destruct (fst (fold_left (closer (snd section)) positions (None, None)))
    as [[|c chapter]|]; try contradiction.
  intros [<-|[]]. now apply H.
Qed.

Lemma count_section_adds (positions : list (str * nat)) (d : dict nat)
      (section : str * nat) :
  count_section positions d section = add_keys d (section_chapter positions section).
Proof.
  unfold count_section, section_chapter.
  destruct (fst (fold_left (closer (snd section)) positions (None, None)))
    as [[|c chapter]|]; cbn [truthy dict_add_opt]; try reflexivity.
  now rewrite add_keys_single.
Qed.

(** [analyze_structure] never raises. *)
Lemma analyze_structure_ok (content : str) :
  exists structure, analyze_structure content = Ok structure.
Proof.
  unfold analyze_structure.
  destruct (tally_loop _ CHAPTERS (count_section (chapter_positions content))
              (section_chapter (chapter_positions content)) NoDup_CHAPTERS
              (section_chapter_in _ (chapter_positions_known content))
              (fun d x _ => count_section_adds _ d x)
              (section_matches content)) as [Hloop _].
  rewrite Hloop. cbn [bind]. now eexists.
Qed.

End StructureFacts.

(** The guarded percentages of the report: a positive count of a
    histogram makes its total positive. *)
Lemma percentages_from (total : nat) (d : dict nat) :
  (forall item, In item d -> 0 < snd item -> 0 < total) ->
  forall rows, exists rows', for_each (percentage_row total) d rows = Ok rows'.
Proof.
  induction d as [|item d IH]; intros Hpos rows; cbn [for_each].
  - now exists rows.
  - unfold percentage_row at 1.
    destruct (0 <? snd item) eqn:E.
    + apply Nat.ltb_lt in E.
      assert (Ht := Hpos item (or_introl eq_refl) E).
      destruct total as [|total]; [inversion Ht|].
      cbn [py_truediv bind]. apply IH. intros i Hi. apply Hpos. now right.
    + cbn [bind]. apply IH. intros i Hi. apply Hpos. now right.
Qed.

Lemma dict_total_bound (d : dict nat) (item : str * nat) :
  In item d -> snd item <= dict_total d.
Proof.
  unfold dict_total. induction d as [|x d IH]; [contradiction|].
  intros [->|H]; simpl; [lia|]. specialize (IH H). lia.
Qed.

Lemma percentages_ok (d : dict nat) (total : nat) :
  dict_total d = total -> exists rows, percentages d total = Ok rows.
Proof.
  intros <-. apply percentages_from. intros item Hin Hpos.
  assert (H := dict_total_bound d item Hin). lia.
Qed.

(** C9. On every text the aggregator returns: the section, knowledge,
    question and content statistics are all computed without an
    exception.  The average content length is the float nearest to the
    exact average of the specification: the characters of the content
    lines of the records, with one space between two consecutive lines
    of a record, over the number of records; it differs from that exact
    quotient by at most one part in [2^53] (and [2^-1075]).  Without
    record the division is not made and the average is zero.  The
    percentages of the importance, exam and content-type histograms are
    computed without an exception.  The percentages of the question
    summary are computed only when the text has a question: without any
    they raise [ZeroDivisionError], and a text without question
    exists. *)
Theorem aggregator_never_fails :
  (forall (cc : CharClasses) (content : str),
      exists structure st kps questions features,
        analyze_structure content = Ok structure
        /\ knowledge_of_text content = Ok (st, kps)
        /\ analyze_questions content (split_lines content) = Ok questions
        /\ analyze_content_features kps = Ok features
        /\ cs_avg_length features = nearest_float (spec_avg_length kps)
        /\ (Qabs (cs_avg_length features - spec_avg_length kps)
            <= (spec_avg_length kps + (1 # 2 ^ 1022)) * (1 # 2 ^ 53))%Q
        /\ (exists rows, percentages (ks_by_importance st) (ks_total st) = Ok rows)
        /\ (exists rows, percentages (ks_by_exam st) (ks_total st) = Ok rows)
        /\ (exists rows,
               percentages (cs_content_types features)
                           (dict_total (cs_content_types features))
               = Ok rows)
        /\ match qs_total questions with
           | O => question_percentages questions = Raise ZeroDivisionError
           | S _ => exists real mock,
                      question_percentages questions = Ok (real, mock)
           end)
  /\ (exists features,
         analyze_content_features [] = Ok features
         /\ cs_avg_length features = 0%Q)
  /\ (exists questions,
         @analyze_questions py_classes
           (utf8 "第一章 进入近代后中华民族的磨难与抗争 第1页
知识点1 鸦片战争★★★【单选】")
           (split_lines (utf8 "第一章 进入近代后中华民族的磨难与抗争 第1页
知识点1 鸦片战争★★★【单选】"))
         = Ok questions
         /\ question_percentages questions = Raise ZeroDivisionError).
Proof.
  split.
  - intros cc content.
    destruct (analyze_structure_ok content) as [structure Hs].
    destruct (knowledge_of_text_ok content) as [kps [Hwf [Hk _]]].
    destruct (analyze_questions_ok content (split_lines content))
      as [questions [Hq _]].
    destruct (analyze_content_features_ok kps) as [features [Hf Havg]].
    exists structure, (knowledge_stats_of kps), kps, questions, features.
    repeat (split; [assumption|]).
    rewrite Havg, mean_length_spec. split; [reflexivity|].
    split; [apply nearest_float_error, spec_avg_length_nonneg|].
    split; [apply percentages_ok, by_importance_total|].
    split; [apply percentages_ok, by_exam_total, Hwf|].
    split; [now apply percentages_ok|].
    unfold question_percentages, py_truediv.
    destruct (qs_total questions); [reflexivity|].
    cbn [bind]. now eexists; eexists.
  - split; [eexists; split; reflexivity|].
    eexists. split; [vm_compute; reflexivity | reflexivity].
Qed.

(** ** Scenarios *)

(** C6. The chapter line [第一章 ... 第1页] followed by the title line
    [知识点1 [识记] 历史背景★★★【单选】] gives exactly one record: id 1,
    title 历史背景, chapter 第一章, three stars, single-choice. *)
Theorem scenario_title_line :
  @extract_knowledge_points py_classes
    (split_lines (utf8 "第一章 ... 第1页
知识点1 [识记] 历史背景★★★【单选】"))
  = [ {| kp_id := utf8 "1";
         kp_title := utf8 "历史背景";
         kp_chapter := Some s_ch1;
         kp_chapter_name := utf8 "进入近代后中华民族的磨难与抗争";
         kp_importance := Some s_star3;
         kp_exam_requirements := [s_single];
         kp_content := [];
         kp_start_line := 1;
         kp_content_lines := None |} ].
Proof. vm_compute. reflexivity. Qed.

(** The scanner recognizes titles line by line: a second label on a
    title line is removed from the title and opens no record. *)
Example two_labels_one_record :
  map (fun kp => (kp_id kp, kp_title kp))
      (@extract_knowledge_points py_classes
         (split_lines (utf8 "知识点1 鸦片战争 知识点2 南京条约")))
  = [(utf8 "1", utf8 "鸦片战争  南京条约")].
Proof. vm_compute. reflexivity. Qed.

(** A star mark on a content line sets an importance left unset by the
    title line. *)
Example importance_from_content :
  map kp_importance
      (@extract_knowledge_points py_classes
         (split_lines (utf8 "知识点7 洋务运动
背景
人物
★★ 影响")))
  = [Some s_star2].
Proof. vm_compute. reflexivity. Qed.

(** ** Loading *)

(** An empty text file is reported as empty, and the run stops before
    any statistics. *)
Lemma empty_text_file_reported (cc : CharClasses) (env : environment)
      (file_path : str) (out : list str) :
  env_exists env = true ->
  env_readable env = true ->
  str_eqb (env_suffix env) s_pdf = false ->
  env_read env = ReadText [] ->
  load_file env (new_analyzer file_path) out
  = (Ok false, new_analyzer file_path, out ++ [msg_empty])
  /\ run_analysis env (new_analyzer file_path) out
     = (Ok false, new_analyzer file_path, out ++ [msg_loading; msg_empty]).
Proof.
  intros Hex Hrd Hsuf Hread.
  assert (Hload : forall o, load_file env (new_analyzer file_path) o
                            = (Ok false, new_analyzer file_path, o ++ [msg_empty])).
  { intros o. unfold load_file, mbind, get_self.
    rewrite Hex, Hrd, Hsuf, Hread. reflexivity. }
  split; [apply Hload|].
  unfold run_analysis, mbind at 1, print at 1. unfold mbind at 1.
  rewrite Hload. cbn [negb ret]. now rewrite <- app_assoc.
Qed.

(** On a non-empty text file the run stores the five statistics of the
    text, unless the page numbers of the basic information cannot be
    converted. *)
Lemma run_analysis_text_file (cc : CharClasses) (env : environment)
      (file_path : str) (out : list str) (c : char) (text : str)
      (basic : basic_info) :
  env_exists env = true ->
  env_readable env = true ->
  str_eqb (env_suffix env) s_pdf = false ->
  env_read env = ReadText (c :: text) ->
  analyze_basic_info (c :: text) = Ok basic ->
  exists structure st kps questions features,
    analyze_structure (c :: text) = Ok structure
    /\ knowledge_of_text (c :: text) = Ok (st, kps)
    /\ analyze_questions (c :: text) (split_lines (c :: text)) = Ok questions
    /\ analyze_content_features kps = Ok features
    /\ run_analysis env (new_analyzer file_path) out
       = (Ok true,
          mkAnalyzer file_path (c :: text) (split_lines (c :: text)) kps
                     (mkStats (Some basic) (Some structure) (Some st)
                              (Some questions) (Some features)),
          out ++ [msg_loading; msg_structure; msg_extracting; msg_distribution;
                  msg_questions; msg_features]).
Proof.
  intros Hex Hrd Hsuf Hread Hbasic.
  destruct (analyze_structure_ok (c :: text)) as [structure Hs].
  destruct (knowledge_of_text_ok (c :: text)) as [kps [_ [Hk _]]].
  destruct (analyze_questions_ok (c :: text) (split_lines (c :: text)))
    as [questions [Hq _]].
  destruct (analyze_content_features_ok kps) as [features [Hf _]].
  exists structure, (knowledge_stats_of kps), kps, questions, features.
  repeat (split; [assumption|]).
  unfold knowledge_of_text in Hk.
  unfold run_analysis, load_file, finish_load, mbind, print, get_self, update,
    lift, ret.
  rewrite Hex, Hrd, Hsuf, Hread.
  cbn [negb self_content set_content set_lines new_analyzer is_nil self_lines
       self_file_path self_knowledge_points self_stats set_stats
       set_knowledge_points].
  rewrite Hbasic, Hs.
  cbn [negb self_content set_content set_lines new_analyzer is_nil self_lines
       self_file_path self_knowledge_points self_stats set_stats
       set_knowledge_points].
  rewrite Hk.
  cbn [negb self_content set_content set_lines new_analyzer is_nil self_lines
       self_file_path self_knowledge_points self_stats set_stats
       set_knowledge_points fst snd].
  rewrite Hq.
  cbn [negb self_content set_content set_lines new_analyzer is_nil self_lines
       self_file_path self_knowledge_points self_stats set_stats
       set_knowledge_points fst snd].
  rewrite Hf.
  cbn [self_content set_content set_lines new_analyzer self_lines
       self_file_path self_knowledge_points self_stats set_stats
       set_knowledge_points st_basic_info st_structure st_knowledge
       st_questions st_content empty_stats].
  rewrite <- !app_assoc. reflexivity.
Qed.

(** C8, at a PDF without extractable text: the extraction returns the
    empty string, [load_file] and [run_analysis] return [False] with the
    statistics empty, and the only lines printed are the progress lines:
    the empty-content error of line 83 is not among them. *)
Theorem empty_pdf_not_reported :
  let env := mkEnvironment true true s_pdf (ReadText [])
                           (Installed (Pages [None; Some []]))
                           NotInstalled NotInstalled in
  let self := new_analyzer (utf8 "规划卡.pdf") in
  load_file env self [] = (Ok false, self, [msg_pdfplumber])
  /\ @run_analysis py_classes env self []
     = (Ok false, self, [msg_loading; msg_pdfplumber])
  /\ self_stats self = empty_stats
  /\ ~ In msg_empty [msg_loading; msg_pdfplumber].
Proof.
  repeat split. intros [H|[H|[]]]; discriminate.
Qed.

(** * Further properties *)

(** ** The scanner as a function of the text *)

Lemma importance_of_truthy (line imp : str) :
  importance_of line = Some imp -> truthy (Some imp) = true.
Proof.
  intros H. apply importance_of_in in H. simpl in H.
  destruct H as [<-|[<-|[<-|[]]]]; reflexivity.
Qed.

Section ScannerSpecFacts.

Context {cc : CharClasses}.

Lemma importance_steps_set (raw : list str) (imp : str) :
  truthy (Some imp) = true ->
  fold_left importance_step raw (Some imp) = Some imp.
Proof.
  intros H. induction raw as [|l raw IH]; [reflexivity|].
  cbn [fold_left]. unfold importance_step at 2. rewrite H. exact IH.
Qed.

Lemma importance_steps_unset (raw : list str) :
  fold_left importance_step raw None = first_importance raw.
Proof.
  induction raw as [|l raw IH]; [reflexivity|].
  cbn [fold_left first_importance]. unfold importance_step at 2.
  cbn [truthy negb].
  destruct (importance_of l) as [imp|] eqn:E; [|exact IH].
  apply importance_steps_set. exact (importance_of_truthy l imp E).
Qed.

Lemma importance_steps_title (title : str) (raw : list str) :
  fold_left importance_step raw (importance_of title) = spec_importance title raw.
Proof.
  unfold spec_importance. destruct (importance_of title) as [imp|] eqn:E.
  - apply importance_steps_set. exact (importance_of_truthy title imp E).
  - apply importance_steps_unset.
Qed.

Lemma spec_raw_between_boundary (l : str) (rest : list str) :
  spec_is_boundary l = true -> spec_raw_between (l :: rest) = [].
Proof. intros H. unfold spec_raw_between. simpl. now rewrite H. Qed.

Lemma spec_raw_between_line (l : str) (rest : list str) :
  spec_is_boundary l = false ->
  spec_raw_between (l :: rest)
  = (if spec_nonblank l then [l] else []) ++ spec_raw_between rest.
Proof.
  intros H. unfold spec_raw_between. simpl. rewrite H. simpl.
  now destruct (spec_nonblank l).
Qed.

Lemma complete_closed (k : KnowledgePoint) (l : str) (rest : list str) :
  spec_is_boundary l = true -> complete k (l :: rest) = del_content_lines k.
Proof.
  intros H. unfold complete, del_content_lines.
  rewrite (spec_raw_between_boundary l rest H).
  rewrite (spec_content_between_boundary l rest H), app_nil_r. reflexivity.
Qed.

Lemma complete_end (k : KnowledgePoint) : complete k [] = del_content_lines k.
Proof.
  unfold complete, del_content_lines, spec_raw_between, spec_content_between.
  simpl. now rewrite app_nil_r.
Qed.

Lemma complete_new (i : nat) (l : str) (chapter : option str) (rest : list str) :
  complete (new_knowledge i l chapter) rest = spec_record i chapter l rest.
Proof.
  unfold complete, new_knowledge, spec_record.
  cbn [kp_id kp_title kp_chapter kp_chapter_name kp_importance
       kp_exam_requirements kp_content kp_start_line kp_content_lines].
  now rewrite importance_steps_title.
Qed.

Lemma complete_append (k : KnowledgePoint) (l : str) (rest : list str) :
  spec_is_boundary l = false -> spec_nonblank l = true ->
  complete (append_content k l) rest = complete k (l :: rest).
Proof.
  intros Hb Hn. unfold complete, append_content.
  cbn [kp_id kp_title kp_chapter kp_chapter_name kp_importance
       kp_exam_requirements kp_content kp_start_line kp_content_lines].
  rewrite (spec_raw_between_line l rest Hb).
  rewrite (spec_content_between_line l rest Hb), Hn. cbn [app fold_left].
  rewrite <- app_assoc. reflexivity.
Qed.

Lemma complete_skip (k : KnowledgePoint) (l : str) (rest : list str) :
  spec_is_boundary l = false -> spec_nonblank l = false ->
  complete k (l :: rest) = complete k rest.
Proof.
  intros Hb Hn. unfold complete.
  rewrite (spec_raw_between_line l rest Hb).
  rewrite (spec_content_between_line l rest Hb), Hn. reflexivity.
Qed.

Lemma scan_records_from (lines : list str) :
  Forall (fun l : str => forallb not_newline l = true) lines ->
  forall (i : nat) (st : scan_state),
    started_before i st ->
    map del_content_lines
        (pending (fold_left scan_step (enumerate_from i lines) st))
    = map del_content_lines (knowledge_points st)
      ++ open_record (current_knowledge st) lines
      ++ spec_extract i (current_chapter st) lines.
Proof.
  induction 1 as [|l rest Hl Hrest IH]; intros i st Hst;
    cbn [fold_left enumerate_from spec_extract].
  - unfold pending, flush, open_record.
    destruct (current_knowledge st) as [k|]; rewrite ?map_app, ?app_nil_r;
      [|reflexivity].
    cbn [map]. now rewrite complete_end.
  - rewrite IH; clear IH.
    + unfold scan_step, started_before in *.
      destruct (is_knowledge_title l) eqn:Ht.
      * cbn [knowledge_points current_knowledge current_chapter open_record].
        assert (Hb : spec_is_boundary l = true)
          by (unfold spec_is_boundary; now rewrite Ht).
        rewrite complete_new.
        destruct (current_knowledge st) as [k|]; cbn [flush open_record].
        -- rewrite (complete_closed k l rest Hb), map_app.
           rewrite <- app_assoc. reflexivity.
        -- reflexivity.
      * destruct (current_knowledge st) as [k|]; [|reflexivity].
        apply Nat.ltb_lt in Hst. rewrite Hst.
        rewrite <- is_knowledge_title_search, Ht. cbn [orb].
        destruct (existsb (is_chapter_of l) CHAPTERS) eqn:Hc.
        -- assert (Hb : spec_is_boundary l = true)
             by (unfold spec_is_boundary; now rewrite Ht, Hc).
           cbn [knowledge_points current_knowledge current_chapter open_record].
           rewrite (complete_closed k l rest Hb), map_app.
           rewrite <- app_assoc. reflexivity.
        -- assert (Hb : spec_is_boundary l = false)
             by (unfold spec_is_boundary; now rewrite Ht, Hc).
           rewrite (blank_line_strip _ Hl).
           destruct (negb (is_nil (strip l))) eqn:Hn;
             cbn [knowledge_points current_knowledge current_chapter open_record].
           ++ now rewrite (complete_append k l rest Hb Hn).
           ++ now rewrite (complete_skip k l rest Hb Hn).
    + unfold scan_step, started_before in *.
      destruct (is_knowledge_title l).
      * simpl. lia.
      * destruct (current_knowledge st) as [k|]; [|exact I].
        destruct (kp_start_line k <? i); [|simpl; lia].
        destruct (is_some (re_search m_kp l) || existsb (is_chapter_of l) CHAPTERS);
          [exact I|].
        destruct (negb (is_nil (strip l)) && negb (blank_re l)); simpl; lia.
Qed.

Lemma del_content_lines_idem (k : KnowledgePoint) :
  del_content_lines (del_content_lines k) = del_content_lines k.
Proof. reflexivity. Qed.

End ScannerSpecFacts.

(** X1. For every text the scanner returns exactly the records of the
    loop-free description [spec_extract]: one record per title line, with
    id, title and exam requirements read from the title line, the chapter
    current at that line, the content collected up to the next boundary
    and, as importance, the first star mark of the title line or else of
    the collected lines. *)
Theorem extract_knowledge_points_spec (cc : CharClasses) (content : str) :
  extract_knowledge_points (split_lines content)
  = spec_extract 0 None (split_lines content).
Proof.
  unfold extract_knowledge_points, scan, enumerate.
  exact (scan_records_from _ (split_lines_no_newline content) 0 scan_init I).
Qed.

Section RecordFields.

Context {cc : CharClasses}.

Lemma spec_extract_lines (lines : list str) :
  forall (i : nat) (chapter : option str) (k : KnowledgePoint),
    In k (spec_extract i chapter lines) ->
    exists j line rest,
      kp_start_line k = i + j
      /\ nth_error lines j = Some line
      /\ is_knowledge_title line = true
      /\ k = spec_record (i + j) (walk_chapter (firstn (S j) lines) chapter)
                         line rest.
Proof.
  induction lines as [|l rest IH]; intros i chapter k; cbn [spec_extract];
    [contradiction|].
  assert (Hrec : In k (spec_extract (S i) (detect_chapter l chapter) rest) ->
                 exists j line rest0,
                   kp_start_line k = i + j
                   /\ nth_error (l :: rest) j = Some line
                   /\ is_knowledge_title line = true
                   /\ k = spec_record (i + j)
                            (walk_chapter (firstn (S j) (l :: rest)) chapter)
                            line rest0).
  { intros Hin. destruct (IH _ _ _ Hin) as [j [line [rest0 [Hs [Hn [Ht Hk]]]]]].
    exists (S j), line, rest0.
    replace (i + S j) with (S i + j) by lia. repeat split; assumption. }
  destruct (is_knowledge_title l) eqn:Ht; [|exact Hrec].
  intros [<-|Hin]; [|now apply Hrec].
  exists 0, l, rest. rewrite Nat.add_0_r. repeat split. exact Ht.
Qed.

Lemma take_while_firstn (A : Type) (f : A -> bool) (l : list A) :
  firstn (length (take_while f l)) l = take_while f l.
Proof.
  induction l as [|x l IH]; simpl; [reflexivity|].
  destruct (f x); simpl; [now rewrite IH | reflexivity].
Qed.

Lemma take_while_all (A : Type) (f : A -> bool) (l : list A) :
  forallb f (take_while f l) = true.
Proof.
  induction l as [|x l IH]; simpl; [reflexivity|].
  destruct (f x) eqn:E; simpl; [now rewrite E | reflexivity].
Qed.

(** The id of a title line is its first run of digits after the label. *)
Lemma knowledge_id_of_title (line : str) :
  is_knowledge_title line = true ->
  knowledge_id_of line <> [] /\ forallb isdigit (knowledge_id_of line) = true.
Proof.
  rewrite is_knowledge_title_search. unfold knowledge_id_of.
  destruct (re_search m_kp line) as [[t n]|] eqn:E; [|discriminate].
  intros _. apply re_search_head in E. unfold m_kp in E.
  destruct (prefix s_kp t); [|discriminate].
  destruct (length (take_while isdigit (skipn 3 t))) as [|k] eqn:El;
    [discriminate|].
  injection E as <-.
  replace (S (S (S (S k))) - 3) with (S k) by lia.
  rewrite <- El, take_while_firstn. split.
  - intros Hnil. rewrite Hnil in El. discriminate.
  - apply take_while_all.
Qed.

Lemma existsb_find (A : Type) (f : A -> bool) (l : list A) :
  existsb f l = is_some (find f l).
Proof.
  induction l as [|x l IH]; simpl; [reflexivity|].
  destruct (f x); [reflexivity | exact IH].
Qed.

Lemma walk_chapter_nearest (lines : list str) (chapter : option str) :
  walk_chapter lines chapter
  = match find is_chapter_line (rev lines) with
    | Some line => find (is_chapter_of line) CHAPTERS
    | None => chapter
    end.
Proof.
  unfold walk_chapter.
  induction lines as [|l lines IH] using rev_ind; [reflexivity|].
  rewrite fold_left_app, rev_app_distr. cbn [fold_left rev app find].
  unfold is_chapter_line at 1. rewrite existsb_find. unfold detect_chapter at 1.
  destruct (find (is_chapter_of l) CHAPTERS) eqn:E; cbn [is_some].
  - now rewrite E.
  - exact IH.
Qed.

Lemma drop_while_last (A : Type) (f : A -> bool) (l : list A) (x : A) :
  f x = false -> drop_while f (l ++ [x]) = drop_while f l ++ [x].
Proof.
  intros Hx. induction l as [|y l IH]; simpl; [now rewrite Hx|].
  destruct (f y); [exact IH | reflexivity].
Qed.

Lemma drop_while_idem (A : Type) (f : A -> bool) (l : list A) :
  drop_while f (drop_while f l) = drop_while f l.
Proof.
  induction l as [|x l IH]; simpl; [reflexivity|].
  destruct (f x) eqn:E; [exact IH | simpl; now rewrite E].
Qed.

(** Trimming twice is trimming once. *)
Lemma strip_idem (s : str) : strip (strip s) = strip s.
Proof.
  unfold strip, lstrip, rstrip.
  destruct (drop_while isspace s) as [|h t] eqn:E; [reflexivity|].
  assert (Hh : isspace h = false).
  { clear - E. induction s as [|c s IH]; simpl in E; [discriminate|].
    destruct (isspace c) eqn:Ec; [now apply IH|].
    injection E as <- _. exact Ec. }
  cbn [rev]. rewrite (drop_while_last _ isspace (rev t) h Hh).
  rewrite rev_app_distr. cbn [rev app drop_while]. rewrite Hh.
  change (h :: rev (drop_while isspace (rev t)))
    with ([h] ++ rev (drop_while isspace (rev t))).
  rewrite rev_app_distr, rev_involutive. cbn [rev app].
  rewrite (drop_while_last _ isspace _ h Hh), drop_while_idem.
  rewrite rev_app_distr. reflexivity.
Qed.

Lemma drop_while_incl (A : Type) (f : A -> bool) (l : list A) (x : A) :
  In x (drop_while f l) -> In x l.
Proof.
  induction l as [|y l IH]; simpl; [tauto|].
  destruct (f y); [intros H; right; now apply IH | tauto].
Qed.

Lemma strip_incl (s : str) (c : char) : In c (strip s) -> In c s.
Proof.
  unfold strip, rstrip, lstrip. intros H. apply in_rev in H.
  apply drop_while_incl in H. apply in_rev in H.
  now apply drop_while_incl in H.
Qed.

Lemma existsb_false_incl (f : char -> bool) (s t : str) :
  (forall c, In c t -> In c s) -> existsb f s = false -> existsb f t = false.
Proof.
  intros Hincl Hs. destruct (existsb f t) eqn:E; [|reflexivity].
  apply existsb_exists in E. destruct E as [c [Hc Hf]].
  assert (H : existsb f s = true)
    by (apply existsb_exists; exists c; split; [now apply Hincl | exact Hf]).
  congruence.
Qed.

(** [re.sub(r'★+', '', s)] leaves no star. *)
Lemma re_sub_stars_none (s : str) :
  forall skip, existsb is_star (re_sub_from m_stars skip s) = false.
Proof.
  induction s as [|c s IH]; intros skip; [reflexivity|].
  cbn [re_sub_from]. destruct skip as [|k]; [|apply IH].
  unfold m_stars. cbn [take_while].
  destruct (is_star c) eqn:E; cbn [length]; [apply IH|].
  cbn [existsb]. rewrite E. apply IH.
Qed.

Lemma knowledge_title_of_clean (line : str) :
  existsb is_star (knowledge_title_of line) = false
  /\ strip (knowledge_title_of line) = knowledge_title_of line.
Proof.
  unfold knowledge_title_of. split; [|apply strip_idem].
  eapply existsb_false_incl; [apply strip_incl | apply re_sub_stars_none].
Qed.

End RecordFields.

(** X2. Every record the scanner emits for a text sits on a title line
    of the text, and its id, title, exam requirements and chapter name are
    those read from that line; its id is a non-empty run of digits, so the
    default id "0" of line 228 is never used. *)
Theorem records_from_title_lines (cc : CharClasses) (content : str) :
  Forall (fun k => on_title_line (split_lines content) k /\ is_decimal_id k)
         (extract_knowledge_points (split_lines content)).
Proof.
  rewrite (scan_records_from _ (split_lines_no_newline content) 0 scan_init I
           : extract_knowledge_points (split_lines content) = _).
  apply Forall_forall. intros k Hk. cbn [knowledge_points map app] in Hk.
  destruct (spec_extract_lines _ _ _ _ Hk) as [j [line [rest [Hs [Hn [Ht ->]]]]]].
  split.
  - exists line. cbn [kp_start_line spec_record]. split; [exact Hn|].
    unfold titled_by. cbn. repeat split. exact Ht.
  - unfold is_decimal_id. cbn [kp_id spec_record].
    now apply knowledge_id_of_title.
Qed.

(** X3. The chapter of every emitted record is the one named by the
    nearest chapter line at or above its title line (the first of
    [CHAPTERS] that line names), and is absent when no chapter line
    precedes. *)
Theorem records_chapter_from_above (cc : CharClasses) (content : str) :
  Forall (chapter_from_above (split_lines content))
         (extract_knowledge_points (split_lines content)).
Proof.
  rewrite (scan_records_from _ (split_lines_no_newline content) 0 scan_init I
           : extract_knowledge_points (split_lines content) = _).
  apply Forall_forall. intros k Hk. cbn [knowledge_points map app] in Hk.
  destruct (spec_extract_lines _ _ _ _ Hk) as [j [line [rest [Hs [Hn [Ht ->]]]]]].
  unfold chapter_from_above, chapter_at. cbn [kp_chapter kp_start_line spec_record].
  now rewrite walk_chapter_nearest.
Qed.

(** X4. The title of every emitted record contains no star and has no
    white space at either end. *)
Theorem records_title_clean (cc : CharClasses) (content : str) :
  Forall clean_title (extract_knowledge_points (split_lines content)).
Proof.
  rewrite (scan_records_from _ (split_lines_no_newline content) 0 scan_init I
           : extract_knowledge_points (split_lines content) = _).
  apply Forall_forall. intros k Hk. cbn [knowledge_points map app] in Hk.
  destruct (spec_extract_lines _ _ _ _ Hk) as [j [line [rest [_ [_ [_ ->]]]]]].
  unfold clean_title. cbn [kp_title spec_record].
  apply knowledge_title_of_clean.
Qed.

(** ** The second scan and the global histograms *)

Lemma m_importance_none (c : char) (rest : str) :
  m_importance (c :: rest) = None <-> is_star c = false.
Proof.
  unfold m_importance, is_star, s_star3, s_star2, s_star1. cbn [prefix].
  rewrite (N.eqb_sym c_star c).
  destruct (c =? c_star)%N; cbn [andb]; [|tauto].
  split; [|discriminate].
  destruct rest as [|c1 [|c2 rest]]; cbn [prefix andb];
    repeat match goal with
           | |- context [(c_star =? ?x)%N] => destruct (c_star =? x)%N; cbn [andb]
           end; discriminate.
Qed.

Lemma importance_of_none (s : str) :
  importance_of s = None <-> existsb is_star s = false.
Proof.
  unfold importance_of. induction s as [|c s IH]; cbn [re_search existsb].
  - cbn. tauto.
  - destruct (m_importance (c :: s)) as [n|] eqn:E.
    + split; [discriminate|]. intros H. apply orb_false_iff in H.
      destruct H as [H _]. apply (proj2 (m_importance_none c s)) in H.
      congruence.
    + apply (proj1 (m_importance_none c s)) in E. rewrite E. cbn [orb].
      exact IH.
Qed.

Lemma first_importance_none (content : list str) :
  first_importance content = None <->
  Forall (fun l => importance_of l = None) content.
Proof.
  induction content as [|l content IH]; cbn [first_importance].
  - split; [constructor | reflexivity].
  - destruct (importance_of l) eqn:E.
    + split; [discriminate|]. intros H. inversion H; congruence.
    + rewrite IH. split; [now constructor | intros H; now inversion H].
Qed.

Section SecondScan.

Context {cc : CharClasses}.

Lemma importance_of_strip (l : str) :
  importance_of l = None -> importance_of (strip l) = None.
Proof.
  rewrite !importance_of_none. apply existsb_false_incl. apply strip_incl.
Qed.

Lemma second_scan_spec_record (i : nat) (chapter : option str) (line : str)
      (rest : list str) :
  second_scan (spec_record i chapter line rest) = spec_record i chapter line rest.
Proof.
  unfold second_scan. cbn [kp_importance kp_content spec_record].
  unfold spec_importance.
  destruct (importance_of line) as [imp|] eqn:E.
  { now rewrite (importance_of_truthy line imp E). }
  destruct (first_importance (spec_raw_between rest)) as [imp|] eqn:Ef.
  { assert (Hin := first_importance_in _ _ Ef). simpl in Hin.
    destruct Hin as [<-|[<-|[<-|[]]]]; reflexivity. }
  cbn [truthy negb].
  assert (Hnone : first_importance (firstn 5 (spec_content_between rest)) = None).
  { apply first_importance_none. apply first_importance_none in Ef.
    apply Forall_forall. intros l Hl.
    assert (Hl' : In l (spec_content_between rest))
      by (eapply In_nth_error in Hl; destruct Hl as [n Hn];
          apply nth_error_In with n; rewrite nth_error_firstn in Hn;
          destruct (n <? 5); [exact Hn | discriminate]).
    unfold spec_content_between in Hl'. fold (spec_raw_between rest) in Hl'.
    apply in_map_iff in Hl'. destruct Hl' as [r [<- Hr]].
    apply importance_of_strip. rewrite Forall_forall in Ef. now apply Ef. }
  now rewrite Hnone.
Qed.

Lemma second_scan_extract (content : str) :
  map second_scan (extract_knowledge_points (split_lines content))
  = extract_knowledge_points (split_lines content).
Proof.
  rewrite (scan_records_from _ (split_lines_no_newline content) 0 scan_init I
           : extract_knowledge_points (split_lines content) = _).
  cbn [knowledge_points map app scan_init current_knowledge open_record
       current_chapter].
  rewrite <- (map_id (spec_extract 0 None (split_lines content))) at 2.
  apply map_ext_in. intros k Hk.
  destruct (spec_extract_lines _ _ _ _ Hk) as [j [line [rest [_ [_ [_ ->]]]]]].
  apply second_scan_spec_record.
Qed.

End SecondScan.

(** X5. On the records the scanner emits for a text the second scan of
    [analyze_knowledge_distribution] changes nothing: a star mark in a
    content line has already been taken by the scanner, so the analysis
    returns the scanner's records as they are. *)
Theorem second_scan_no_effect (cc : CharClasses) (content : str) :
  exists st,
    knowledge_of_text content
    = Ok (st, extract_knowledge_points (split_lines content)).
Proof.
  unfold knowledge_of_text. rewrite analyze_knowledge_distribution_ok.
  rewrite second_scan_extract. now eexists.
Qed.

Lemma buckets_importance_single (kp : KnowledgePoint) :
  wf_kp kp -> buckets_importance kp = [importance_bucket_of kp].
Proof.
  intros [_ [Hi _]]. unfold buckets_importance, importance_bucket_of, opt_key.
  destruct (kp_importance kp) as [imp|]; [|reflexivity].
  assert (E : mem_str imp importance_keys = true).
  { apply mem_str_In. assert (H := Hi imp eq_refl). simpl in H. simpl. tauto. }
  now rewrite E.
Qed.

(** X6. For every text the global importance histogram counts, under
    each star mark, the records of that importance and, under "unmarked",
    the records whose importance was never set; every record is in
    exactly one of the four buckets. *)
Theorem by_importance_one_bucket (cc : CharClasses) (content : str) :
  exists st kps,
    knowledge_of_text content = Ok (st, kps)
    /\ Forall (fun kp => In (importance_bucket_of kp) importance_keys) kps
    /\ ks_by_importance st = count_table importance_keys in_importance_bucket kps
    /\ dict_val (ks_by_importance st) s_unmarked
       = length (filter no_importance kps).
Proof.
  destruct (knowledge_of_text_ok content) as [kps [Hwf [Hok _]]].
  exists (knowledge_stats_of kps), kps.
  assert (Htab : tally importance_keys buckets_importance kps
                 = count_table importance_keys in_importance_bucket kps).
  { rewrite (tally_ext _ importance_keys buckets_importance
                       (fun kp => [importance_bucket_of kp])).
    - unfold count_table, in_importance_bucket. now rewrite tally_single.
    - intros kp Hkp. apply buckets_importance_single.
      rewrite Forall_forall in Hwf. now apply Hwf. }
  split; [exact Hok|]. split; [|split].
  - eapply Forall_impl; [|exact Hwf]. intros kp Hkp.
    apply (buckets_importance_in kp).
    rewrite (buckets_importance_single kp Hkp). now left.
  - exact Htab.
  - cbn [knowledge_stats_of ks_by_importance]. rewrite Htab.
    unfold count_table, dict_val, importance_keys. cbn [map dict_get].
    replace (str_eqb s_unmarked s_star3) with false by reflexivity.
    replace (str_eqb s_unmarked s_star2) with false by reflexivity.
    replace (str_eqb s_unmarked s_star1) with false by reflexivity.
    rewrite str_eqb_refl. f_equal. apply filter_ext_in. intros kp Hkp.
    rewrite Forall_forall in Hwf. destruct (Hwf kp Hkp) as [_ [Hi _]].
    unfold in_importance_bucket, importance_bucket_of, no_importance.
    destruct (kp_importance kp) as [imp|]; [|apply str_eqb_refl].
    cbn [is_some negb]. apply str_eqb_neq. intros ->.
    assert (H := Hi s_unmarked eq_refl). apply mem_str_In in H. discriminate.
Qed.

(** X7. The two per-chapter counts of [analyze_knowledge_distribution]
    agree on every text: the total of each chapter in [chapter_details]
    is that chapter's count in [by_chapter]. *)
Theorem chapter_totals_agree (cc : CharClasses) (content : str) :
  exists st kps,
    knowledge_of_text content = Ok (st, kps)
    /\ chapter_total_view st = ks_by_chapter st.
Proof.
  destruct (knowledge_of_text_ok content) as [kps [_ [Hok _]]].
  exists (knowledge_stats_of kps), kps. split; [exact Hok|].
  unfold chapter_total_view. rewrite chapter_details_of, map_map.
  cbn [knowledge_stats_of ks_by_chapter]. rewrite by_chapter_table.
  reflexivity.
Qed.

(** ** Content features *)

Lemma analyze_content_features_value (kps : list KnowledgePoint) :
  analyze_content_features kps
  = Ok (mkContentStats
          (mean_length kps)
          (tally content_type_keys (fun kp => [content_type_of kp]) kps)
          (length (filter (has_importance s_star3) kps))
          (map (fun kp => (kp_chapter kp, kp_title kp))
               (firstn 100 (filter (has_importance s_star3) kps)))).
Proof.
  unfold analyze_content_features.
  destruct (tally_loop _ _ _ _ NoDup_content_type_keys content_type_of_in
              count_content_type_adds kps) as [Hloop _].
  destruct kps as [|kp kps]; cbn [is_nil negb py_truediv length bind];
    rewrite Hloop; reflexivity.
Qed.

(** X8. For every text the content features are computed; every record
    is classified under exactly one content type, so the five type counts
    sum to the number of records; the number of core records equals the
    three-star bucket of the global importance histogram, and the core
    list holds the first hundred of them at most. *)
Theorem content_features_consistent (cc : CharClasses) (content : str) :
  exists st kps features,
    knowledge_of_text content = Ok (st, kps)
    /\ analyze_content_features kps = Ok features
    /\ cs_content_types features
       = count_table content_type_keys in_content_type kps
    /\ dict_total (cs_content_types features) = length kps
    /\ cs_core_knowledge_count features = dict_val (ks_by_importance st) s_star3
    /\ length (cs_core_knowledge_list features)
       = Nat.min 100 (cs_core_knowledge_count features).
Proof.
  destruct (knowledge_of_text_ok content) as [kps [Hwf [Hok _]]].
  exists (knowledge_stats_of kps), kps. eexists.
  split; [exact Hok|]. split; [apply analyze_content_features_value|].
  cbn [cs_content_types cs_core_knowledge_count cs_core_knowledge_list].
  split; [|split; [|split]].
  - unfold count_table, in_content_type. now rewrite tally_single.
  - rewrite (tally_total _ _ _ _ NoDup_content_type_keys content_type_of_in).
    apply sum_ones. reflexivity.
  - cbn [knowledge_stats_of ks_by_importance].
    rewrite (tally_ext _ importance_keys buckets_importance
                       (fun kp => [importance_bucket_of kp])).
    + rewrite tally_single. unfold dict_val, importance_keys.
      cbn [map dict_get]. rewrite str_eqb_refl. f_equal.
      apply filter_ext. intros kp.
      unfold has_importance, importance_bucket_of.
      now destruct (kp_importance kp).
    + intros kp Hkp. apply buckets_importance_single.
      rewrite Forall_forall in Hwf. now apply Hwf.
  - rewrite length_map, length_firstn. reflexivity.
Qed.

(** ** Questions by chapter *)

Section QuestionTotals.

Context {cc : CharClasses}.

Lemma question_step_total (current : option str) (d : dict nat) (line : str) :
  map fst d = CHAPTERS ->
  chapter_known current ->
  exists d',
    question_step (current, d) line = Ok (detect_chapter line current, d')
    /\ map fst d' = CHAPTERS
    /\ dict_total d'
       = dict_total d
         + (if is_some (detect_chapter line current)
            then re_count (m_alt s_real s_mock) line else 0).
Proof.
  intros Hd Hcur. unfold question_step. cbn [fst snd].
  assert (Hch := detect_chapter_known line current Hcur).
  rewrite (chapter_known_truthy _ Hch).
  destruct (detect_chapter line current) as [ch|]; cbn [is_some dict_add_opt].
  - destruct (dict_add_ok d ch (re_count (m_alt s_real s_mock) line))
      as [d' [Hadd [Hk [Ht _]]]].
    { unfold dict_in. rewrite Hd. apply mem_str_In. now apply Hch. }
    rewrite Hadd. exists d'. cbn [bind]. repeat split; congruence.
  - exists d. repeat split; [assumption | lia].
Qed.

Lemma walk_total (lines : list str) :
  forall (current : option str) (d : dict nat),
    map fst d = CHAPTERS ->
    chapter_known current ->
    exists current' d',
      for_each question_step lines (current, d) = Ok (current', d')
      /\ map fst d' = CHAPTERS
      /\ dict_total d' = dict_total d + attributed_questions current lines.
Proof.
  induction lines as [|l lines IH]; intros current d Hd Hcur;
    cbn [for_each attributed_questions].
  - exists current, d. repeat split; [assumption | lia].
  - destruct (question_step_total current d l Hd Hcur) as [d1 [H1 [K1 T1]]].
    rewrite H1. cbn [bind].
    destruct (IH (detect_chapter l current) d1 K1
                 (detect_chapter_known l current Hcur))
      as [current' [d' [H' [K' T']]]].
    exists current', d'. repeat split; [assumption | assumption | lia].
Qed.

Lemma attributed_from_chapter (lines : list str) :
  forall chapter : str,
    attributed_questions (Some chapter) lines
    = list_sum (map (re_count (m_alt s_real s_mock)) lines).
Proof.
  induction lines as [|l lines IH]; intros chapter;
    cbn [attributed_questions map]; [reflexivity|].
  rewrite list_sum_cons. unfold detect_chapter at 1 2.
  destruct (find (is_chapter_of l) CHAPTERS) as [ch|]; cbn [is_some];
    now rewrite IH.
Qed.

Lemma attributed_from_start (lines : list str) :
  attributed_questions None lines + unattributed_questions lines
  = list_sum (map (re_count (m_alt s_real s_mock)) lines).
Proof.
  unfold unattributed_questions.
  induction lines as [|l lines IH]; cbn [attributed_questions map take_while];
    [reflexivity|].
  rewrite list_sum_cons. unfold is_chapter_line at 1. rewrite existsb_find.
  unfold detect_chapter at 1 2.
  destruct (find (is_chapter_of l) CHAPTERS) as [ch|]; cbn [is_some negb].
  - rewrite attributed_from_chapter.
    change (list_sum (map (re_count (m_alt s_real s_mock)) [])) with 0.
    apply Nat.add_0_r.
  - rewrite map_cons, list_sum_cons, <- IH.
    rewrite Nat.add_0_l, Nat.add_assoc.
    rewrite (Nat.add_comm (attributed_questions None lines)). 
    now rewrite Nat.add_assoc.
Qed.

End QuestionTotals.

Lemma sum_real_or_mock (lines : list str) :
  list_sum (map (re_count (m_alt s_real s_mock)) lines)
  = list_sum (map (re_count (m_lit s_real)) lines)
    + list_sum (map (re_count (m_lit s_mock)) lines).
Proof.
  induction lines as [|l ls IH]; [reflexivity|].
  rewrite !map_cons, !list_sum_cons, IH, re_count_real_or_mock. lia.
Qed.

(** X9. For every text [analyze_questions] returns, its per-chapter
    dictionary has exactly the keys [CHAPTERS], and the per-chapter counts
    sum to the global total less the questions on the lines before the
    first chapter line, which are counted globally and in no chapter. *)
Theorem questions_by_chapter_total (cc : CharClasses) (content : str) :
  exists qs,
    analyze_questions content (split_lines content) = Ok qs
    /\ map fst (qs_by_chapter qs) = CHAPTERS
    /\ qs_total qs = qs_real qs + qs_mock qs
    /\ dict_total (qs_by_chapter qs) + unattributed_questions (split_lines content)
       = qs_total qs.
Proof.
  unfold analyze_questions, walk_questions.
  destruct (walk_total (split_lines content) None (dict_zero CHAPTERS)
                       (dict_zero_keys CHAPTERS)
                       (fun c H => ltac:(discriminate)))
    as [current [d [Hw [Hk Ht]]]].
  rewrite Hw. cbn [bind snd]. eexists. split; [reflexivity|].
  cbn [qs_by_chapter qs_total qs_real qs_mock].
  split; [exact Hk|]. split; [reflexivity|].
  rewrite Ht, dict_total_zero, Nat.add_0_l, attributed_from_start.
  rewrite re_count_real_lines, re_count_mock_lines.
  apply sum_real_or_mock.
Qed.

(** ** Sections by chapter *)

Lemma closer_nearest (section_pos : nat) (positions : list (str * nat)) :
  nearest_before section_pos positions
                 (fold_left (closer section_pos) positions (None, None)).
Proof.
  induction positions as [|[c p] positions IH] using rev_ind.
  - constructor.
  - rewrite fold_left_app. cbn [fold_left].
    destruct (fold_left (closer section_pos) positions (None, None))
      as [[ch|] [d|]]; cbn [nearest_before] in IH; try contradiction.
    + destruct IH as [pos [Hin [Hlt [Hd Hall]]]].
      unfold closer. cbn [fst snd].
      destruct (p <? section_pos) eqn:E1; cbn [andb].
      * apply Nat.ltb_lt in E1.
        destruct (section_pos - p <? d) eqn:E2.
        -- apply Nat.ltb_lt in E2. exists p. repeat split.
           ++ apply in_or_app. right. now left.
           ++ exact E1.
           ++ apply Forall_app. split.
              ** eapply Forall_impl; [|exact Hall]. intros cp [H|H]; lia.
              ** constructor; [right; simpl; lia | constructor].
        -- apply Nat.ltb_ge in E2. exists pos. repeat split; try assumption.
           ++ apply in_or_app. now left.
           ++ apply Forall_app. split; [exact Hall|].
              constructor; [right; simpl; lia | constructor].
      * apply Nat.ltb_ge in E1. exists pos. repeat split; try assumption.
        -- apply in_or_app. now left.
        -- apply Forall_app. split; [exact Hall|].
           constructor; [left; simpl; lia | constructor].
    + unfold closer. cbn [fst snd].
      destruct (p <? section_pos) eqn:E1; cbn [andb nearest_before].
      * apply Nat.ltb_lt in E1. exists p. repeat split.
        -- apply in_or_app. right. now left.
        -- exact E1.
        -- apply Forall_app. split.
           ++ eapply Forall_impl; [|exact IH]. intros cp H. now left.
           ++ constructor; [right; simpl; lia | constructor].
      * apply Nat.ltb_ge in E1. apply Forall_app. split; [exact IH|].
        constructor; [exact E1 | constructor].
Qed.

(** X10. The loop that attributes a section mark to a chapter picks the
    chapter mark nearest before the section mark: no other mark lies
    strictly between them; it picks none exactly when no chapter mark
    lies before the section mark. *)
Theorem section_nearest_chapter (section_pos : nat) (positions : list (str * nat)) :
  nearest_before section_pos positions
                 (fold_left (closer section_pos) positions (None, None)).
Proof. apply closer_nearest. Qed.

Lemma re_count_finditer (m : str -> option nat) (s : str) :
  forall pos skip,
    re_count_from m skip s = length (re_finditer_from m pos skip s).
Proof.
  induction s as [|c s IH]; intros pos skip; [reflexivity|].
  cbn [re_count_from re_finditer_from]. destruct skip as [|k]; [|apply IH].
  destruct (m (c :: s)) as [[|n]|]; cbn [length]; now rewrite <- IH.
Qed.

Section StructureTotals.

Context {cc : CharClasses}.

Lemma section_chapter_length (positions : list (str * nat)) (section : str * nat) :
  positions_known positions ->
  length (section_chapter positions section)
  = if has_chapter_before positions section then 1 else 0.
Proof.
  intros Hknown. unfold section_chapter, has_chapter_before.
  assert (Hn := closer_nearest (snd section) positions).
  assert (Hc := closest_known (snd section) positions Hknown (None, None)
                              (fun c H => ltac:(discriminate))).
  destruct (fold_left (closer (snd section)) positions (None, None))
    as [[ch|] [d|]]; cbn [nearest_before fst] in *; try contradiction.
  - destruct Hn as [pos [Hin [Hlt _]]].
    assert (E : existsb (fun cp => snd cp <? snd section) positions = true).
    { apply existsb_exists. exists (ch, pos). split; [exact Hin|].
      now apply Nat.ltb_lt. }
    rewrite E. destruct ch as [|c0 ch]; [|reflexivity].
    assert (H := Hc [] eq_refl). apply mem_str_In in H. discriminate.
  - assert (E : existsb (fun cp => snd cp <? snd section) positions = false).
    { destruct (existsb _ positions) eqn:E; [|reflexivity].
      apply existsb_exists in E. destruct E as [cp [Hin Hlt]].
      rewrite Forall_forall in Hn. apply Hn in Hin.
      apply Nat.ltb_lt in Hlt. lia. }
    now rewrite E.
Qed.

Lemma analyze_structure_value (content : str) :
  analyze_structure content
  = Ok (mkStructureStats
          (re_count m_section content)
          (tally CHAPTERS (section_chapter (chapter_positions content))
                 (section_matches content))).
Proof.
  unfold analyze_structure.
  destruct (tally_loop _ CHAPTERS (count_section (chapter_positions content))
              (section_chapter (chapter_positions content)) NoDup_CHAPTERS
              (section_chapter_in _ (chapter_positions_known content))
              (fun d x _ => count_section_adds _ d x)
              (section_matches content)) as [Hloop _].
  now rewrite Hloop.
Qed.

End StructureTotals.

(** X11. For every text [analyze_structure] returns; the total is the
    number of section marks found; the per-chapter dictionary has exactly
    the keys [CHAPTERS]; and the per-chapter counts sum to the number of
    section marks that have a chapter mark before them, hence to no more
    than the total. *)
Theorem structure_sections_total (cc : CharClasses) (content : str) :
  exists structure,
    analyze_structure content = Ok structure
    /\ ss_total_sections structure = length (section_matches content)
    /\ map fst (ss_chapter_sections structure) = CHAPTERS
    /\ dict_total (ss_chapter_sections structure)
       = length (filter (has_chapter_before (chapter_positions content))
                        (section_matches content))
    /\ dict_total (ss_chapter_sections structure) <= ss_total_sections structure.
Proof.
  eexists. split; [apply analyze_structure_value|].
  cbn [ss_total_sections ss_chapter_sections].
  assert (Hlen : re_count m_section content = length (section_matches content)).
  { unfold section_matches, re_count, re_finditer. rewrite length_map.
    apply re_count_finditer. }
  assert (Hsum : dict_total (tally CHAPTERS
                               (section_chapter (chapter_positions content))
                               (section_matches content))
                 = length (filter (has_chapter_before (chapter_positions content))
                                  (section_matches content))).
  { rewrite (tally_total _ _ _ _ NoDup_CHAPTERS
               (section_chapter_in _ (chapter_positions_known content))).
    rewrite <- sum_indicator. f_equal. apply map_ext. intros section.
    apply section_chapter_length. apply chapter_positions_known. }
  split; [exact Hlen|]. split; [|split; [exact Hsum|]].
  - unfold tally. rewrite map_map. apply map_id.
  - rewrite Hsum, Hlen. apply filter_length_le.
Qed.

(** ** Basic information *)

Lemma insert_uniq_in (n x : nat) (l : list nat) :
  In x (insert_uniq n l) -> x = n \/ In x l.
Proof.
  induction l as [|y l IH]; simpl.
  - intros [<-|[]]. now left.
  - destruct (n <? y); [simpl; intuition|].
    destruct (n =? y); [simpl; intuition|].
    simpl. intros [<-|H]; [right; now left|].
    destruct (IH H); [now left | right; now right].
Qed.

Lemma insert_uniq_sorted (n : nat) (l : list nat) :
  StronglySorted lt l -> StronglySorted lt (insert_uniq n l).
Proof.
  induction 1 as [|y l Hs IH Hy]; simpl.
  - repeat constructor.
  - destruct (n <? y) eqn:E1.
    + apply Nat.ltb_lt in E1. constructor; [now constructor|].
      constructor; [exact E1|]. eapply Forall_impl; [|exact Hy].
      intros z Hz. lia.
    + destruct (n =? y) eqn:E2; [now constructor|].
      apply Nat.ltb_ge in E1. apply Nat.eqb_neq in E2.
      constructor; [exact IH|]. apply Forall_forall. intros z Hz.
      apply insert_uniq_in in Hz. destruct Hz as [->|Hz]; [lia|].
      rewrite Forall_forall in Hy. now apply Hy.
Qed.

Lemma sorted_set_sorted (ns : list nat) : StronglySorted lt (sorted_set ns).
Proof.
  unfold sorted_set. induction ns as [|n ns IH]; simpl; [constructor|].
  now apply insert_uniq_sorted.
Qed.

Section BasicInfo.

Context {cc : CharClasses}.

(** [re.sub(r'\s+', '', s)] removes exactly the white space. *)
Lemma re_sub_spaces (s : str) :
  forall skip,
    forallb isspace (firstn skip s) = true ->
    re_sub_from m_spaces skip s = filter non_space s.
Proof.
  unfold non_space.
  induction s as [|c s IH]; intros skip Hskip; [reflexivity|].
  cbn [re_sub_from filter]. destruct skip as [|k].
  - unfold m_spaces. cbn [take_while].
    destruct (isspace c) eqn:E; cbn [length negb].
    + apply IH. rewrite take_while_firstn. apply take_while_all.
    + f_equal. now apply IH.
  - cbn [firstn forallb] in Hskip. apply andb_true_iff in Hskip.
    destruct Hskip as [Hc Hk]. rewrite Hc. cbn [negb]. now apply IH.
Qed.

Lemma page_numbers_outcome (ps : list str) :
  forall pages,
    match for_each page_number ps pages with
    | Ok _ => True
    | Raise e => exists p, In p ps /\ str_isdigit p = true /\ py_int p = Raise e
    end.
Proof.
  induction ps as [|p ps IH]; intros pages; cbn [for_each]; [exact I|].
  unfold page_number at 1. destruct (str_isdigit p) eqn:Ed.
  - destruct (py_int p) as [n|e] eqn:Ei; cbn [bind].
    + specialize (IH (pages ++ [n])).
      destruct (for_each page_number ps (pages ++ [n])); [exact I|].
      destruct IH as [q [Hq H]]. exists q. split; [now right | exact H].
    + exists p. split; [now left | now split].
  - cbn [bind]. specialize (IH pages).
    destruct (for_each page_number ps pages); [exact I|].
    destruct IH as [q [Hq H]]. exists q. split; [now right | exact H].
Qed.

End BasicInfo.

(** X12. When [analyze_basic_info] returns, the character count is the
    length of the text, the count without white space is the number of
    characters that are not white space (so no more than the length), the
    page list is strictly increasing and the page count is its length;
    it raises only when the conversion of a page number found in the text
    raises. *)
Theorem basic_info_counts (cc : CharClasses) (content : str) :
  basic_info_outcome content (analyze_basic_info content).
Proof.
  unfold analyze_basic_info.
  assert (H := page_numbers_outcome (page_matches content) []).
  destruct (for_each page_number (page_matches content) []) as [numbers|e];
    cbn [bind basic_info_outcome]; [|exact H].
  cbn [bi_total_chars bi_total_chars_no_space bi_pages bi_page_count].
  unfold re_sub. rewrite (re_sub_spaces content 0 eq_refl).
  repeat split.
  - apply filter_length_le.
  - apply sorted_set_sorted.
Qed.

(** ** Loading *)

Lemma join_lines_cons (l l' : str) (ls : list str) :
  join_lines (l :: l' :: ls) = l ++ newline :: join_lines (l' :: ls).
Proof. reflexivity. Qed.

Lemma join_split_lines (s : str) : join_lines (split_lines s) = s.
Proof.
  induction s as [|c s IH]; [reflexivity|]. cbn [split_lines].
  destruct (split_lines_cons s) as [l [ls Hs]]. rewrite Hs in *.
  destruct (c =? newline)%N eqn:E.
  - apply N.eqb_eq in E. subst c. rewrite join_lines_cons, IH. reflexivity.
  - destruct ls as [|l' ls].
    + cbn [join_lines] in *. now rewrite IH.
    + rewrite join_lines_cons in *. rewrite <- IH. reflexivity.
Qed.

Lemma finish_load_outcome (self : analyzer) (out : list str) :
  exists ok self' extra,
    finish_load self out = (Ok ok, self', out ++ extra)
    /\ self_content self' = self_content self
    /\ same_analysis self self'
    /\ loaded self self' ok.
Proof.
  unfold finish_load, mbind, get_self, print, update, ret.
  destruct (self_content self) as [|c text] eqn:E; cbn [is_nil].
  - exists false, self, [msg_empty]. repeat split. exact E.
  - exists true, (set_lines (split_lines (c :: text)) self), [].
    rewrite app_nil_r. split; [reflexivity|].
    split; [cbn [set_lines self_content]; now rewrite E|].
    split; [repeat split|].
    unfold loaded. cbn [set_lines self_content self_lines]. rewrite E.
    split; [discriminate|]. split; [reflexivity | apply join_split_lines].
Qed.

Lemma extract_with_pypdf_outcome (env : environment) (self : analyzer)
      (out : list str) :
  exists text extra, extract_with_pypdf env self out = (Ok text, self, out ++ extra).
Proof.
  unfold extract_with_pypdf, mbind, print, ret.
  destruct (env_pypdf env) as [|[texts|e]];
    [destruct (env_PyPDF2 env) as [|[texts|e]]|..];
    rewrite <- ?app_assoc; now eexists; eexists.
Qed.

Lemma _extract_pdf_text_outcome (env : environment) (self : analyzer)
      (out : list str) :
  exists text extra, _extract_pdf_text env self out = (Ok text, self, out ++ extra).
Proof.
  unfold _extract_pdf_text, mbind, print, ret.
  destruct (env_pdfplumber env) as [|[texts|e]].
  - destruct (extract_with_pypdf_outcome env self (out ++ [msg_no_pdfplumber]))
      as [text [extra H]].
    rewrite H, <- app_assoc. now eexists; eexists.
  - now eexists; eexists.
  - match goal with
    | |- context [extract_with_pypdf env self ?o] =>
        destruct (extract_with_pypdf_outcome env self o) as [text [extra H]]
    end.
    rewrite H, <- !app_assoc. now eexists; eexists.
Qed.

(** X13. [load_file] never raises and only adds to what was printed; it
    leaves the file path, the records and the statistics alone; when it
    returns [True] the content is not empty and the lines are the content
    split at newlines, so that joining them gives the content back; when
    it returns [False] the lines are left as they were. *)
Theorem load_file_outcome (env : environment) (self : analyzer) (out : list str) :
  exists ok self' extra,
    load_file env self out = (Ok ok, self', out ++ extra)
    /\ same_analysis self self'
    /\ loaded self self' ok.
Proof.
  unfold load_file, mbind at 1, get_self.
  destruct (env_exists env); cbn [negb].
  2:{ exists false, self, [msg_missing ++ self_file_path self].
      repeat split. }
  destruct (env_readable env); cbn [negb].
  2:{ exists false, self, [msg_unreadable ++ self_file_path self].
      repeat split. }
  destruct (str_eqb (env_suffix env) s_pdf).
  - unfold mbind at 1.
    destruct (_extract_pdf_text_outcome env self out) as [text [extra H]].
    rewrite H. unfold mbind, update at 1.
    destruct text as [|c text]; cbn [is_nil ret].
    + exists false, (set_content [] self), extra. repeat split.
    + destruct (finish_load_outcome (set_content (c :: text) self) (out ++ extra))
        as [ok [self' [extra' [Hf [_ [[Hp [Hk Hs]] Hl]]]]]].
      rewrite Hf, <- app_assoc. exists ok, self', (extra ++ extra').
      split; [reflexivity|]. split; [repeat split; assumption|].
      destruct ok; exact Hl.
  - destruct (env_read env) as [text|e|e].
    + unfold mbind, update at 1.
      destruct (finish_load_outcome (set_content text self) out)
        as [ok [self' [extra' [Hf [_ [[Hp [Hk Hs]] Hl]]]]]].
      rewrite Hf. exists ok, self', extra'.
      split; [reflexivity|]. split; [repeat split; assumption|].
      destruct ok; exact Hl.
    + exists false, self, [msg_encoding ++ e]. repeat split.
    + exists false, self, [msg_read_failed ++ e]. repeat split.
Qed.

Lemma page_blocks_nil (texts : list (option str)) :
  forall i,
    is_nil (join_lines (flat_map page_block (enumerate_from i texts)))
    = negb (existsb has_text texts).
Proof.
  induction texts as [|t texts IH]; intros i; [reflexivity|].
  cbn [enumerate_from flat_map existsb]. unfold page_block at 1. cbn [snd fst].
  unfold has_text at 1.
  destruct t as [[|c text]|]; cbn [truthy orb app]; try apply IH.
  destruct (flat_map page_block (enumerate_from (S i) texts)); reflexivity.
Qed.

(** X14. A readable PDF on which pdfplumber runs is loaded exactly when
    some page gives text: the content is the text of the pages under
    their headers, [load_file] returns whether any page gave text, and
    only the progress line is printed; the other libraries are not
    tried. *)
Theorem load_pdf_with_pdfplumber (texts : list (option str)) (read : read_outcome)
        (pypdf PyPDF2 : pdf_library) (self : analyzer) (out : list str) :
  exists self',
    load_file (mkEnvironment true true s_pdf read (Installed (Pages texts))
                             pypdf PyPDF2) self out
    = (Ok (existsb has_text texts), self', out ++ [msg_pdfplumber])
    /\ self_content self' = pages_text texts.
Proof.
  unfold load_file, mbind, get_self, _extract_pdf_text, print, ret, update.
  cbn [env_exists env_readable env_suffix env_pdfplumber negb].
  rewrite str_eqb_refl.
  assert (Hnil := page_blocks_nil texts 0).
  fold (enumerate texts) in Hnil. fold (pages_text texts) in Hnil.
  destruct (existsb has_text texts); cbn [negb] in Hnil.
  - destruct (pages_text texts) as [|c text] eqn:E; [discriminate|].
    cbn [is_nil]. unfold finish_load, mbind, get_self, update, ret.
    cbn [set_content self_content is_nil]. eexists. split; reflexivity.
  - destruct (pages_text texts) as [|c text] eqn:E; [|discriminate].
    cbn [is_nil]. eexists. split; reflexivity.
Qed.

(** ** The full run *)

(** X15. [run_analysis] returns [True] exactly with the five statistics
    stored, on a non-empty content split into lines and with the records
    the scanner extracts from them; it returns [False] exactly as
    [load_file] did, with statistics and records untouched; and it raises
    only if [analyze_basic_info] raises, before any statistic is
    stored. *)
Theorem run_analysis_outcome (cc : CharClasses) (env : environment)
        (self : analyzer) (out : list str) :
  run_outcome env self out (run_analysis env self out).
Proof.
  unfold run_analysis, mbind at 1, print at 1. unfold mbind at 1.
  destruct (load_file_outcome env self (out ++ [msg_loading]))
    as [ok [self1 [extra [Hload [[Hp [Hk Hs]] Hl]]]]].
  rewrite Hload. destruct ok; cbn [negb].
  2:{ cbn [ret run_outcome]. rewrite Hload. repeat split; assumption. }
  destruct Hl as [Hne [Hlines Hjoin]].
  unfold mbind, print, get_self, update, lift, ret.
  cbn [self_content self_lines self_knowledge_points self_stats set_stats
       set_knowledge_points].
  destruct (analyze_basic_info (self_content self1)) as [basic|e] eqn:Hb.
  2:{ cbn [run_outcome]. split; assumption. }
  destruct (analyze_structure_ok (self_content self1)) as [structure Hst].
  rewrite Hst.
  cbn [self_content self_lines self_knowledge_points self_stats set_stats
       set_knowledge_points].
  rewrite analyze_knowledge_distribution_ok.
  cbn [self_content self_lines self_knowledge_points self_stats set_stats
       set_knowledge_points fst snd].
  destruct (analyze_questions_ok (self_content self1) (self_lines self1))
    as [questions [Hq _]].
  rewrite Hq.
  cbn [self_content self_lines self_knowledge_points self_stats set_stats
       set_knowledge_points fst snd].
  destruct (analyze_content_features_ok
              (map second_scan (extract_knowledge_points (self_lines self1))))
    as [features [Hf _]].
  rewrite Hf.
  cbn [run_outcome self_content self_lines self_knowledge_points self_stats
       set_stats set_knowledge_points st_basic_info st_structure st_knowledge
       st_questions st_content].
  split; [repeat split; discriminate|].
  split; [exact Hne|]. split; [exact Hlines|].
  rewrite Hlines. apply second_scan_extract.
Qed.

(** ** Star marks *)

Lemma m_importance_run (c : char) (rest : str) :
  is_star c = true ->
  exists n, m_importance (c :: rest) = Some n
            /\ firstn n (c :: rest) = firstn 3 (take_while is_star (c :: rest)).
Proof.
  intros Hc. unfold m_importance, s_star3, s_star2, s_star1. cbn [prefix take_while].
  rewrite Hc. unfold is_star in *. rewrite (N.eqb_sym c_star c), Hc. cbn [andb].
  destruct rest as [|c1 rest]; cbn [prefix take_while].
  { exists 1. split; reflexivity. }
  rewrite (N.eqb_sym c_star c1).
  destruct (c1 =? c_star)%N; cbn [andb].
  2:{ exists 1. split; reflexivity. }
  destruct rest as [|c2 rest]; cbn [prefix take_while].
  { exists 2. split; reflexivity. }
  rewrite (N.eqb_sym c_star c2).
  destruct (c2 =? c_star)%N; cbn [andb].
  - exists 3. split; reflexivity.
  - exists 2. split; reflexivity.
Qed.

(** X16. The star mark found on a line by [(★★★|★★|★)] is the first run
    of stars of the line, cut to three stars: the longest alternative
    wins at the leftmost star, and a line without star gives no mark. *)
Theorem importance_of_first_run (line : str) :
  importance_of line = first_star_run line.
Proof.
  unfold importance_of, first_star_run.
  induction line as [|c line IH]; [reflexivity|].
  cbn [re_search drop_while]. destruct (is_star c) eqn:E; cbn [negb].
  - destruct (m_importance_run c line E) as [n [Hm Hf]].
    now rewrite Hm, Hf.
  - rewrite (proj2 (m_importance_none c line) E). exact IH.
Qed.

(** ** The per-chapter part of the report *)






(** ** The list of records *)

Lemma level_entries_cons (star : str) (kp : KnowledgePoint)
      (kps : list KnowledgePoint) :
  level_entries star (kp :: kps)
  = (if has_importance star kp then [(kp_chapter kp, kp_title kp)] else [])
      ++ level_entries star kps.
Proof.
  unfold level_entries. cbn [filter].
  destruct (has_importance star kp); reflexivity.
Qed.

Lemma group_step_levels (a b c : list list_entry) (kp : KnowledgePoint) :
  group_step [(s_star3, a); (s_star2, b); (s_star1, c)] kp
  = [(s_star3, a ++ level_entries s_star3 [kp]);
     (s_star2, b ++ level_entries s_star2 [kp]);
     (s_star1, c ++ level_entries s_star1 [kp])].
Proof.
  rewrite !level_entries_cons. unfold level_entries, has_importance, group_step.
  cbn [filter map]. destruct (kp_importance kp) as [imp|].
  - cbn [opt_str_eqb dict_get].
    destruct (str_eqb imp s_star3) eqn:E3.
    { apply str_eqb_eq in E3. subst imp. cbn [dict_set].
      rewrite str_eqb_refl.
      rewrite (str_eqb_neq s_star3 s_star2) by discriminate.
      rewrite (str_eqb_neq s_star3 s_star1) by discriminate.
      now rewrite !app_nil_r. }
    destruct (str_eqb imp s_star2) eqn:E2.
    { apply str_eqb_eq in E2. subst imp. cbn [dict_set].
      rewrite E3, str_eqb_refl.
      rewrite (str_eqb_neq s_star2 s_star1) by discriminate.
      now rewrite !app_nil_r. }
    destruct (str_eqb imp s_star1) eqn:E1.
    { cbn [dict_set]. rewrite E3, E2, E1. now rewrite !app_nil_r. }
    now rewrite !app_nil_r.
  - cbn [opt_str_eqb]. now rewrite !app_nil_r.
Qed.

Lemma group_fold_levels (kps : list KnowledgePoint) :
  forall a b c : list list_entry,
    fold_left group_step kps [(s_star3, a); (s_star2, b); (s_star1, c)]
    = [(s_star3, a ++ level_entries s_star3 kps);
       (s_star2, b ++ level_entries s_star2 kps);
       (s_star1, c ++ level_entries s_star1 kps)].
Proof.
  induction kps as [|kp kps IH]; intros a b c.
  - cbn [fold_left]. unfold level_entries. cbn [filter map].
    now rewrite !app_nil_r.
  - cbn [fold_left]. rewrite group_step_levels, IH.
    rewrite !(level_entries_cons _ kp kps), !(level_entries_cons _ kp []).
    unfold level_entries at 1 3 5. cbn [filter map].
    now rewrite !app_nil_r, <- !app_assoc.
Qed.

Lemma enumerate_shown (A : Type) (l : list A) :
  forall i, filter (fun p : nat * A => fst p <=? 50) (enumerate_from i l)
            = enumerate_from i (firstn (51 - i) l).
Proof.
  induction l as [|x l IH]; intro i.
  - now rewrite firstn_nil.
  - cbn [enumerate_from filter fst]. destruct (i <=? 50) eqn:E.
    + apply Nat.leb_le in E.
      replace (51 - i) with (S (51 - S i)) by lia.
      cbn [firstn enumerate_from]. now rewrite IH.
    + apply Nat.leb_gt in E. rewrite IH.
      replace (51 - S i) with 0 by lia. replace (51 - i) with 0 by lia.
      reflexivity.
Qed.

Lemma known_null_first (chapters : list (option str)) :
  Forall known_chapter chapters -> null_chapters_first chapters.
Proof.
  destruct chapters as [|[c|] rest]; intro H; cbn [null_chapters_first].
  - exact I.
  - exact H.
  - inversion H as [|? ? [ch [Hc _]] _]. discriminate.
Qed.

Lemma headings_inv_rest (current chapter : option str)
      (rest : list (option str)) :
  headings_inv current (chapter :: rest) -> headings_inv current rest.
Proof.
  destruct current as [c|]; cbn [headings_inv].
  - intro H. now inversion H.
  - destruct chapter as [ch|]; cbn [null_chapters_first]; [|tauto].
    intro H. apply known_null_first. now inversion H.
Qed.

Lemma headings_inv_new (current chapter : option str)
      (rest : list (option str)) :
  headings_inv current (chapter :: rest) ->
  opt_str_eqb chapter current = false ->
  chapter_heading (heading_line chapter) /\ headings_inv chapter rest.
Proof.
  intros H E.
  assert (Hall : Forall known_chapter (chapter :: rest)).
  { destruct current as [c|]; [exact H|].
    destruct chapter as [ch|]; [exact H|discriminate]. }
  inversion Hall as [|? ? [ch [-> Hin]] Hrest]. split.
  - now exists ch.
  - exact Hrest.
Qed.

Lemma item_is_item (ie : nat * list_entry) : is_item_line (item_line ie) = true.
Proof. reflexivity. Qed.

Lemma item_not_heading (ie : nat * list_entry) :
  is_heading_line (item_line ie) = false.
Proof. reflexivity. Qed.

Lemma heading_not_item (chapter : option str) :
  is_item_line (heading_line chapter) = false.
Proof. reflexivity. Qed.

Lemma item_heading_ok (ie : nat * list_entry) : heading_ok (item_line ie).
Proof. intro H. rewrite item_not_heading in H. discriminate. Qed.

Lemma blank_heading_ok : heading_ok [].
Proof. intro H. discriminate. Qed.

Lemma print_entries_ok (entries : list list_entry) :
  forall (i : nat) (current : option str) (self : analyzer) (out : list str),
  exists printed current',
    method_fold print_entry (enumerate_from i entries) current self out
    = (Ok current', self, out ++ printed)
    /\ filter is_item_line printed
       = map item_line (filter (fun p : nat * list_entry => fst p <=? 50)
                               (enumerate_from i entries))
    /\ (headings_inv current (map fst entries) -> Forall heading_ok printed).
Proof.
  induction entries as [|[chapter title] entries IH]; intros i current self out.
  - exists [], current. cbn [enumerate_from method_fold filter map].
    unfold ret. rewrite app_nil_r. repeat split. constructor.
  - cbn [enumerate_from method_fold filter map fst snd].
    unfold mbind at 1. unfold print_entry at 1. cbn [fst snd].
    destruct (i <=? 50) eqn:Ei.
    + destruct (opt_str_eqb chapter current) eqn:Ec; cbn [negb].
      * cbv beta iota delta [mbind ret print].
        match goal with
        | |- context [method_fold print_entry _ ?c' ?s ?o] =>
            destruct (IH (S i) c' s o)
              as [printed [current' [Hrun [Hitems Hhead]]]]
        end.
        exists (item_line (i, (chapter, title)) :: printed), current'.
        rewrite Hrun. split; [now rewrite <- app_assoc|]. split.
        -- cbn [filter map]. rewrite item_is_item. now rewrite Hitems.
        -- intro Hinv. constructor; [apply item_heading_ok|].
           apply Hhead. exact (headings_inv_rest _ _ _ Hinv).
      * destruct current as [c|]; cbn [is_some];
          cbv beta iota delta [mbind ret print];
          match goal with
          | |- context [method_fold print_entry _ ?c' ?s ?o] =>
              destruct (IH (S i) c' s o)
                as [printed [current' [Hrun [Hitems Hhead]]]]
          end.
        -- exists ([] :: heading_line chapter
                      :: item_line (i, (chapter, title)) :: printed), current'.
           rewrite Hrun. split; [now rewrite <- !app_assoc|]. split.
           ++ cbn [filter map]. rewrite heading_not_item, item_is_item.
              change (is_item_line []) with false. cbv iota.
              now rewrite Hitems.
           ++ intro Hinv.
              destruct (headings_inv_new _ _ _ Hinv Ec) as [Hch Hrest].
              constructor; [apply blank_heading_ok|].
              constructor; [intros _; exact Hch|].
              constructor; [apply item_heading_ok|]. now apply Hhead.
        -- exists (heading_line chapter
                      :: item_line (i, (chapter, title)) :: printed), current'.
           rewrite Hrun. split; [now rewrite <- !app_assoc|]. split.
           ++ cbn [filter map]. rewrite heading_not_item, item_is_item.
              now rewrite Hitems.
           ++ intro Hinv.
              destruct (headings_inv_new _ _ _ Hinv Ec) as [Hch Hrest].
              constructor; [intros _; exact Hch|].
              constructor; [apply item_heading_ok|]. now apply Hhead.
    + unfold ret at 1.
      destruct (IH (S i) current self out)
        as [printed [current' [Hrun [Hitems Hhead]]]].
      exists printed, current'. rewrite Hrun.
      split; [reflexivity|]. split; [exact Hitems|].
      intro Hinv. apply Hhead. exact (headings_inv_rest _ _ _ Hinv).
Qed.

Lemma not_found_not_item (star : str) :
  is_item_line (txt_not_found ++ star ++ txt_not_found_end) = false.
Proof. reflexivity. Qed.

Lemma not_found_heading_ok (star : str) :
  heading_ok (txt_not_found ++ star ++ txt_not_found_end).
Proof. intro H. change (false = true) in H. discriminate. Qed.

Lemma more_heading_ok (rest : str) : heading_ok (newline :: rest).
Proof. intro H. change (false = true) in H. discriminate. Qed.

Lemma count_heading_ok (star kind : str) (n : nat) :
  heading_ok (count_line star kind n).
Proof. intro H. change (false = true) in H. discriminate. Qed.

Lemma level_index (kps : list KnowledgePoint) (star : str) :
  In star [s_star3; s_star2; s_star1] ->
  dict_index (fold_left group_step kps empty_groups) star
  = Ok (level_entries star kps).
Proof.
  unfold empty_groups. rewrite group_fold_levels. cbn [app].
  unfold dict_index. cbn [dict_get].
  intros [<-|[<-|[<-|[]]]].
  - now rewrite str_eqb_refl.
  - rewrite (str_eqb_neq s_star2 s_star3) by discriminate.
    now rewrite str_eqb_refl.
  - rewrite (str_eqb_neq s_star1 s_star3) by discriminate.
    rewrite (str_eqb_neq s_star1 s_star2) by discriminate.
    now rewrite str_eqb_refl.
Qed.

Lemma print_level_ok (kps : list KnowledgePoint) (star kind : str)
      (self : analyzer) (out : list str) :
  In star [s_star3; s_star2; s_star1] ->
  exists body,
    print_level (fold_left group_step kps empty_groups) star kind self out
    = (Ok tt, self,
       out ++ count_line star kind (length (level_entries star kps))
           :: body ++ [[]])
    /\ filter is_item_line body = listed star kps
    /\ (null_chapters_first (map fst (level_entries star kps)) ->
        Forall heading_ok body).
Proof.
  intro Hin. unfold print_level, listed. unfold mbind at 1, lift.
  rewrite (level_index kps star Hin).
  remember (level_entries star kps) as entries eqn:Hentries.
  destruct entries as [|entry entries'].
  - cbn [is_nil negb]. cbv beta iota delta [mbind print ret].
    exists [txt_not_found ++ star ++ txt_not_found_end]. split.
    + now rewrite <- !app_assoc.
    + split; [reflexivity|]. intros _. constructor; [|constructor].
      apply not_found_heading_ok.
  - cbn [is_nil negb]. unfold mbind at 1. unfold print at 1.
    unfold mbind at 1. unfold mbind at 1.
    match goal with
    | |- context [method_fold print_entry _ None ?s ?o] =>
        destruct (print_entries_ok (entry :: entries') 1 None s o)
          as [printed [current' [Hrun [Hitems Hhead]]]]
    end.
    rewrite enumerate_shown in Hitems. change (51 - 1) with 50 in Hitems.
    destruct (50 <? length (entry :: entries')) eqn:E50.
    + eexists (printed ++ [newline :: _]).
      rewrite Hrun. cbv beta iota delta [mbind print ret]. split.
      * rewrite <- !app_assoc. reflexivity.
      * split.
        -- rewrite filter_app, Hitems. cbn [filter].
           change (is_item_line (newline :: ?r)) with false.
           now rewrite app_nil_r.
        -- intro Hnull. apply Forall_app. split; [now apply Hhead|].
           constructor; [apply more_heading_ok|constructor].
    + exists printed.
      rewrite Hrun. cbv beta iota delta [mbind print ret]. split.
      * rewrite <- !app_assoc. reflexivity.
      * split; [exact Hitems|exact Hhead].
Qed.

Lemma print_knowledge_list_ok (self : analyzer) (out : list str) :
  exists body3 body2 body1,
    _print_knowledge_list self out
    = (Ok tt, self,
       out ++ [txt_list_title]
           ++ (count_line s_star3 txt_core
                 (length (level_entries s_star3 (self_knowledge_points self)))
                 :: body3 ++ [[]])
           ++ (count_line s_star2 txt_important
                 (length (level_entries s_star2 (self_knowledge_points self)))
                 :: body2 ++ [[]])
           ++ (count_line s_star1 txt_general
                 (length (level_entries s_star1 (self_knowledge_points self)))
                 :: body1 ++ [[]]))
    /\ (filter is_item_line body3 = listed s_star3 (self_knowledge_points self)
        /\ filter is_item_line body2 = listed s_star2 (self_knowledge_points self)
        /\ filter is_item_line body1 = listed s_star1 (self_knowledge_points self))
    /\ (null_chapters_first (map kp_chapter (self_knowledge_points self)) ->
        Forall heading_ok body3 /\ Forall heading_ok body2
        /\ Forall heading_ok body1).
Proof.
  unfold _print_knowledge_list. unfold mbind at 1, get_self.
  unfold mbind at 1, print at 1.
  set (kps := self_knowledge_points self).
  unfold mbind at 1.
  destruct (print_level_ok kps s_star3 txt_core self (out ++ [txt_list_title]))
    as [body3 [Hrun3 [Hitems3 Hhead3]]]; [simpl; tauto|].
  rewrite Hrun3. unfold mbind at 1.
  match goal with
  | |- context [print_level _ s_star2 txt_important self ?o] =>
      destruct (print_level_ok kps s_star2 txt_important self o)
        as [body2 [Hrun2 [Hitems2 Hhead2]]]; [simpl; tauto|]
  end.
  rewrite Hrun2.
  match goal with
  | |- context [print_level _ s_star1 txt_general self ?o] =>
      destruct (print_level_ok kps s_star1 txt_general self o)
        as [body1 [Hrun1 [Hitems1 Hhead1]]]; [simpl; tauto|]
  end.
  rewrite Hrun1. exists body3, body2, body1. split.
  - rewrite <- !app_assoc. reflexivity.
  - split; [now repeat split|]. intro Hnull.
    assert (Hlevel : forall star,
               null_chapters_first (map fst (level_entries star kps))).
    { intro star. unfold level_entries. rewrite map_map. cbn [fst].
      revert Hnull. generalize kps. clear.
      assert (Hall : forall l : list KnowledgePoint,
                 Forall known_chapter (map kp_chapter l) ->
                 Forall known_chapter
                        (map kp_chapter (filter (has_importance star) l))).
      { intros l H. rewrite Forall_map in *. rewrite Forall_forall in *.
        intros k Hk. apply H. now apply filter_In in Hk. }
      induction kps as [|k kps IH]; [trivial|].
      cbn [map filter null_chapters_first].
      destruct (kp_chapter k) as [c|] eqn:Ec.
      - intro H. apply known_null_first.
        apply (Hall (k :: kps)). cbn [map]. now rewrite Ec.
      - intro H. destruct (has_importance star k); [|now apply IH].
        cbn [map null_chapters_first]. rewrite Ec. now apply IH. }
    split; [now apply Hhead3|]. split; [now apply Hhead2|now apply Hhead1].
Qed.

Section ListHeadings.

Context {cc : CharClasses}.

Lemma headings_inv_weaken (chapter chapter' : option str)
      (chapters : list (option str)) :
  (is_some chapter = true -> is_some chapter' = true) ->
  headings_inv chapter' chapters -> headings_inv chapter chapters.
Proof.
  destruct chapter as [c|], chapter' as [c'|]; cbn [is_some headings_inv];
    intros Hsome H; try exact H.
  - specialize (Hsome eq_refl). discriminate.
  - now apply known_null_first.
Qed.

Lemma detect_chapter_some (line : str) (current : option str) :
  is_some current = true -> is_some (detect_chapter line current) = true.
Proof.
  unfold detect_chapter. now destruct (find (is_chapter_of line) CHAPTERS).
Qed.

Lemma spec_extract_null_first (lines : list str) :
  forall (i : nat) (chapter : option str),
    chapter_known chapter ->
    headings_inv chapter (map kp_chapter (spec_extract i chapter lines)).
Proof.
  induction lines as [|l lines IH]; intros i chapter Hknown.
  - cbn [spec_extract map]. destruct chapter; cbn [headings_inv]; [constructor|exact I].
  - cbn [spec_extract].
    assert (Hknown' := detect_chapter_known l chapter Hknown).
    assert (Hsome := detect_chapter_some l chapter).
    specialize (IH (S i) (detect_chapter l chapter) Hknown').
    destruct (is_knowledge_title l);
      [|exact (headings_inv_weaken _ _ _ Hsome IH)].
    cbn [map]. unfold spec_record at 1. cbn [kp_chapter].
    destruct (detect_chapter l chapter) as [c'|] eqn:Ed.
    + assert (Hall : Forall known_chapter
                            (Some c' :: map kp_chapter
                                            (spec_extract (S i) (Some c') lines))).
      { constructor; [|exact IH]. exists c'. split; [reflexivity|].
        now apply Hknown'. }
      destruct chapter; exact Hall.
    + destruct chapter as [c|]; [|exact IH].
      specialize (Hsome eq_refl). discriminate.
Qed.

Lemma extract_null_first (content : str) :
  null_chapters_first
    (map kp_chapter (extract_knowledge_points (split_lines content))).
Proof.
  rewrite (scan_records_from _ (split_lines_no_newline content) 0 scan_init I
           : extract_knowledge_points (split_lines content) = _).
  cbn [knowledge_points current_knowledge current_chapter scan_init map app
         open_record].
  apply (spec_extract_null_first (split_lines content) 0 None).
  intros c Hc. discriminate.
Qed.

End ListHeadings.

(** X18. [_print_knowledge_list] never raises and needs no statistics:
    on any analyzer it prints the title and one block per star mark, from
    three stars down to one.  Each block opens with the number of records
    of that mark and closes with an empty line, and the numbered lines in
    between are exactly the first fifty records of that mark, in the
    order of the records, numbered from 1 with their titles. *)
Theorem knowledge_list_items (self : analyzer) (out : list str) :
  exists body3 body2 body1,
    _print_knowledge_list self out
    = (Ok tt, self,
       out ++ [txt_list_title]
           ++ (count_line s_star3 txt_core
                 (length (level_entries s_star3 (self_knowledge_points self)))
                 :: body3 ++ [[]])
           ++ (count_line s_star2 txt_important
                 (length (level_entries s_star2 (self_knowledge_points self)))
                 :: body2 ++ [[]])
           ++ (count_line s_star1 txt_general
                 (length (level_entries s_star1 (self_knowledge_points self)))
                 :: body1 ++ [[]]))
    /\ filter is_item_line body3 = listed s_star3 (self_knowledge_points self)
    /\ filter is_item_line body2 = listed s_star2 (self_knowledge_points self)
    /\ filter is_item_line body1 = listed s_star1 (self_knowledge_points self).
Proof.
  destruct (print_knowledge_list_ok self out)
    as [body3 [body2 [body1 [Hrun [Hitems _]]]]].
  exists body3, body2, body1. split; [exact Hrun|exact Hitems].
Qed.

(** X19. In the records extracted from any text those without chapter
    come before all those with a chapter, and on these records the list
    never prints a heading for a missing chapter: every heading line
    names one of the fixed chapters with its display name. *)
Theorem knowledge_list_headings (cc : CharClasses) (content : str)
        (self : analyzer) (out : list str) :
  null_chapters_first
    (map kp_chapter (extract_knowledge_points (split_lines content)))
  /\ exists printed,
      _print_knowledge_list
        (set_knowledge_points (extract_knowledge_points (split_lines content))
                              self) out
      = (Ok tt,
         set_knowledge_points (extract_knowledge_points (split_lines content))
                              self,
         out ++ printed)
      /\ Forall heading_ok printed.
Proof.
  split; [apply extract_null_first|].
  destruct (print_knowledge_list_ok
              (set_knowledge_points
                 (extract_knowledge_points (split_lines content)) self) out)
    as [body3 [body2 [body1 [Hrun [_ Hhead]]]]].
  cbn [set_knowledge_points self_knowledge_points] in Hrun, Hhead.
  destruct (Hhead (extract_null_first content)) as [H3 [H2 H1]].
  eexists. split; [exact Hrun|].
  assert (Hblank : Forall heading_ok [[]])
    by (constructor; [apply blank_heading_ok|constructor]).
  apply Forall_app. split.
  { constructor; [|constructor]. intro H. change (false = true) in H.
    discriminate. }
  apply Forall_app. split.
  { constructor; [apply count_heading_ok|]. now apply Forall_app. }
  apply Forall_app. split.
  { constructor; [apply count_heading_ok|]. now apply Forall_app. }
  constructor; [apply count_heading_ok|]. now apply Forall_app.
Qed.

(** ** Page headers written by the loader and read by the analysis *)

Lemma ascii_digit_classes (c : char) :
  ascii_digit c ->
  @isdigit py_classes c = true
  /\ in_ranges digit_ranges c = true
  /\ exists d, d < 10 /\ c = N.of_nat (48 + d) /\ decimal_value c = Some d.
Proof.
  intros [d [Hd ->]].
  do 10 (destruct d as [|d];
         [split; [reflexivity|]; split; [reflexivity|];
          eexists; split; [|split; reflexivity]; lia|]).
  lia.
Qed.

Lemma decimal_digits_spec (fuel : nat) :
  forall (n : nat) (acc : str),
    n < fuel ->
    exists ds,
      decimal_digits fuel n acc = ds ++ acc
      /\ Forall ascii_digit ds
      /\ (forall a rest,
             decimal_number a (ds ++ rest)
             = decimal_number (a * 10 ^ length ds + n) rest)
      /\ n < 10 ^ length ds
      /\ (exists k, length ds = S k /\ (n = 0 /\ k = 0 \/ 10 ^ k <= n)).
Proof.
  induction fuel as [|fuel IH]; intros n acc Hfuel; [lia|].
  cbn [decimal_digits].
  assert (Hmod : n mod 10 < 10) by (apply Nat.mod_upper_bound; lia).
  assert (Hdiv := Nat.div_mod_eq n 10).
  assert (Hdigit : ascii_digit (N.of_nat (48 + n mod 10)))
    by (exists (n mod 10); now split).
  destruct (n / 10 =? 0) eqn:Eq.
  - apply Nat.eqb_eq in Eq. exists [N.of_nat (48 + n mod 10)].
    split; [reflexivity|]. split; [now constructor|]. split; [|split].
    + intros a rest. cbn [app decimal_number length].
      destruct (ascii_digit_classes _ Hdigit) as [_ [_ [d [Hd [Hc ->]]]]].
      assert (d = n mod 10) by lia. subst d.
      f_equal. rewrite Nat.pow_1_r. lia.
    + cbn [length]. rewrite Nat.pow_1_r. lia.
    + exists 0. split; [reflexivity|]. rewrite Nat.pow_0_r. lia.
  - apply Nat.eqb_neq in Eq.
    destruct (IH (n / 10) (N.of_nat (48 + n mod 10) :: acc)) as
        [ds [Hrun [Hall [Hparse [Hupper [k [Hlen Hlower]]]]]]]; [lia|].
    exists (ds ++ [N.of_nat (48 + n mod 10)]).
    split; [now rewrite Hrun, <- app_assoc|].
    split; [apply Forall_app; split; [exact Hall|now constructor]|].
    rewrite length_app, Hlen in *. cbn [length Nat.add] in *.
    replace (k + 1) with (S k) by lia.
    rewrite !Nat.pow_succ_r' in *.
    split; [|split].
    + intros a rest. rewrite <- app_assoc. cbn [app].
      rewrite Hparse. cbn [decimal_number].
      destruct (ascii_digit_classes _ Hdigit) as [_ [_ [d [Hd [Hc ->]]]]].
      assert (d = n mod 10) by lia. subst d.
      f_equal. lia.
    + lia.
    + exists (S k). split; [reflexivity|]. right.
      rewrite Nat.pow_succ_r'. lia.
Qed.

Lemma str_of_nat_spec (n : nat) :
  Forall ascii_digit (str_of_nat n)
  /\ decimal_number 0 (str_of_nat n) = Ok n
  /\ n < 10 ^ length (str_of_nat n)
  /\ exists k, length (str_of_nat n) = S k /\ (n = 0 /\ k = 0 \/ 10 ^ k <= n).
Proof.
  unfold str_of_nat.
  destruct (decimal_digits_spec (S n) n [])
    as [ds [Hrun [Hall [Hparse [Hupper Hlower]]]]]; [lia|].
  rewrite Hrun, app_nil_r. split; [exact Hall|]. split; [|now split].
  specialize (Hparse 0 []). rewrite app_nil_r in Hparse.
  rewrite Hparse. reflexivity.
Qed.

Lemma str_of_nat_length_mono (m n : nat) :
  m <= n -> length (str_of_nat m) <= length (str_of_nat n).
Proof.
  intro Hle.
  destruct (str_of_nat_spec m) as [_ [_ [_ [k [Hk Hlower]]]]].
  destruct (str_of_nat_spec n) as [_ [_ [Hupper [j [Hj _]]]]].
  rewrite Hk. rewrite Hj in *. destruct Hlower as [[_ ->]|Hlower]; [lia|].
  assert (H : 10 ^ k < 10 ^ S j) by lia.
  apply Nat.pow_lt_mono_r_iff in H; lia.
Qed.

Lemma finditer_skip (m : str -> option nat) (a : str) :
  forall (pos : nat) (s : str),
    re_finditer_from m pos (length a) (a ++ s)
    = re_finditer_from m (pos + length a) 0 s.
Proof.
  induction a as [|c a IH]; intros pos s.
  - cbn [length app]. now rewrite Nat.add_0_r.
  - cbn [length app re_finditer_from]. rewrite IH. f_equal. lia.
Qed.

Lemma finditer_match (m : str -> option nat) (a s : str) (pos : nat) :
  a <> [] -> m (a ++ s) = Some (length a) ->
  re_finditer_from m pos 0 (a ++ s)
  = (pos, length a) :: re_finditer_from m (pos + length a) 0 s.
Proof.
  destruct a as [|c a]; [congruence|]. intros _ Hm.
  cbn [app length] in *. cbn [re_finditer_from]. rewrite Hm.
  rewrite finditer_skip. do 2 f_equal. lia.
Qed.

Lemma finditer_none (m : str -> option nat) (c : char) (s : str) (pos : nat) :
  m (c :: s) = None ->
  re_finditer_from m pos 0 (c :: s) = re_finditer_from m (S pos) 0 s.
Proof. intro Hm. cbn [re_finditer_from]. now rewrite Hm. Qed.

Lemma prefix_before_newline (p : str) :
  forallb not_newline p = true ->
  forall t rest, prefix p t = false -> prefix p (t ++ newline :: rest) = false.
Proof.
  induction p as [|a p IH]; intros Hp t rest Ht; [discriminate|].
  cbn [forallb] in Hp. apply andb_prop in Hp. destruct Hp as [Ha Hp].
  destruct t as [|b t]; cbn [app prefix] in *.
  - unfold not_newline in Ha. apply negb_true_iff in Ha. now rewrite Ha.
  - destruct (a =? b)%N; [|reflexivity]. cbn [andb] in *. now apply IH.
Qed.

Lemma slice_group (pre a b c rest : str) :
  slice (pre ++ (a ++ b ++ c) ++ rest) (length pre + length a)
        (length pre + length (a ++ b ++ c) - length c)
  = b.
Proof.
  unfold slice. rewrite !length_app.
  replace (length pre + (length a + (length b + length c)) - length c
           - (length pre + length a)) with (length b) by lia.
  replace (pre ++ (a ++ b ++ c) ++ rest) with ((pre ++ a) ++ b ++ (c ++ rest))
    by now rewrite <- !app_assoc.
  replace (length pre + length a) with (length (pre ++ a))
    by now rewrite length_app.
  rewrite skipn_app, skipn_all, Nat.sub_diag. cbn [skipn app].
  rewrite firstn_app, firstn_all, Nat.sub_diag. cbn [firstn].
  now rewrite app_nil_r.
Qed.

Lemma digits_then_close (ds : str) :
  ds <> [] -> Forall ascii_digit ds ->
  forall rest,
    @m_digits_then py_classes (prefix s_page_close) (ds ++ s_page_close ++ rest)
    = Some (length ds).
Proof.
  induction ds as [|d ds IH]; [congruence|]. intros _ Hall rest.
  inversion Hall as [|? ? Hd Hds]. subst.
  destruct (ascii_digit_classes d Hd) as [Hdigit _].
  cbn [app m_digits_then]. rewrite Hdigit.
  destruct ds as [|d' ds].
  - reflexivity.
  - rewrite (IH ltac:(discriminate) Hds rest). reflexivity.
Qed.

Lemma page_head_header (ds rest : str) :
  ds <> [] -> Forall ascii_digit ds ->
  @page_head py_classes ((s_page_open ++ ds ++ s_page_close) ++ rest)
  = Some (length (s_page_open ++ ds ++ s_page_close)).
Proof.
  intros Hne Hall. unfold page_head, m_page_number.
  rewrite <- !app_assoc.
  change (prefix s_page_open (s_page_open ++ ?x)) with true. cbv iota.
  change (skipn (length s_page_open) (s_page_open ++ ?x)) with x.
  rewrite (digits_then_close ds Hne Hall rest). cbn [option_map fst].
  now rewrite !length_app.
Qed.

Lemma page_head_text (t : str) :
  contains s_page_open t = false ->
  forall (pos : nat) (s : str),
    re_finditer_from (@page_head py_classes) pos 0 (t ++ newline :: s)
    = re_finditer_from (@page_head py_classes) (pos + length t) 0 (newline :: s).
Proof.
  unfold contains. induction t as [|c t IH]; intros Hc pos s.
  - cbn [app length]. now rewrite Nat.add_0_r.
  - cbn [search_at] in Hc. apply orb_false_iff in Hc. destruct Hc as [Hp Hc].
    cbn [app length]. rewrite finditer_none.
    + rewrite (IH Hc). f_equal. lia.
    + unfold page_head, m_page_number.
      change (c :: t ++ newline :: s) with ((c :: t) ++ newline :: s).
      now rewrite (prefix_before_newline s_page_open eq_refl _ _ Hp).
Qed.

Lemma page_matches_from (texts : list (option str)) :
  forallb plain_page texts = true ->
  forall (i : nat) (pre : str),
    map (fun m : nat * nat =>
           slice (pre ++ join_lines (flat_map page_block (enumerate_from i texts)))
                 (fst m + length s_page_open)
                 (fst m + snd m - length s_page_close))
        (re_finditer_from (@page_head py_classes) (length pre) 0
           (join_lines (flat_map page_block (enumerate_from i texts))))
    = map (fun ip : nat * option str => str_of_nat (fst ip + 1))
          (filter (fun ip : nat * option str => has_text (snd ip))
                  (enumerate_from i texts)).
Proof.
  induction texts as [|text texts IH]; intros Hplain i pre; [reflexivity|].
  cbn [forallb] in Hplain. apply andb_prop in Hplain.
  destruct Hplain as [Hpage Hrest].
  cbn [enumerate_from flat_map filter snd]. unfold page_block at 1 3.
  cbn [snd fst].
  destruct text as [[|c t]|]; cbn [has_text truthy app];
    try exact (IH Hrest (S i) pre).
  cbn [map fst].
  destruct (str_of_nat_spec (i + 1)) as [Hdigits [_ [_ [k [Hk _]]]]].
  assert (Hne : str_of_nat (i + 1) <> [])
    by (intro H; rewrite H in Hk; discriminate).
  cbn [plain_page] in Hpage. apply negb_true_iff in Hpage.
  set (header := s_page_open ++ str_of_nat (i + 1) ++ s_page_close).
  specialize (IH Hrest (S i)).
  destruct (flat_map page_block (enumerate_from (S i) texts))
    as [|block blocks] eqn:Eblocks.
  - cbn [join_lines].
    replace (s_page_open ++ str_of_nat (i + 1) ++ s_page_close
               ++ newline :: c :: t ++ [newline])
      with (header ++ newline :: (c :: t) ++ [newline])
      by (unfold header; now rewrite <- !app_assoc).
    rewrite (finditer_match _ header _ _
               ltac:(unfold header, s_page_open; discriminate)
               (page_head_header _ _ Hne Hdigits)).
    cbn [map fst snd]. f_equal.
    + apply slice_group.
    + rewrite finditer_none by reflexivity.
      rewrite (page_head_text (c :: t) Hpage).
      rewrite finditer_none by reflexivity.
      cbn [re_finditer_from map]. rewrite <- (IH pre). reflexivity.
  - rewrite join_lines_cons.
    replace ((s_page_open ++ str_of_nat (i + 1) ++ s_page_close
                ++ newline :: c :: t ++ [newline])
               ++ newline :: join_lines (block :: blocks))
      with (header ++ newline :: (c :: t)
                   ++ newline :: newline :: join_lines (block :: blocks))
      by (unfold header; rewrite <- !app_assoc; cbn [app];
          now rewrite <- !app_assoc).
    rewrite (finditer_match _ header _ _
               ltac:(unfold header, s_page_open; discriminate)
               (page_head_header _ _ Hne Hdigits)).
    cbn [map fst snd]. f_equal.
    + apply slice_group.
    + rewrite finditer_none by reflexivity.
      rewrite (page_head_text (c :: t) Hpage).
      rewrite finditer_none by reflexivity.
      rewrite finditer_none by reflexivity.
      rewrite <- (IH (pre ++ header ++ newline :: (c :: t) ++ [newline; newline])).
      replace (length (pre ++ header ++ newline :: (c :: t) ++ [newline; newline]))
        with (S (S (S (length pre + length header) + length (c :: t))))
        by (rewrite !length_app; cbn [length]; rewrite length_app;
            cbn [length]; lia).
      replace ((pre ++ header ++ newline :: (c :: t) ++ [newline; newline])
                 ++ join_lines (block :: blocks))
        with (pre ++ header ++ newline :: (c :: t)
                  ++ newline :: newline :: join_lines (block :: blocks))
        by (rewrite <- !app_assoc; cbn [app]; now rewrite <- !app_assoc).
      reflexivity.
Qed.

Lemma page_numbers_read (nums : list nat) :
  Forall (fun n => length (str_of_nat n) <= 4300) nums ->
  forall pages,
    for_each (@page_number py_classes) (map str_of_nat nums) pages
    = Ok (pages ++ nums).
Proof.
  induction nums as [|n nums IH]; intros Hall pages.
  - cbn [map for_each]. now rewrite app_nil_r.
  - inversion Hall as [|? ? Hn Hnums]. subst.
    destruct (str_of_nat_spec n) as [Hdigits [Hvalue [_ [k [Hk _]]]]].
    cbn [map for_each]. unfold page_number at 1.
    cbn [str_isdigit py_int py_classes]. unfold py_str_isdigit, py_int_decimal.
    assert (Hnil : is_nil (str_of_nat n) = false)
      by (destruct (str_of_nat n); [discriminate|reflexivity]).
    assert (Hall' : forallb (in_ranges digit_ranges) (str_of_nat n) = true).
    { apply forallb_forall. intros c Hc.
      rewrite Forall_forall in Hdigits.
      now destruct (ascii_digit_classes c (Hdigits c Hc)) as [_ [H _]]. }
    rewrite Hnil, Hall'. cbn [negb andb].
    replace (4300 <? length (str_of_nat n)) with false
      by (symmetry; apply Nat.ltb_ge; exact Hn).
    rewrite Hvalue. cbn [bind]. rewrite (IH Hnums).
    now rewrite <- app_assoc.
Qed.

Lemma sorted_set_of_sorted (ns : list nat) :
  StronglySorted lt ns -> sorted_set ns = ns.
Proof.
  unfold sorted_set. induction 1 as [|n ns Hs IH Hlt]; [reflexivity|].
  cbn [fold_right]. rewrite IH. destruct ns as [|x ns]; [reflexivity|].
  cbn [insert_uniq]. inversion Hlt as [|? ? Hx _]. subst.
  apply Nat.ltb_lt in Hx. now rewrite Hx.
Qed.

Lemma text_pages_from (texts : list (option str)) :
  forall i,
    let pages :=
      map (fun ip : nat * option str => fst ip + 1)
          (filter (fun ip : nat * option str => has_text (snd ip))
                  (enumerate_from i texts)) in
    StronglySorted lt pages
    /\ Forall (fun n => i < n <= i + length texts) pages
    /\ length pages = length (filter has_text texts).
Proof.
  induction texts as [|text texts IH]; intros i; cbn zeta.
  - cbn [enumerate_from filter map length]. repeat split; constructor.
  - destruct (IH (S i)) as [Hsorted [Hrange Hlen]].
    assert (Hrange' : Forall (fun n => i < n <= i + length (text :: texts))
                             (map (fun ip : nat * option str => fst ip + 1)
                                  (filter (fun ip : nat * option str =>
                                             has_text (snd ip))
                                          (enumerate_from (S i) texts)))).
    { eapply Forall_impl; [|exact Hrange]. cbn [length]. intros n Hn. lia. }
    cbn [enumerate_from filter snd]. destruct (has_text text); cbn [map fst length].
    + split; [|split].
      * constructor; [exact Hsorted|].
        eapply Forall_impl; [|exact Hrange]. intros n Hn. cbn beta in Hn. lia.
      * constructor; [lia|exact Hrange'].
      * now rewrite Hlen.
    + split; [exact Hsorted|]. split; [exact Hrange'|exact Hlen].
Qed.

(** X20. The page headers the PDF loader writes are the ones the
    analysis reads back: when no page text contains the opening of a
    page header and the page count is within the interpreter's limit on
    the digits of an integer, [analyze_basic_info] on the extracted text
    returns as [pages] the numbers (from 1) of exactly the pages that
    gave text, in increasing order, and [page_count] is their number;
    pages without text leave gaps and are not counted. *)
Theorem pdf_pages_round_trip (texts : list (option str)) :
  forallb plain_page texts = true ->
  length (str_of_nat (length texts)) <= 4300 ->
  exists info,
    @analyze_basic_info py_classes (pages_text texts) = Ok info
    /\ bi_pages info = text_pages texts
    /\ bi_page_count info = length (filter has_text texts).
Proof.
  intros Hplain Hlimit.
  destruct (text_pages_from texts 0) as [Hsorted [Hrange Hlen]].
  fold (enumerate texts) in Hsorted, Hrange, Hlen.
  fold (text_pages texts) in Hsorted, Hrange, Hlen.
  assert (Hmatches : @page_matches py_classes (pages_text texts)
                     = map str_of_nat (text_pages texts)).
  { unfold page_matches, re_finditer, pages_text, text_pages, enumerate.
    rewrite map_map.
    exact (page_matches_from texts Hplain 0 []). }
  unfold analyze_basic_info. rewrite Hmatches.
  rewrite page_numbers_read.
  - cbn [bind app]. rewrite (sorted_set_of_sorted _ Hsorted).
    eexists. split; [reflexivity|]. cbn [bi_pages bi_page_count].
    split; [reflexivity|exact Hlen].
  - eapply Forall_impl; [|exact Hrange]. intros n Hn. cbn beta in Hn.
    etransitivity; [|exact Hlimit]. apply str_of_nat_length_mono. lia.
Qed.

Lemma pdf_pages_round_trip_witness :
  exists info,
    @analyze_basic_info py_classes
      (pages_text [Some (utf8 "第一章 === 导言"); None; Some []; Some (utf8 "12")])
    = Ok info
    /\ bi_pages info
       = text_pages [Some (utf8 "第一章 === 导言"); None; Some []; Some (utf8 "12")]
    /\ bi_page_count info
       = length (filter has_text
                        [Some (utf8 "第一章 === 导言"); None; Some [];
                         Some (utf8 "12")]).
Proof.
  apply (pdf_pages_round_trip
           [Some (utf8 "第一章 === 导言"); None; Some []; Some (utf8 "12")]);
    [reflexivity | vm_compute; lia].
Defined.

(** ** Bracket groups of a title *)

Section TitleBrackets.

Context {cc : CharClasses}.

Lemma re_sub_incl (m : str -> option nat) (s : str) (x : char) :
  forall skip, In x (re_sub_from m skip s) -> In x s.
Proof.
  induction s as [|c s IH]; intros skip; [tauto|].
  cbn [re_sub_from]. destruct skip as [|k]; [|intro H; right; now apply (IH k)].
  destruct (m (c :: s)) as [[|n]|].
  - intros [->|H]; [now left | right; now apply (IH 0)].
  - intro H. right. now apply (IH n).
  - intros [->|H]; [now left | right; now apply (IH 0)].
Qed.

Lemma has_group_prefix (open close : char) (a b : str) :
  has_group open close (a ++ b) = false -> has_group open close a = false.
Proof.
  induction a as [|c a IH]; [reflexivity|]. cbn [app has_group].
  intro H. apply orb_false_iff in H. destruct H as [Hc Hrest].
  rewrite (IH Hrest), orb_false_r.
  destruct (c =? open)%N; [|reflexivity]. cbn [andb] in *.
  rewrite existsb_app in Hc. now apply orb_false_iff in Hc.
Qed.

Lemma has_group_drop_while (open close : char) (f : char -> bool) (s : str) :
  has_group open close s = false ->
  has_group open close (drop_while f s) = false.
Proof.
  induction s as [|c s IH]; [reflexivity|]. intro H. cbn [drop_while].
  destruct (f c); [|exact H].
  cbn [has_group] in H. apply orb_false_iff in H. now apply IH.
Qed.

Lemma take_drop_while (A : Type) (f : A -> bool) (l : list A) :
  take_while f l ++ drop_while f l = l.
Proof.
  induction l as [|x l IH]; [reflexivity|]. cbn [take_while drop_while].
  destruct (f x); [|reflexivity]. cbn [app]. now rewrite IH.
Qed.

Lemma has_group_strip (open close : char) (s : str) :
  has_group open close s = false -> has_group open close (strip s) = false.
Proof.
  intro H. unfold strip, rstrip, lstrip.
  apply (has_group_drop_while open close isspace) in H.
  set (t := drop_while isspace s) in *.
  apply (has_group_prefix open close _
           (rev (take_while isspace (rev t)))).
  rewrite <- rev_app_distr, take_drop_while, rev_involutive. exact H.
Qed.

Lemma has_group_re_sub (open close : char) (m : str -> option nat) (s : str) :
  has_group open close s = false ->
  forall skip, has_group open close (re_sub_from m skip s) = false.
Proof.
  induction s as [|c s IH]; intros H skip; [reflexivity|].
  cbn [has_group] in H. apply orb_false_iff in H. destruct H as [Hc Hrest].
  assert (Hkeep : has_group open close (c :: re_sub_from m 0 s) = false).
  { cbn [has_group]. rewrite (IH Hrest 0), orb_false_r.
    destruct (c =? open)%N; [|reflexivity]. cbn [andb] in *.
    eapply existsb_false_incl; [|exact Hc].
    intros x Hx. now apply re_sub_incl in Hx. }
  cbn [re_sub_from]. destruct skip as [|k]; [|now apply IH].
  destruct (m (c :: s)) as [[|n]|]; [exact Hkeep|now apply IH|exact Hkeep].
Qed.

Lemma find_close_none (close : char) (s : str) :
  forallb not_newline s = true -> find_close close s = None ->
  existsb (N.eqb close) s = false.
Proof.
  induction s as [|c s IH]; [reflexivity|]. cbn [forallb find_close existsb].
  intros Hn Hf. apply andb_prop in Hn. destruct Hn as [Hc Hs].
  unfold not_newline in Hc. apply negb_true_iff in Hc. rewrite Hc in Hf.
  rewrite N.eqb_sym. destruct (c =? close)%N; [discriminate|].
  destruct (find_close close s); [discriminate|]. now apply IH.
Qed.

Lemma no_newline_incl (s t : str) :
  (forall c, In c t -> In c s) ->
  forallb not_newline s = true -> forallb not_newline t = true.
Proof.
  intros Hincl Hs. apply forallb_forall. intros c Hc.
  rewrite forallb_forall in Hs. now apply Hs, Hincl.
Qed.

(** [re.sub(r'\[.*?\]', '', s)] leaves no bracket group on a line. *)
Lemma re_sub_bracket_none (open close : char) (s : str) :
  forallb not_newline s = true ->
  forall skip, has_group open close (re_sub_from (m_bracket open close) skip s) = false.
Proof.
  induction s as [|c s IH]; intros Hn skip; [reflexivity|].
  cbn [forallb] in Hn. apply andb_prop in Hn. destruct Hn as [_ Hs].
  cbn [re_sub_from]. destruct skip as [|k]; [|now apply IH].
  cbn [m_bracket]. destruct (c =? open)%N eqn:Eo.
  - destruct (find_close close s) as [k|] eqn:Ef; [now apply IH|].
    cbn [has_group]. rewrite (IH Hs 0), orb_false_r, Eo. cbn [andb].
    eapply existsb_false_incl; [|exact (find_close_none close s Hs Ef)].
    intros x Hx. now apply re_sub_incl in Hx.
  - cbn [has_group]. rewrite Eo. cbn [andb orb]. now apply IH.
Qed.

Lemma knowledge_title_of_no_group (line : str) :
  forallb not_newline line = true ->
  has_group c_lsq c_rsq (knowledge_title_of line) = false
  /\ has_group c_lfw c_rfw (knowledge_title_of line) = false.
Proof.
  intro Hline. unfold knowledge_title_of.
  set (t1 := strip (re_sub m_kp line)).
  set (t2 := strip (re_sub (m_bracket c_lsq c_rsq) t1)).
  set (t3 := strip (re_sub (m_bracket c_lfw c_rfw) t2)).
  assert (H1 : forallb not_newline t1 = true).
  { apply (no_newline_incl line); [|exact Hline].
    intros c Hc. apply strip_incl in Hc. now apply re_sub_incl in Hc. }
  assert (H2 : forallb not_newline t2 = true).
  { apply (no_newline_incl t1); [|exact H1].
    intros c Hc. apply strip_incl in Hc. now apply re_sub_incl in Hc. }
  assert (Hsq2 : has_group c_lsq c_rsq t2 = false)
    by (apply has_group_strip, re_sub_bracket_none, H1).
  assert (Hsq3 : has_group c_lsq c_rsq t3 = false)
    by (apply has_group_strip, has_group_re_sub, Hsq2).
  assert (Hfw3 : has_group c_lfw c_rfw t3 = false)
    by (apply has_group_strip, re_sub_bracket_none, H2).
  split; now apply has_group_strip, has_group_re_sub.
Qed.

End TitleBrackets.

(** X21. The title of every emitted record holds no bracket group: no
    square bracket and no full-width bracket is followed, anywhere later
    in the title, by its closing bracket. *)
Theorem records_title_no_brackets (cc : CharClasses) (content : str) :
  Forall no_bracket_group (extract_knowledge_points (split_lines content)).
Proof.
  rewrite (scan_records_from _ (split_lines_no_newline content) 0 scan_init I
           : extract_knowledge_points (split_lines content) = _).
  apply Forall_forall. intros k Hk. cbn [knowledge_points map app] in Hk.
  destruct (spec_extract_lines _ _ _ _ Hk) as [j [line [rest [_ [Hn [_ ->]]]]]].
  unfold no_bracket_group. cbn [kp_title spec_record].
  apply knowledge_title_of_no_group.
  assert (Hall := split_lines_no_newline content).
  rewrite Forall_forall in Hall. apply Hall.
  now apply nth_error_In in Hn.
Qed.
